(** * Health sensor data analysis: a shallow embedding of
      [analyze_health_data.py] and the properties of its pipeline.

    The script loads a CSV file with NumPy's [genfromtxt], computes the
    mean of three integer columns, counts the readings above three fixed
    thresholds, renders a text report and writes it to a file.

    Modelling choices, in the order of the file:
    - Python [int] is [Z]; a NumPy [i4] cell is a [Z] in the 32-bit range.
    - Python [float] (IEEE 754 binary64) is the standard library's
      [spec_float] at precision 53; the [f4] column is [spec_float] at
      precision 24.  No operation on floats is idealised to the reals.
    - Python [str] is [string], one character for each byte.  The model
      stands for ASCII text ([plain_text]), where bytes, characters and
      code points are the same.
    - The structured array is the list of its rows, in file order.
    - The dictionaries with three fixed keys are records.
    - The file system is a finite map from split paths to nodes, threaded
      through the functions that touch it, together with standard output.
      The model stands for relative paths made of plain names
      ([proper_path]); [.], [..], empty names and absolute paths have no
      form in it.
    - [genfromtxt] opens its file through NumPy's [DataSource], which
      also looks for a compressed variant of the name and picks its opener
      by the extension.  The model reads the file as it is: it stands for
      names without such an extension, and for a missing file when no
      variant is there ([DataSource.possible_names]).
    - [np.mean] adds the cells in binary64.  The model adds them exactly
      and converts the sum once, which is the same for fewer than [2^22]
      cells of 32 bits, in whatever order NumPy adds them
      ([mean_by_any_order]); the statements on averages carry that bound. *)

From Stdlib Require Import ZArith List String Ascii Bool Lia.
From Stdlib Require Import Numbers.DecimalString.
From Stdlib Require Numbers.DecimalPos Numbers.DecimalZ.
From Stdlib Require Import Floats.SpecFloat.
From stdpp Require Import base option list gmap strings.

Import ListNotations.
Local Open Scope string_scope.
Local Open Scope list_scope.
Local Open Scope Z_scope.

(** ** The array rows *)

(** One row of the structured array built by [load_data]: the eight fields
    of its [dtype], in column order. *)
Record Reading := {
  patient_id : string;
  timestamp : string;
  heart_rate : Z;
  blood_pressure_systolic : Z;
  blood_pressure_diastolic : Z;
  temperature : spec_float;
  glucose_level : Z;
  sensor_id : string
}.

(** The structured array: its rows in file order.  [data.size] is the
    number of rows, also for the zero-dimensional array that [genfromtxt]
    returns for a single row. *)
Abbreviation Dataset := (list Reading).

Definition size (data : Dataset) : Z := Z.of_nat (length data).

(** [data['name']]: one column of the array. *)
Definition column (f : Reading -> Z) (data : Dataset) : list Z := map f data.

(** A cell of an [i4] column. *)
Definition i4 (n : Z) : bool := (- 2 ^ 31 <=? n) && (n <? 2 ^ 31).

(** A row of the array: its four integer cells fit their type. *)
Definition valid_reading (r : Reading) : bool :=
  i4 (heart_rate r) && i4 (blood_pressure_systolic r)
  && i4 (blood_pressure_diastolic r) && i4 (glucose_level r).

(** ** Python strings *)

Module Str.

Definition LF : ascii := "010"%char.
Definition CR : ascii := "013"%char.

(** [s.split(sep)] for a one-character separator: never the empty
    list, [''.split(',') == ['']]. *)
Fixpoint split (sep : ascii) (s : string) : list string :=
  match s with
  | EmptyString => [""]
  | String c s' =>
      if Ascii.eqb c sep then "" :: split sep s'
      else match split sep s' with
           | w :: ws => String c w :: ws
           | [] => [String c ""]
           end
  end.

(** [sep.join(parts)]. *)
Definition join (sep : string) (parts : list string) : string :=
  String.concat sep parts.

Fixpoint mem (c : ascii) (chars : string) : bool :=
  match chars with
  | EmptyString => false
  | String d chars' => Ascii.eqb c d || mem c chars'
  end.

Fixpoint lstrip (chars : string) (s : string) : string :=
  match s with
  | EmptyString => ""
  | String c s' => if mem c chars then lstrip chars s' else s
  end.

Fixpoint rstrip (chars : string) (s : string) : string :=
  match s with
  | EmptyString => ""
  | String c s' =>
      match rstrip chars s' with
      | EmptyString => if mem c chars then "" else String c ""
      | r => String c r
      end
  end.

(** [s.strip(chars)]. *)
Definition strip (chars : string) (s : string) : string :=
  rstrip chars (lstrip chars s).

(** [s[:n]]. *)
Fixpoint take (n : nat) (s : string) : string :=
  match n, s with
  | S n', String c s' => String c (take n' s')
  | _, _ => ""
  end.

Definition lower_char (c : ascii) : ascii :=
  let n := N_of_ascii c in
  if ((65 <=? n) && (n <=? 90))%N then ascii_of_N (n + 32) else c.

(** [s.lower()] on ASCII text. *)
Fixpoint lower (s : string) : string :=
  match s with
  | EmptyString => ""
  | String c s' => String (lower_char c) (lower s')
  end.

(** [needle in s] for substrings. *)
Fixpoint contains (needle s : string) : bool :=
  String.prefix needle s ||
  match s with
  | EmptyString => false
  | String _ s' => contains needle s'
  end.

(** ['=' * n] and the like. *)
Fixpoint repeat (c : ascii) (n : nat) : string :=
  match n with
  | O => ""
  | S n' => String c (repeat c n')
  end.

(** [str(n)] for an [int]: decimal digits, a minus sign when negative. *)
Definition of_int (n : Z) : string := NilZero.string_of_int (Z.to_int n).

(** Text-mode reading translates every line ending to a line feed. *)
Fixpoint universal_newlines (s : string) : string :=
  match s with
  | EmptyString => ""
  | String c s' =>
      if Ascii.eqb c CR then
        match s' with
        | String d s'' =>
            if Ascii.eqb d LF then String LF (universal_newlines s'')
            else String LF (universal_newlines s')
        | EmptyString => String LF ""
        end
      else String c (universal_newlines s')
  end.

(** The lines a text file iterates over, without their terminators: a
    trailing line feed ends the last line, it does not start an empty
    one. *)
Definition file_lines (content : string) : list string :=
  let parts := split LF (universal_newlines content) in
  match last parts with
  | Some EmptyString => removelast parts
  | _ => parts
  end.

End Str.

(** The number of occurrences of a character. *)
Fixpoint count_char (c : ascii) (s : string) : nat :=
  match s with
  | EmptyString => O
  | String d s' => (if Ascii.eqb d c then 1 else 0) + count_char c s'
  end.

(** The characters of a decimal numeral. *)
Definition numeral_chars : string := "-0123456789".

Fixpoint all_in (allowed s : string) : bool :=
  match s with
  | EmptyString => true
  | String c s' => Str.mem c allowed && all_in allowed s'
  end.

(** ** IEEE 754 binary floats *)

(** Python's [float] and NumPy's [float64]: binary64. *)
Module F64.

Definition prec : Z := 53.
Definition emax : Z := 1024.

Abbreviation float := spec_float.

Definition zero : float := S754_zero false.
Definition nan : float := S754_nan.

(** Conversion of an integer, rounded to nearest even when the integer
    has more than 53 significant bits. *)
Definition of_Z (n : Z) : float := binary_normalize prec emax n 0 false.

Definition div (x y : float) : float := SFdiv prec emax x y.

Definition add (x y : float) : float := SFadd prec emax x y.

(** The value of [m * 10^e] for a decimal literal, correctly rounded. *)
Definition of_decimal (s : bool) (m e : Z) : float :=
  match m with
  | Zpos p =>
      match e with
      | Zneg k =>
          SFdiv prec emax (S754_finite s p 0)
                (S754_finite false (Pos.pow 10 k) 0)
      | _ => binary_normalize prec emax (cond_Zopp s (Zpos p * 10 ^ e)) 0 false
      end
  | _ => S754_zero s
  end.

(** Truncation toward zero of a finite float; [None] for the others. *)
Definition trunc (x : float) : option Z :=
  match x with
  | S754_zero _ => Some 0
  | S754_finite s m e =>
      Some (cond_Zopp s (match e with
                         | Zneg k => Zpos m / 2 ^ Zpos k
                         | _ => Zpos m * 2 ^ e
                         end))
  | _ => None
  end.

End F64.

(** NumPy's [float32], the type of the [f4] column. *)
Module F32.

Definition prec : Z := 24.
Definition emax : Z := 128.

(** The cast of a binary64 value, rounded to nearest even. *)
Definition of_f64 (x : spec_float) : spec_float :=
  match x with
  | S754_finite s m e => binary_round prec emax s m e
  | _ => x
  end.

End F32.

(** ** Exceptions *)

(** The exception classes the script can meet; all derive from
    [Exception]. *)
Inductive exn_class :=
  | FileNotFoundError
  | PermissionError
  | IsADirectoryError
  | NotADirectoryError
  | FileExistsError
  | ValueError
  | OverflowError.

(** An exception: its class and [str(e)]. *)
Record exn := { exn_kind : exn_class; exn_msg : string }.

Inductive result (A : Type) :=
  | Ok (a : A)
  | Raise (e : exn).
Arguments Ok {A} a.
Arguments Raise {A} e.

#[global] Instance result_ret : MRet result := fun A a => Ok a.
#[global] Instance result_bind : MBind result := fun A B k r =>
  match r with
  | Ok a => k a
  | Raise e => Raise e
  end.

Definition raise {A : Type} (c : exn_class) (msg : string) : result A :=
  Raise {| exn_kind := c; exn_msg := msg |}.

Definition is_ok {A : Type} (r : result A) : bool :=
  match r with Ok _ => true | Raise _ => false end.

(** The calls [f a] for the elements of a list, left to right, up to the
    first one that raises. *)
Fixpoint mapM {A B : Type} (f : A -> result B) (l : list A) : result (list B) :=
  match l with
  | [] => Ok []
  | a :: l' => b ← f a; bs ← mapM f l'; Ok (b :: bs)
  end.

(** ** Python builtins on numbers *)

Module Py.

Definition is_digit (c : ascii) : bool :=
  let n := N_of_ascii c in ((48 <=? n) && (n <=? 57))%N.

Definition digit_val (c : ascii) : Z := Z.of_N (N_of_ascii c) - 48.

(** The characters [float] strips: space, tab, line feed, vertical tab,
    form feed, carriage return. *)
Definition whitespace : string :=
  String " " (String "009" (String "010" (String "011" (String "012"
    (String "013" ""))))).

(** Digit grouping: an underscore must stand between two digits; the
    underscores are then dropped.  [prev] is the character before [s]. *)
Fixpoint drop_underscores (prev : ascii) (s : string) : option string :=
  match s with
  | EmptyString => if Ascii.eqb prev "_" then None else Some ""
  | String c s' =>
      if Ascii.eqb c "_" then
        if is_digit prev then drop_underscores c s' else None
      else if Ascii.eqb prev "_" && negb (is_digit c) then None
      else option_map (String c) (drop_underscores c s')
  end.

(** The longest prefix of digits: the number read so far, how many
    digits were read, and the rest. *)
Fixpoint read_digits (s : string) (acc : Z) (n : Z) : Z * Z * string :=
  match s with
  | String c s' =>
      if is_digit c then read_digits s' (10 * acc + digit_val c) (n + 1)
      else (acc, n, s)
  | EmptyString => (acc, n, "")
  end.

Definition read_sign (s : string) : bool * string :=
  match s with
  | String c s' =>
      if Ascii.eqb c "-" then (true, s')
      else if Ascii.eqb c "+" then (false, s')
      else (false, s)
  | EmptyString => (false, "")
  end.

(** The exponent part [e[+-]digits] at the end of a literal, or nothing;
    [None] when what remains is neither. *)
Definition read_exponent (s : string) : option Z :=
  match s with
  | EmptyString => Some 0
  | String c s' =>
      if Ascii.eqb c "e" || Ascii.eqb c "E" then
        let '(neg, s'') := read_sign s' in
        match read_digits s'' 0 0 with
        | (v, n, EmptyString) =>
            if 0 <? n then Some (cond_Zopp neg v) else None
        | _ => None
        end
      else None
  end.

(** [float(s)] on a string of ASCII characters; [None] stands for its
    [ValueError].  The literal is stripped, may group digits with
    underscores, and is [inf], [infinity] or [nan] in any case, or a
    decimal number with an optional fraction and exponent; the value is
    the nearest binary64.  Beyond ASCII Python also strips the other
    blanks of Unicode and reads the other decimal digits; the model does
    not. *)
Definition float_of_str (s : string) : option spec_float :=
  match drop_underscores " " (Str.strip whitespace s) with
  | None => None
  | Some t =>
      let '(neg, body) := read_sign t in
      let low := Str.lower body in
      if String.eqb low "inf" || String.eqb low "infinity" then
        Some (S754_infinity neg)
      else if String.eqb low "nan" then Some S754_nan
      else
        let '(ip, n1, r1) := read_digits body 0 0 in
        let '(m, n2, r2) :=
          match r1 with
          | String c r1' =>
              if Ascii.eqb c "." then read_digits r1' ip 0 else (ip, 0, r1)
          | EmptyString => (ip, 0, r1)
          end in
        if 0 <? n1 + n2 then
          match read_exponent r2 with
          | Some e => Some (F64.of_decimal neg m (e - n2))
          | None => None
          end
        else None
  end.

(** [int(x)] on a float: truncation toward zero. *)
Definition int_of_float (x : spec_float) : result Z :=
  match x with
  | S754_nan => raise ValueError "cannot convert float NaN to integer"
  | S754_infinity _ =>
      raise OverflowError "cannot convert float infinity to integer"
  | _ => match F64.trunc x with
         | Some n => Ok n
         | None => Ok 0
         end
  end.

End Py.

(** ** Formatting *)

Module Fmt.

(** The integer nearest to [a / b] for [0 <= a] and [0 < b], ties to
    the even neighbour. *)
Definition div_half_even (a b : Z) : Z :=
  let q := a / b in
  match 2 * (a mod b) ?= b with
  | Lt => q
  | Eq => if Z.even q then q else q + 1
  | Gt => q + 1
  end.

(** [m * 2^e] in tenths, rounded to the nearest tenth of the exact
    binary value, ties to even: the digits [format] prints. *)
Definition tenths (m : positive) (e : Z) : Z :=
  match e with
  | Zneg k => div_half_even (Zpos m * 10) (2 ^ Zpos k)
  | _ => Zpos m * 2 ^ e * 10
  end.

Definition sign_str (s : bool) : string := if s then "-" else "".

(** [format(x, '.1f')], the [{x:.1f}] of an f-string. *)
Definition fixed1 (x : spec_float) : string :=
  match x with
  | S754_nan => "nan"
  | S754_infinity s => sign_str s +:+ "inf"
  | S754_zero s => sign_str s +:+ "0.0"
  | S754_finite s m e =>
      let t := tenths m e in
      sign_str s +:+ Str.of_int (t / 10) +:+ "." +:+ Str.of_int (t mod 10)
  end.

End Fmt.

(** A float literal of the source text, [digits * 10^e]. *)
Definition literal (digits e : Z) : spec_float :=
  F64.of_decimal (digits <? 0) (Z.abs digits) e.

(** ** The file system and standard output *)

(** A path in split form: the names between the slashes, from the working
    directory down.  The script's paths are relative and hold neither [.]
    nor [..]; the model stands for such paths only ([proper_path] below):
    in it every name is an entry of its directory. *)
Abbreviation path := (list string).

(** The path as the script writes it. *)
Definition path_str (p : path) : string := Str.join "/" p.

(** [os.path.dirname], on a path of proper names. *)
Definition dirname (p : path) : path := removelast p.

Record file := { readable : bool; writable : bool; content : string }.

Inductive node :=
  | Dir
  | File (f : file).

(** The state the script runs in: the tree below the working directory
    and the texts printed so far, one for each call of [print].  A file
    can be closed to reading or to writing; directories are open, and the
    disk is never full. *)
Record World := { fs : gmap path node; stdout : list string }.

Module Fs.

(** The node at a path; the working directory itself is a directory. *)
Definition lookup (t : gmap path node) (p : path) : option node :=
  match p with
  | [] => Some Dir
  | _ => t !! p
  end.

(** Every node hangs below a directory. *)
Definition wf (t : gmap path node) : Prop :=
  t !! [] = None /\
  forall p n, t !! p = Some n -> lookup t (dirname p) = Some Dir.

(** [os.path.exists]. *)
Definition exists_ (t : gmap path node) (p : path) : bool :=
  match lookup t p with Some _ => true | None => false end.

(** [os.path.isdir]. *)
Definition isdir (t : gmap path node) (p : path) : bool :=
  match lookup t p with Some Dir => true | _ => false end.

Definition quoted (p : path) : string := "'" +:+ path_str p +:+ "'".

(** Opening a file for reading and reading it whole: what [genfromtxt]
    does with a path that has no extension of a compressed file, read as
    ASCII text.  The message for a missing file is NumPy's, raised when
    neither the path nor a compressed variant of it is there. *)
Definition read_text (t : gmap path node) (p : path) : result string :=
  match lookup t p with
  | None => raise FileNotFoundError (path_str p +:+ " not found.")
  | Some Dir =>
      raise IsADirectoryError ("[Errno 21] Is a directory: " +:+ quoted p)
  | Some (File f) =>
      if readable f then Ok (content f)
      else raise PermissionError
                 ("[Errno 13] Permission denied: " +:+ quoted p)
  end.

(** [os.mkdir]. *)
Definition mkdir (t : gmap path node) (p : path)
    : result (gmap path node) :=
  if bool_decide (p = []) then
    raise FileNotFoundError
          ("[Errno 2] No such file or directory: " +:+ quoted p)
  else
    match lookup t p with
    | Some _ =>
        raise FileExistsError ("[Errno 17] File exists: " +:+ quoted p)
    | None =>
        match lookup t (dirname p) with
        | Some Dir => Ok (<[p := Dir]> t)
        | Some (File _) =>
            raise NotADirectoryError
                  ("[Errno 20] Not a directory: " +:+ quoted p)
        | None =>
            raise FileNotFoundError
                  ("[Errno 2] No such file or directory: " +:+ quoted p)
        end
    end.

(** [os.makedirs(name, exist_ok=True)], on the reversed path so that the
    recursion on [head] is structural: create the missing ancestors,
    then the directory itself; an exception of [mkdir] is passed over when
    the directory is there.  The tree comes back with the directories
    made before an exception, if any.  The empty name is no directory. *)
Fixpoint makedirs_rev (t : gmap path node) (rname : list string)
    : gmap path node * option exn :=
  match rname with
  | [] =>
      (t, Some {| exn_kind := FileNotFoundError;
                  exn_msg := "[Errno 2] No such file or directory: ''" |})
  | tail :: rhead =>
      let '(t1, err) :=
        if negb (bool_decide (rhead = [])) && negb (exists_ t (rev rhead))
        then
          match makedirs_rev t rhead with
          | (t', Some e) =>
              match exn_kind e with
              | FileExistsError => (t', None)
              | _ => (t', Some e)
              end
          | r => r
          end
        else (t, None) in
      match err with
      | Some e => (t1, Some e)
      | None =>
          match mkdir t1 (rev rname) with
          | Ok t2 => (t2, None)
          | Raise e =>
              if isdir t1 (rev rname) then (t1, None) else (t1, Some e)
          end
      end
  end.

Definition makedirs (t : gmap path node) (name : path)
    : gmap path node * option exn :=
  makedirs_rev t (rev name).

(** [open(p, 'w', encoding='utf-8')], [f.write(text)] and the close.
    The text is ASCII and the platform's line ending is the line feed,
    so the bytes written are the text itself. *)
Definition write_text (t : gmap path node) (p : path) (text : string)
    : result (gmap path node) :=
  match p with
  | [] => raise FileNotFoundError
                ("[Errno 2] No such file or directory: " +:+ quoted p)
  | _ =>
      match lookup t (dirname p) with
      | None =>
          raise FileNotFoundError
                ("[Errno 2] No such file or directory: " +:+ quoted p)
      | Some (File _) =>
          raise NotADirectoryError
                ("[Errno 20] Not a directory: " +:+ quoted p)
      | Some Dir =>
          match t !! p with
          | Some Dir =>
              raise IsADirectoryError
                    ("[Errno 21] Is a directory: " +:+ quoted p)
          | Some (File f) =>
              if writable f then
                Ok (<[p := File {| readable := readable f;
                                   writable := writable f;
                                   content := text |}]> t)
              else raise PermissionError
                         ("[Errno 13] Permission denied: " +:+ quoted p)
          | None =>
              Ok (<[p := File {| readable := true; writable := true;
                                 content := text |}]> t)
          end
      end
  end.

End Fs.

(** The directories above a path, the working directory first. *)
Fixpoint ancestors (p : path) : list path :=
  match p with
  | [] => []
  | x :: p' => [] :: map (cons x) (ancestors p')
  end.

(** The conditions under which writing a file at [filename] meets no
    error of the file system: the path names something, nothing above it
    is a file, and it is free or a file open to writing. *)
Definition can_write (t : gmap path node) (filename : path) : bool :=
  negb (bool_decide (filename = []))
  && forallb (fun q => match Fs.lookup t q with
                       | Some (File _) => false
                       | _ => true
                       end) (ancestors filename)
  && match t !! filename with
     | None => true
     | Some (File f) => writable f
     | Some Dir => false
     end.

(** ** Statements with effects *)

(** A statement runs in a world and leaves a world, also when it raises:
    what it did before the exception stays done. *)
Definition io (A : Type) : Type := World -> result A * World.

#[global] Instance io_ret : MRet io := fun A a w => (Ok a, w).
#[global] Instance io_bind : MBind io := fun A B k m w =>
  match m w with
  | (Ok a, w') => k a w'
  | (Raise e, w') => (Raise e, w')
  end.

(** [print(line)]. *)
Definition print (line : string) : io unit := fun w =>
  (Ok tt, {| fs := fs w; stdout := stdout w ++ [line] |}).

(** ** NumPy's [genfromtxt] *)

(** The call of [load_data]: [genfromtxt(filename, delimiter=',',
    dtype=dtype, skip_header=1)], with NumPy's defaults for the rest:
    [comments='#'], [autostrip=False], [loose=True], [invalid_raise=True],
    no [usecols], [names], [converters], footer or mask.  The function
    follows [numpy.lib] (NumPy 2) step by step: the lines are split, the
    rows are checked against the length of the first one, the cells are
    converted column by column, and the rows are stored in an array of
    the [dtype].  Warnings are not modelled. *)
Module Genfromtxt.

(** The scalar types of the [dtype]: [Un], [i4], [f4]. *)
Inductive ftype :=
  | U (width : nat)
  | I4
  | F4.

(** A converted cell, before it is stored in the array. *)
Inductive value :=
  | VStr (s : string)
  | VInt (n : Z)
  | VFloat (x : spec_float).

(** [LineSplitter]: cut the comment, strip blanks and line ends, split
    at the delimiter; a line left empty has no field. *)
Definition split_line (delimiter comments : ascii) (line : string)
    : list string :=
  let line := hd "" (Str.split comments line) in
  let line := Str.strip (String " " (String Str.CR (String Str.LF ""))) line in
  if String.eqb line "" then [] else Str.split delimiter line.

(** [StringConverter._loose_call]: the converter of the column's type,
    its default when the converter raises [ValueError].  Strings are
    kept; an integer column converts with [int(float(x))] and defaults
    to [-1]; a float column converts with [float(x)] and defaults to
    [nan].  Another exception of the converter is not caught. *)
Definition loose_call (t : ftype) (v : string) : result value :=
  match t with
  | U _ => Ok (VStr v)
  | I4 =>
      match Py.float_of_str v with
      | None => Ok (VInt (-1))
      | Some x =>
          match Py.int_of_float x with
          | Ok n => Ok (VInt n)
          | Raise e =>
              match exn_kind e with
              | ValueError => Ok (VInt (-1))
              | _ => Raise e
              end
          end
      end
  | F4 =>
      match Py.float_of_str v with
      | None => Ok (VFloat S754_nan)
      | Some x => Ok (VFloat x)
      end
  end.

(** The message of the [ValueError] for rows of the wrong length. *)
Definition invalid_message (nbcols : nat) (invalid : list (Z * nat))
    : string :=
  Str.join (String Str.LF "")
    ("Some errors were detected !" ::
     map (fun '(i, nb) =>
            "    Line #" +:+ Str.of_int i +:+ " (got "
            +:+ Str.of_int (Z.of_nat nb) +:+ " columns instead of "
            +:+ Str.of_int (Z.of_nat nbcols) +:+ ")")
         invalid).

(** A line that holds a field. *)
Definition filled (vs : list string) : bool := negb (bool_decide (vs = [])).

(** The lines without a field before the first row are passed over. *)
Fixpoint skip_blank (splits : list (list string)) : list (list string) :=
  match splits with
  | [] :: splits' => skip_blank splits'
  | _ => splits
  end.

(** The rows read from the lines after the header: lines without a
    field are skipped, also before the first row; the first row fixes
    the number of columns [nbcols]; the other rows must have as many.
    The result is [nbcols], the rows of that length, and the line
    number and length of each of the others. *)
Definition read_rows (delimiter comments : ascii) (skip_header : nat)
    (lines : list string)
    : nat * list (list string) * list (Z * nat) :=
  let splits := map (split_line delimiter comments) (drop skip_header lines) in
  let splits := skip_blank splits in
  let nbcols := length (hd [] splits) in
  let numbered := imap (fun i vs => (Z.of_nat i, vs)) splits in
  let kept := List.filter (fun '(_, vs) => filled vs) numbered in
  let rows :=
    List.filter (fun '(_, vs) => length vs =? nbcols)%nat kept in
  let invalid :=
    List.filter (fun '(_, vs) => negb (length vs =? nbcols)%nat) kept in
  (nbcols, map snd rows,
   map (fun '(i, vs) => (i + Z.of_nat skip_header + 1, length vs)) invalid).

(** The converters: one for each pair of a [dtype] field and a column
    of the file, as many as the shorter of the two. *)
Definition converters (dtype : list (string * ftype)) (nbcols : nat)
    : list (nat * ftype) :=
  take nbcols (imap (fun i '(_, t) => (i, t)) dtype).

(** The conversion, column after column. *)
Definition convert_columns (convs : list (nat * ftype))
    (rows : list (list string)) : result (list (list value)) :=
  mapM (fun '(i, t) => mapM (fun r => loose_call t (nth i r "")) rows)
       convs.

(** [zip( *columns )]: the converted rows. *)
Definition zip_columns (nrows : nat) (columns : list (list value))
    : list (list value) :=
  match columns with
  | [] => []
  | _ => map (fun j => map (fun col => nth j col (VStr "")) columns)
             (seq 0 nrows)
  end.

(** Storing a Python [int] in an [i4] cell: the integer goes through a C
    [long] of 64 bits first. *)
Definition store_i4 (n : Z) : result Z :=
  if i4 n then Ok n
  else raise OverflowError
             (if (- 2 ^ 63 <=? n) && (n <? 2 ^ 63)
              then "Python integer " +:+ Str.of_int n
                   +:+ " out of bounds for int32"
              else "Python int too large to convert to C long").

(** Storing one converted row in the array of the script's [dtype]:
    eight cells, strings cut to their width, integers within 32 bits,
    the float rounded to binary32.  The width of a [U] field counts code
    points, which on ASCII text are the characters of the model. *)
Definition store_row (vals : list value) : result Reading :=
  match vals with
  | [VStr pid; VStr ts; VInt hr; VInt sys; VInt dia; VFloat temp;
     VInt glu; VStr sid] =>
      hr' ← store_i4 hr;
      sys' ← store_i4 sys;
      dia' ← store_i4 dia;
      glu' ← store_i4 glu;
      Ok {| patient_id := Str.take 10 pid;
            timestamp := Str.take 20 ts;
            heart_rate := hr';
            blood_pressure_systolic := sys';
            blood_pressure_diastolic := dia';
            temperature := F32.of_f64 temp;
            glucose_level := glu';
            sensor_id := Str.take 10 sid |}
  | _ =>
      raise ValueError
            ("could not assign tuple of length "
             +:+ Str.of_int (Z.of_nat (length vals))
             +:+ " to structure with 8 fields.")
  end.

(** The array built from the lines of the file. *)
Definition from_lines (delimiter : ascii) (dtype : list (string * ftype))
    (skip_header : nat) (lines : list string) : result Dataset :=
  let '(nbcols, rows, invalid) :=
    read_rows delimiter "#" skip_header lines in
  match invalid with
  | _ :: _ => raise ValueError (invalid_message nbcols invalid)
  | [] =>
      columns ← convert_columns (converters dtype nbcols) rows;
      mapM store_row (zip_columns (length rows) columns)
  end.

Definition genfromtxt (t : gmap path node) (fname : path)
    (delimiter : ascii) (dtype : list (string * ftype)) (skip_header : nat)
    : result Dataset :=
  text ← Fs.read_text t fname;
  from_lines delimiter dtype skip_header (Str.file_lines text).

(** The rows of the file as the parser sees them: the lines after the
    header that hold a field, each split into its fields. *)
Definition data_rows (delimiter : ascii) (skip_header : nat)
    (lines : list string) : list (list string) :=
  List.filter filled
    (map (split_line delimiter "#") (drop skip_header lines)).

End Genfromtxt.

(** ** [load_data] *)

Definition dtype : list (string * Genfromtxt.ftype) :=
  [ ("patient_id", Genfromtxt.U 10); ("timestamp", Genfromtxt.U 20);
    ("heart_rate", Genfromtxt.I4); ("blood_pressure_systolic", Genfromtxt.I4);
    ("blood_pressure_diastolic", Genfromtxt.I4);
    ("temperature", Genfromtxt.F4);
    ("glucose_level", Genfromtxt.I4); ("sensor_id", Genfromtxt.U 10) ].

Definition load_data (t : gmap path node) (filename : path) : result Dataset :=
  Genfromtxt.genfromtxt t filename "," dtype 1.

(** ** NumPy reductions *)

Module Np.

(** [a > c] on an integer array: the array of the comparisons. *)
Definition gt (a : list Z) (c : Z) : list bool := map (fun x => c <? x) a.

(** [mask.sum()] on a boolean array: [True] counts 1, [False] counts 0,
    accumulated from the left in a 64-bit integer (no array fits enough
    rows to wrap it). *)
Definition sum_bool (mask : list bool) : Z :=
  fold_left (fun acc b => acc + Z.b2z b) mask 0.

(** The exact sum of an integer array. *)
Definition sum (a : list Z) : Z := fold_left Z.add a 0.

(** [np.mean(a)] on an [i4] array of fewer than [2^22] cells: the cells
    are added in binary64 and the total is divided by the number of
    cells, in binary64.  Fewer than [2^22] cells of 32 bits add up to an
    integer below [2^53], so every partial sum is exact whatever the
    order of the additions: the accumulation is the exact sum, converted
    once.  The division is the IEEE one; on the empty array it is
    [0.0 / 0.0].  For more cells the additions round, and the definition
    does not stand for [np.mean]. *)
Definition mean (a : list Z) : spec_float :=
  F64.div (F64.of_Z (sum a)) (F64.of_Z (Z.of_nat (length a))).

(** The additions of [np.mean], as NumPy may order them: it adds the
    cells by blocks and with several accumulators, each starting from a
    cell or from a zero.  Whatever the order, it is a tree of additions
    whose leaves are the cells of the array, each once, and the zeros the
    accumulators start from. *)
Inductive addition :=
  | Cell (x : Z)
  | Start (s : bool)
  | Add (l r : addition).

(** The cells a tree adds, from left to right. *)
Fixpoint cells (tr : addition) : list Z :=
  match tr with
  | Cell x => [x]
  | Start _ => []
  | Add l r => cells l ++ cells r
  end.

(** The total of a tree: each cell is cast to binary64, which is exact
    for 32 bits, and each addition is the IEEE one. *)
Fixpoint accumulate (tr : addition) : spec_float :=
  match tr with
  | Cell x => F64.of_Z x
  | Start s => S754_zero s
  | Add l r => F64.add (accumulate l) (accumulate r)
  end.

(** The mean computed along a tree of additions. *)
Definition mean_by (tr : addition) : spec_float :=
  F64.div (accumulate tr) (F64.of_Z (Z.of_nat (length (cells tr)))).

End Np.

(** ** [calculate_statistics] *)

Record Statistics := {
  avg_heart_rate : spec_float;
  avg_systolic_bp : spec_float;
  avg_glucose : spec_float
}.

Definition calculate_statistics (data : Dataset) : Statistics :=
  if size data =? 0 then
    {| avg_heart_rate := F64.zero;
       avg_systolic_bp := F64.zero;
       avg_glucose := F64.zero |}
  else
    let avg_heart_rate := Np.mean (column heart_rate data) in
    let avg_systolic_bp := Np.mean (column blood_pressure_systolic data) in
    let avg_glucose := Np.mean (column glucose_level data) in
    {| avg_heart_rate := avg_heart_rate;
       avg_systolic_bp := avg_systolic_bp;
       avg_glucose := avg_glucose |}.

(** [x] is the quotient [num / den] as binary64 has it: zero for a zero
    numerator, and otherwise a normal number [m * 2^e] of 53 digits with
    the sign of [num] and [|m * 2^e - |num| / den| <= 2^e / 2], within
    half a unit in the last place.  The inequality is stated on integers,
    multiplied by [den] and by the power of two that clears [2^e]. *)
Definition rounded_quotient (num den : Z) (x : spec_float) : Prop :=
  match x with
  | S754_zero s => num = 0 /\ s = false
  | S754_finite s m e =>
      s = (num <? 0)
      /\ 2 ^ 52 <= Zpos m < 2 ^ 53
      /\ 2 * Z.abs (Zpos m * 2 ^ Z.max e 0 * den
                    - Z.abs num * 2 ^ Z.max (- e) 0)
         <= 2 ^ Z.max e 0 * den
  | _ => False
  end.

(** ** [find_abnormal_readings] *)

Record AbnormalCounts := {
  high_heart_rate : Z;
  high_blood_pressure : Z;
  high_glucose : Z
}.

Definition find_abnormal_readings (data : Dataset) : AbnormalCounts :=
  if size data =? 0 then
    {| high_heart_rate := 0; high_blood_pressure := 0; high_glucose := 0 |}
  else
    let high_hr_count := Np.sum_bool (Np.gt (column heart_rate data) 90) in
    let high_bp_count :=
      Np.sum_bool (Np.gt (column blood_pressure_systolic data) 130) in
    let high_glucose_count :=
      Np.sum_bool (Np.gt (column glucose_level data) 110) in
    {| high_heart_rate := high_hr_count;
       high_blood_pressure := high_bp_count;
       high_glucose := high_glucose_count |}.

(** The count the specification speaks of: the number of readings whose
    field is strictly above the threshold. *)
Definition count_above (f : Reading -> Z) (c : Z) (data : Dataset) : Z :=
  Z.of_nat (length (filter (fun r => c < f r) data)).

(** Its complement: the readings at or below the threshold. *)
Definition count_at_most (f : Reading -> Z) (c : Z) (data : Dataset) : Z :=
  Z.of_nat (length (filter (fun r => f r <= c) data)).

(** ** [generate_report] *)

(** The list [lines] after its fourteen [append] calls. *)
Definition report_lines (stats : Statistics) (abnormal : AbnormalCounts)
    (total_readings : Z) : list string :=
  [ "Health Sensor Data Analysis Report";
    Str.repeat "=" 40;
    "Total readings: " +:+ Str.of_int total_readings;
    "";
    "Averages:";
    "  - Heart Rate (avg): " +:+ Fmt.fixed1 (avg_heart_rate stats) +:+ " bpm";
    "  - Systolic BP (avg): " +:+ Fmt.fixed1 (avg_systolic_bp stats) +:+ " mmHg";
    "  - Glucose (avg): " +:+ Fmt.fixed1 (avg_glucose stats) +:+ " mg/dL";
    "";
    "Abnormal reading counts:";
    "  - High heart rate (>90): " +:+ Str.of_int (high_heart_rate abnormal);
    "  - High systolic BP (>130): "
      +:+ Str.of_int (high_blood_pressure abnormal);
    "  - High glucose (>110): " +:+ Str.of_int (high_glucose abnormal);
    Str.repeat "=" 40 ].

Definition generate_report (stats : Statistics) (abnormal : AbnormalCounts)
    (total_readings : Z) : string :=
  Str.join (String Str.LF "") (report_lines stats abnormal total_readings).

(** ** [save_report] *)

(** The file-system calls as statements. *)
Definition path_exists (p : path) : io bool := fun w =>
  (Ok (Fs.exists_ (fs w) p), w).

Definition makedirs (name : path) : io unit := fun w =>
  let '(t, err) := Fs.makedirs (fs w) name in
  (match err with None => Ok tt | Some e => Raise e end,
   {| fs := t; stdout := stdout w |}).

Definition write_text (p : path) (text : string) : io unit := fun w =>
  match Fs.write_text (fs w) p text with
  | Ok t => (Ok tt, {| fs := t; stdout := stdout w |})
  | Raise e => (Raise e, w)
  end.

Definition save_report (report : string) (filename : path) : io unit :=
  let parent := dirname filename in
  found ← path_exists parent;
  _ ← (if negb (bool_decide (parent = [])) && negb found
       then makedirs parent else mret tt);
  write_text filename report.

(** ** [main] *)

(** The body of [main] for its two paths.  [except Exception] catches
    every exception of [exn_class]. *)
Definition pipeline (data_file out_file : path) : io unit := fun w =>
  match load_data (fs w) data_file with
  | Raise e =>
      print ("Error loading data from " +:+ path_str data_file +:+ ": "
             +:+ exn_msg e) w
  | Ok data =>
      let stats := calculate_statistics data in
      let abnormal := find_abnormal_readings data in
      let total := size data in
      let report := generate_report stats abnormal total in
      (_ ← save_report report out_file;
       print ("Analysis complete. Report written to " +:+ path_str out_file))
        w
  end.

Definition data_file : path := ["health_data.csv"].
Definition out_file : path := ["output"; "analysis_report.txt"].

Definition main : io unit := pipeline data_file out_file.

(** The content of a readable or unreadable file, if the path is one. *)
Definition file_content (t : gmap path node) (p : path) : option string :=
  match t !! p with
  | Some (File f) => Some (content f)
  | _ => None
  end.

(** The report [main] computes from a dataset. *)
Definition report_of (data : Dataset) : string :=
  generate_report (calculate_statistics data) (find_abnormal_readings data)
    (size data).

(** The tree after [save_report] at [out_file]: the directory [output]
    is made if nothing is there, and the report is written when [output]
    is a directory and the target is free or a writable file. *)
Definition written (t : gmap path node) (report : string) : gmap path node :=
  let t1 := match t !! ["output"] with
            | None => <[["output"] := Dir]> t
            | Some _ => t
            end in
  match t1 !! ["output"] with
  | Some Dir =>
      match t !! out_file with
      | None =>
          <[out_file := File {| readable := true; writable := true;
                                content := report |}]> t1
      | Some (File f) =>
          if writable f then
            <[out_file := File {| readable := readable f;
                                  writable := writable f;
                                  content := report |}]> t1
          else t1
      | Some Dir => t1
      end
  | _ => t1
  end.

(** ** Notions for the statements *)

(** The three columns the report is computed from. *)
Definition vitals (r : Reading) : Z * Z * Z :=
  (heart_rate r, blood_pressure_systolic r, glucose_level r).

(** The cell of a row under a converter of [Genfromtxt.converters]. *)
Definition cell (c : nat * Genfromtxt.ftype) (row : list string)
    : result Genfromtxt.value :=
  let '(i, t) := c in Genfromtxt.loose_call t (nth i row "").

(** One row converted on its own: its cells through the converters of
    the fields, then stored. *)
Definition convert_row (row : list string) : result Reading :=
  vals ← mapM (fun '(i, t) => Genfromtxt.loose_call t (nth i row ""))
              (Genfromtxt.converters dtype (length row));
  Genfromtxt.store_row vals.

(** A row as the array holds it: the strings within the widths of their
    fields, the integers within 32 bits. *)
Definition fits_dtype (r : Reading) : bool :=
  valid_reading r
  && (String.length (patient_id r) <=? 10)%nat
  && (String.length (timestamp r) <=? 20)%nat
  && (String.length (sensor_id r) <=? 10)%nat.

(** An integer cell that loads: the text converts, and the integer fits
    32 bits. *)
Definition int_cell_fits (v : string) : bool :=
  match Genfromtxt.loose_call Genfromtxt.I4 v with
  | Ok (Genfromtxt.VInt n) => i4 n
  | _ => false
  end.

(** The decimal digits. *)
Definition digit_chars : string := "0123456789".

(** A float that is neither [nan] nor infinite. *)
Definition is_finite (x : spec_float) : bool :=
  match x with
  | S754_zero _ | S754_finite _ _ _ => true
  | _ => false
  end.

(** Every character of a text passes a test. *)
Fixpoint all_chars (P : ascii -> bool) (s : string) : bool :=
  match s with
  | EmptyString => true
  | String c s' => P c && all_chars P s'
  end.

(** [s.endswith(suffix)]. *)
Fixpoint ends_with (suffix s : string) : bool :=
  String.eqb s suffix
  || match s with
     | EmptyString => false
     | String _ s' => ends_with suffix s'
     end.

(** The characters of a portable file name: letters, digits, the point,
    the underscore and the hyphen. *)
Definition name_char (c : ascii) : bool :=
  let n := N_of_ascii c in
  ((48 <=? n) && (n <=? 57))%N || ((65 <=? n) && (n <=? 90))%N
  || ((97 <=? n) && (n <=? 122))%N || Str.mem c "._-".

(** A name between two slashes that names an entry of its directory: not
    empty, of portable characters, not starting with a point -- so neither
    [.] nor [..] -- and within the 255 bytes of a file name.  Such a name
    is printed as it is in the messages of the file system, and NumPy
    takes it for a local file as it stands. *)
Definition proper_name (x : string) : bool :=
  negb (String.eqb x "") && negb (String.prefix "." x)
  && all_chars name_char x
  && (String.length x <=? 255)%nat.

(** The paths the model stands for: relative, made of proper names, and
    shorter than the 4096 bytes of a path. *)
Definition proper_path (p : path) : bool :=
  forallb proper_name p && (String.length (path_str p) <? 4096)%nat.

(** ASCII text without the character NUL: one byte for each character
    in every encoding Python reads text files with. *)
Definition plain_char (c : ascii) : bool :=
  let n := N_of_ascii c in ((1 <=? n) && (n <=? 127))%N.

Definition plain_text (s : string) : bool := all_chars plain_char s.

(** NumPy's [DataSource], through which [genfromtxt] opens its file:
    the names it tries for a path. *)
Module DataSource.

(** The extensions of [_file_openers]. *)
Definition zip_exts : list string := [".bz2"; ".gz"; ".xz"; ".lzma"].

(** [_iszip], on the side of caution: the last name ends with one of the
    extensions. *)
Definition iszip (filename : path) : bool :=
  match last filename with
  | Some x => existsb (fun z => ends_with z x) zip_exts
  | None => false
  end.

(** [_possible_names]: the path itself, then the path with each
    extension, unless it has one already. *)
Definition possible_names (filename : path) : list path :=
  filename ::
  (if iszip filename then []
   else match last filename with
        | Some x =>
            map (fun z => dirname filename ++ [x +:+ z]) zip_exts
        | None => []
        end).

End DataSource.

(** A source the model reads as NumPy does: a proper path without the
    extension of a compressed file, to a file of plain text. *)
Definition plain_source (filename : path) (f : file) : bool :=
  proper_path filename && negb (DataSource.iszip filename)
  && plain_text (content f).

(** The statistics computed along three trees of additions, one for each
    column. *)
Definition statistics_by (hr bp glu : Np.addition) : Statistics :=
  {| avg_heart_rate := Np.mean_by hr;
     avg_systolic_bp := Np.mean_by bp;
     avg_glucose := Np.mean_by glu |}.

(** ** Example data *)

(** The dataset of scenario A of the specification. *)
Definition scenario_A : Dataset :=
  map (fun '(hr, bp, g) =>
         {| patient_id := "P"; timestamp := "T"; heart_rate := hr;
            blood_pressure_systolic := bp; blood_pressure_diastolic := 80;
            temperature := S754_nan; glucose_level := g;
            sensor_id := "S" |})
      [(85, 120, 90); (95, 135, 115); (100, 125, 105)].

(** The statistics value of the rounding example: 75.25, 120.04, 95.0. *)
Definition rounding_example : Statistics :=
  {| avg_heart_rate := literal 7525 (-2);
     avg_systolic_bp := literal 12004 (-2);
     avg_glucose := literal 950 (-1) |}.

(** The statistics, counts and report of the empty dataset. *)
Definition zero_statistics : Statistics :=
  {| avg_heart_rate := F64.zero; avg_systolic_bp := F64.zero;
     avg_glucose := F64.zero |}.

Definition zero_counts : AbnormalCounts :=
  {| high_heart_rate := 0; high_blood_pressure := 0; high_glucose := 0 |}.

(** A file with a header and one row whose heart rate is not a number. *)
Definition non_numeric_file : gmap path node :=
  {[ data_file :=
       File {| readable := true; writable := true;
               content :=
                 Str.join (String Str.LF "")
                   [ "patient_id,timestamp,heart_rate,blood_pressure_systolic,blood_pressure_diastolic,temperature,glucose_level,sensor_id";
                     "P001,2024-01-15T08:00:00,abc,120,80,36.6,95,S001";
                     "" ] |} ]}.

Definition header_only_fs : gmap path node :=
  {[ data_file :=
       File {| readable := true; writable := true;
               content := "patient_id,timestamp,heart_rate,blood_pressure_systolic,blood_pressure_diastolic,temperature,glucose_level,sensor_id" +:+ String Str.LF "" |} ]}.

(** A file with a header and one row of numerals. *)
Definition numerals_file : file :=
  {| readable := true; writable := false;
     content :=
       Str.join (String Str.LF "")
         [ "id,time,hr,sys,dia,temp,glu,sensor";
           "P001,2024-01-15T08:00:00,-72,120,80,36.6,95,S001" ] |}.

(** Its one reading. *)
Definition numerals_reading : Reading :=
  {| patient_id := "P001"; timestamp := "2024-01-15T08:00:00";
     heart_rate := -72; blood_pressure_systolic := 120;
     blood_pressure_diastolic := 80;
     temperature := S754_finite false 9594470 (-18);
     glucose_level := 95; sensor_id := "S001" |}.

(** A file whose one row has a heart rate beyond 32 bits. *)
Definition overflow_file : file :=
  {| readable := true; writable := false;
     content :=
       Str.join (String Str.LF "")
         [ "id,time,hr,sys,dia,temp,glu,sensor";
           "P001,2024-01-15T08:00:00,3000000000,120,80,36.6,95,S001" ] |}.

(** A world where [output] is a file. *)
Definition blocked_world : World :=
  {| fs := {[ ["output"] := File {| readable := true; writable := true;
                                    content := "" |} ]};
     stdout := [] |}.

(** The header line of the input file. *)
Definition csv_header : string :=
  "patient_id,timestamp,heart_rate,blood_pressure_systolic,blood_pressure_diastolic,temperature,glucose_level,sensor_id".

(** A file open to reading and writing that holds the given lines. *)
Definition text_file (lines : list string) : file :=
  {| readable := true; writable := true;
     content := Str.join (String Str.LF "") lines |}.

(** A file whose one row holds a ninth field. *)
Definition nine_fields_file : file :=
  text_file [ csv_header;
              "P001,2024-01-15T08:00:00,72,120,80,36.6,95,S001,extra" ].

(** A file whose second row lacks its last field. *)
Definition ragged_file : file :=
  text_file [ csv_header;
              "P001,2024-01-15T08:00:00,72,120,80,36.6,95,S001";
              "P002,2024-01-15T08:05:00,88,135,85,37.1,112" ].

(** A file of two rows. *)
Definition two_rows_file : file :=
  text_file [ csv_header;
              "P001,2024-01-15T08:00:00,72,120,80,36.6,95,S001";
              "P002,2024-01-15T08:05:00,95,135,85,37.1,112,S002" ].


(** A statistics value that displays as the rounding example does. *)
Definition rounded_example : Statistics :=
  {| avg_heart_rate := literal 752 (-1);
     avg_systolic_bp := literal 1200 (-1);
     avg_glucose := literal 950 (-1) |}.

(** A reading whose heart rate is the largest an [i4] cell holds. *)
Definition full_scale_reading : Reading :=
  {| patient_id := "P"; timestamp := "T"; heart_rate := 2 ^ 31 - 1;
     blood_pressure_systolic := 120; blood_pressure_diastolic := 80;
     temperature := S754_nan; glucose_level := 95; sensor_id := "S" |}.

(** [2^22 + 1] such readings: their heart rates add up to an odd
    number above [2^53]. *)
Definition beyond_exact_sums : Dataset :=
  repeat full_scale_reading (Z.to_nat (2 ^ 22 + 1)).

(** The readings of the file of two rows. *)
Definition two_rows_readings : Dataset :=
  [ {| patient_id := "P001"; timestamp := "2024-01-15T08:00:00";
       heart_rate := 72; blood_pressure_systolic := 120;
       blood_pressure_diastolic := 80;
       temperature := S754_finite false 9594470 (-18);
       glucose_level := 95; sensor_id := "S001" |};
    {| patient_id := "P002"; timestamp := "2024-01-15T08:05:00";
       heart_rate := 95; blood_pressure_systolic := 135;
       blood_pressure_diastolic := 85;
       temperature := S754_finite false 9725542 (-18);
       glucose_level := 112; sensor_id := "S002" |} ].

(** ** The definitions at work *)

Example split_csv : Str.split "," "a,,b" = ["a"; ""; "b"].
Proof. reflexivity. Qed.

Example strip_line :
  Str.strip (String " " (String Str.CR (String Str.LF "")))
            (String " " (String "x" (String " " (String "y" (String Str.CR ""))))) = "x y".
Proof. reflexivity. Qed.

Example file_lines_crlf :
  Str.file_lines (String "h" (String Str.CR (String Str.LF (String "r" (String Str.LF "")))))
  = ["h"; "r"].
Proof. reflexivity. Qed.

Example file_lines_empty : Str.file_lines "" = [].
Proof. reflexivity. Qed.

Example of_int_examples :
  Str.of_int 0 = "0" /\ Str.of_int 130 = "130" /\ Str.of_int (-7) = "-7".
Proof. repeat split. Qed.

Example f64_of_Z_280 : F64.of_Z 280 = S754_finite false 4925812092436480 (-44).
Proof. reflexivity. Qed.

Example f64_literal_75_25 :
  F64.of_decimal false 7525 (-2) = S754_finite false 5295247999369216 (-46).
Proof. reflexivity. Qed.

Example f64_trunc : F64.trunc (F64.of_decimal true 859 (-1)) = Some (-85).
Proof. reflexivity. Qed.

Example float_of_str_examples :
  Py.float_of_str "85" = Some (F64.of_Z 85) /\
  Py.float_of_str " 36.6 " = Some (S754_finite false 5150992073805005 (-47)) /\
  Py.float_of_str "1_0e1" = Some (F64.of_Z 100) /\
  Py.float_of_str "-.5" = Some (S754_finite true 4503599627370496 (-53)) /\
  Py.float_of_str "-Infinity" = Some (S754_infinity true) /\
  Py.float_of_str "abc" = None /\
  Py.float_of_str "" = None /\
  Py.float_of_str "1e" = None /\
  Py.float_of_str "1__0" = None /\
  Py.float_of_str "." = None /\
  Py.float_of_str "12a" = None.
Proof. repeat split. Qed.

Example fixed1_examples :
  Fmt.fixed1 (literal 9333 (-2)) = "93.3" /\
  Fmt.fixed1 (literal 25 (-2)) = "0.2" /\
  Fmt.fixed1 (literal 35 (-2)) = "0.3" /\
  Fmt.fixed1 (literal 75 (-2)) = "0.8" /\
  Fmt.fixed1 (literal 5 (-2)) = "0.1" /\
  Fmt.fixed1 (literal (-1) (-2)) = "-0.0" /\
  Fmt.fixed1 (literal 1 22) = "10000000000000000000000.0" /\
  Fmt.fixed1 (literal 99999 (-3)) = "100.0".
Proof. repeat split. Qed.

Example report_scenario_A :
  Str.split Str.LF (report_of scenario_A)
  = [ "Health Sensor Data Analysis Report";
      "========================================";
      "Total readings: 3";
      "";
      "Averages:";
      "  - Heart Rate (avg): 93.3 bpm";
      "  - Systolic BP (avg): 126.7 mmHg";
      "  - Glucose (avg): 103.3 mg/dL";
      "";
      "Abnormal reading counts:";
      "  - High heart rate (>90): 2";
      "  - High systolic BP (>130): 1";
      "  - High glucose (>110): 1";
      "========================================" ].
Proof. reflexivity. Qed.

(** ** Counting lemmas *)

Section Counting.

Lemma sum_bool_from (mask : list bool) (k : Z) :
  fold_left (fun acc b => acc + Z.b2z b) mask k = k + Np.sum_bool mask.
Proof.
  unfold Np.sum_bool. revert k.
  induction mask as [|b mask IH]; intros k; simpl.
  - lia.
  - rewrite (IH (k + Z.b2z b)), (IH (0 + Z.b2z b)). lia.
Qed.

Lemma sum_bool_cons (b : bool) (mask : list bool) :
  Np.sum_bool (b :: mask) = Z.b2z b + Np.sum_bool mask.
Proof.
  unfold Np.sum_bool at 1. simpl. rewrite sum_bool_from. lia.
Qed.

Lemma sum_gt_count (f : Reading -> Z) (c : Z) (data : Dataset) :
  Np.sum_bool (Np.gt (column f data) c) = count_above f c data.
Proof.
  unfold count_above, column, Np.gt.
  induction data as [|r data IH]; [reflexivity|].
  cbn [map]. rewrite sum_bool_cons, IH. clear IH.
  rewrite (filter_cons (fun r => c < f r)).
  destruct (decide (c < f r)) as [Hlt|Hge].
  - apply Z.ltb_lt in Hlt as ->. cbn [length Z.b2z].
    lia.
  - apply Z.ltb_nlt in Hge as ->. cbn [Z.b2z]. lia.
Qed.

Lemma count_split (f : Reading -> Z) (c : Z) (data : Dataset) :
  count_above f c data + count_at_most f c data = size data.
Proof.
  unfold count_above, count_at_most, size.
  induction data as [|r data IH]; [reflexivity|].
  rewrite !filter_cons.
  destruct (decide (c < f r)), (decide (f r <= c)); cbn [length]; lia.
Qed.

Lemma count_above_bounds (f : Reading -> Z) (c : Z) (data : Dataset) :
  0 <= count_above f c data <= size data.
Proof.
  pose proof (count_split f c data).
  unfold count_above, count_at_most in *. lia.
Qed.

End Counting.

(** ** String lemmas *)

Section Strings.

Lemma mem_app (c : ascii) (a b : string) :
  Str.mem c (a +:+ b) = Str.mem c a || Str.mem c b.
Proof.
  induction a as [|d a IH]; simpl; [reflexivity|].
  rewrite IH. apply orb_assoc.
Qed.

Lemma split_no_sep (c : ascii) (x : string) :
  Str.mem c x = false -> Str.split c x = [x].
Proof.
  induction x as [|d x IH]; simpl; [reflexivity|].
  intros [Hd Hx]%orb_false_elim.
  rewrite Ascii.eqb_sym, Hd, (IH Hx). reflexivity.
Qed.

Lemma split_app_sep (c : ascii) (x rest : string) :
  Str.mem c x = false ->
  Str.split c (x +:+ String c rest) = x :: Str.split c rest.
Proof.
  induction x as [|d x IH]; simpl.
  - intros _. rewrite Ascii.eqb_refl. reflexivity.
  - intros [Hd Hx]%orb_false_elim.
    rewrite Ascii.eqb_sym, Hd, (IH Hx). reflexivity.
Qed.

(** Splitting what was joined gives the parts back, when no part holds
    the separator. *)
Lemma split_join (c : ascii) (x : string) (parts : list string) :
  forallb (fun l => negb (Str.mem c l)) (x :: parts) = true ->
  Str.split c (Str.join (String c "") (x :: parts)) = x :: parts.
Proof.
  revert x. induction parts as [|y parts IH]; intros x; cbn [forallb].
  - rewrite andb_true_r. intros Hx%negb_true_iff. now apply split_no_sep.
  - intros [Hx Hrest]%andb_prop. apply negb_true_iff in Hx.
    change (Str.join (String c "") (x :: y :: parts))
      with (x +:+ String c (Str.join (String c "") (y :: parts))).
    rewrite split_app_sep by exact Hx. f_equal. now apply IH.
Qed.

Lemma split_length (c : ascii) (s : string) :
  length (Str.split c s) = S (count_char c s).
Proof.
  induction s as [|d s IH]; simpl; [reflexivity|].
  destruct (Ascii.eqb d c); simpl.
  - now rewrite IH.
  - destruct (Str.split c s); simpl in *; lia.
Qed.

Lemma split_last_sep (c : ascii) (body : string) :
  last (Str.split c (body +:+ String c "")) = Some "".
Proof.
  induction body as [|d body IH]; simpl.
  - rewrite Ascii.eqb_refl. reflexivity.
  - destruct (Ascii.eqb d c).
    + rewrite last_cons, IH. reflexivity.
    + destruct (Str.split c (body +:+ String c "")) as [|w ws] eqn:E.
      * discriminate IH.
      * destruct ws; [|exact IH].
        simpl in IH. injection IH as ->.
        pose proof (split_length c (body +:+ String c "")) as Hlen.
        rewrite E in Hlen. simpl in Hlen.
        assert (count_char c (body +:+ String c "") <> O) as Hne.
        { clear. induction body as [|e body IHb]; simpl.
          - rewrite Ascii.eqb_refl. discriminate.
          - lia. }
        lia.
Qed.

Lemma all_in_app (allowed a b : string) :
  all_in allowed (a +:+ b) = all_in allowed a && all_in allowed b.
Proof.
  induction a as [|c a IH]; simpl; [reflexivity|].
  rewrite IH. apply andb_assoc.
Qed.

Lemma all_in_not_mem (allowed s : string) (c : ascii) :
  all_in allowed s = true -> Str.mem c allowed = false -> Str.mem c s = false.
Proof.
  intros Hall Hc. induction s as [|d s IH]; simpl; [reflexivity|].
  simpl in Hall. apply andb_prop in Hall as [Hd Hs].
  rewrite (IH Hs), orb_false_r.
  destruct (Ascii.eqb_spec c d) as [->|]; [congruence|reflexivity].
Qed.

Lemma uint_chars (d : Decimal.uint) :
  all_in numeral_chars (NilEmpty.string_of_uint d) = true.
Proof. induction d; simpl; auto. Qed.

Lemma of_int_chars (n : Z) : all_in numeral_chars (Str.of_int n) = true.
Proof.
  unfold Str.of_int, NilZero.string_of_int, NilZero.string_of_uint.
  destruct (Z.to_int n) as [d|d]; destruct d; simpl; auto using uint_chars.
Qed.

Lemma of_int_no_LF (n : Z) : Str.mem Str.LF (Str.of_int n) = false.
Proof.
  apply all_in_not_mem with (allowed := numeral_chars);
    [apply of_int_chars | reflexivity].
Qed.

Lemma fixed1_no_LF (x : spec_float) : Str.mem Str.LF (Fmt.fixed1 x) = false.
Proof.
  destruct x as [s|s| |s m e];
    [destruct s; reflexivity | destruct s; reflexivity | reflexivity |].
  unfold Fmt.fixed1. cbv zeta. rewrite !mem_app, !of_int_no_LF.
  destruct s; reflexivity.
Qed.

End Strings.

(** ** The abnormality detector *)

Lemma abnormal_counts_eq (data : Dataset) :
  find_abnormal_readings data =
    {| high_heart_rate := count_above heart_rate 90 data;
       high_blood_pressure := count_above blood_pressure_systolic 130 data;
       high_glucose := count_above glucose_level 110 data |}.
Proof.
  unfold find_abnormal_readings.
  destruct (size data =? 0) eqn:Hsize.
  - apply Z.eqb_eq in Hsize. unfold size in Hsize.
    destruct data; [reflexivity | simpl in Hsize; lia].
  - now rewrite !sum_gt_count.
Qed.

(** C2: for every dataset, [high_heart_rate] is the number of readings
    with [heart_rate] strictly above 90, [high_blood_pressure] the number
    with [blood_pressure_systolic] strictly above 130 and [high_glucose]
    the number with [glucose_level] strictly above 110; a reading that
    sits exactly on the three thresholds changes no count; the empty
    dataset gives three zeros. *)
Theorem find_abnormal_readings_counts (data : Dataset) :
  find_abnormal_readings data =
    {| high_heart_rate := count_above heart_rate 90 data;
       high_blood_pressure := count_above blood_pressure_systolic 130 data;
       high_glucose := count_above glucose_level 110 data |}
  /\ (forall pid ts dia temp sid,
        find_abnormal_readings
          ({| patient_id := pid; timestamp := ts; heart_rate := 90;
              blood_pressure_systolic := 130;
              blood_pressure_diastolic := dia; temperature := temp;
              glucose_level := 110; sensor_id := sid |} :: data)
        = find_abnormal_readings data)
  /\ find_abnormal_readings [] =
       {| high_heart_rate := 0; high_blood_pressure := 0; high_glucose := 0 |}.
Proof.
  split; [apply abnormal_counts_eq|]. split; [|reflexivity].
  intros pid ts dia temp sid. rewrite !abnormal_counts_eq.
  unfold count_above. rewrite !filter_cons. cbn [heart_rate
    blood_pressure_systolic glucose_level].
  repeat case_decide; try lia. reflexivity.
Qed.

(** ** The report renderer *)

Lemma generate_report_split (stats : Statistics) (abnormal : AbnormalCounts)
    (total : Z) :
  Str.split Str.LF (generate_report stats abnormal total)
  = report_lines stats abnormal total.
Proof.
  unfold generate_report, report_lines. apply split_join.
  cbn [forallb]. rewrite !mem_app, !of_int_no_LF, !fixed1_no_LF.
  reflexivity.
Qed.

(** C3, as the code has it: for every statistics value, counts and total,
    the report is the fourteen lines of the layout -- title, forty [=],
    the total, a blank line, the [Averages:] heading and its three lines,
    a blank line, the [Abnormal reading counts:] heading and its three
    lines, forty [=] -- joined by single line feeds, thirteen in all, with
    no line feed at the end. *)
Theorem generate_report_layout (stats : Statistics) (abnormal : AbnormalCounts)
    (total : Z) :
  Str.split Str.LF (generate_report stats abnormal total) =
    [ "Health Sensor Data Analysis Report";
      "========================================";
      "Total readings: " +:+ Str.of_int total;
      "";
      "Averages:";
      "  - Heart Rate (avg): " +:+ Fmt.fixed1 (avg_heart_rate stats) +:+ " bpm";
      "  - Systolic BP (avg): " +:+ Fmt.fixed1 (avg_systolic_bp stats)
        +:+ " mmHg";
      "  - Glucose (avg): " +:+ Fmt.fixed1 (avg_glucose stats) +:+ " mg/dL";
      "";
      "Abnormal reading counts:";
      "  - High heart rate (>90): " +:+ Str.of_int (high_heart_rate abnormal);
      "  - High systolic BP (>130): "
        +:+ Str.of_int (high_blood_pressure abnormal);
      "  - High glucose (>110): " +:+ Str.of_int (high_glucose abnormal);
      "========================================" ]
  /\ count_char Str.LF (generate_report stats abnormal total) = 13%nat
  /\ (forall body,
        generate_report stats abnormal total <> body +:+ String Str.LF "").
Proof.
  pose proof (generate_report_split stats abnormal total) as Hsplit.
  split; [exact Hsplit|]. split.
  - pose proof (split_length Str.LF (generate_report stats abnormal total))
      as Hlen.
    rewrite Hsplit in Hlen. exact (eq_sym (eq_add_S 13 _ Hlen)).
  - intros body Hbody.
    pose proof (split_last_sep Str.LF body) as Hlast.
    rewrite <- Hbody, Hsplit in Hlast. discriminate Hlast.
Qed.

(** C3, as stated: the report does not have thirteen lines.  For the
    all-zero statistics and counts and a total of zero it has fourteen. *)
Lemma generate_report_not_13_lines :
  length (Str.split Str.LF (generate_report zero_statistics zero_counts 0))
  <> 13%nat.
Proof. vm_compute. discriminate. Qed.

(** C7, as the code has it: 75.25 is a binary64 number, halfway between
    75.2 and 75.3, and the formatter rounds the tie to the even digit: the
    three averages are displayed as 75.2, 120.0 and 95.0, whatever the
    counts and the total. *)
Theorem rounding_example_rendering (abnormal : AbnormalCounts) (total : Z) :
  firstn 3 (skipn 5 (Str.split Str.LF
                       (generate_report rounding_example abnormal total)))
  = [ "  - Heart Rate (avg): 75.2 bpm";
      "  - Systolic BP (avg): 120.0 mmHg";
      "  - Glucose (avg): 95.0 mg/dL" ].
Proof.
  rewrite generate_report_split. reflexivity.
Qed.

(** C7, as stated: the heart-rate average 75.25 is not displayed as 75.3;
    the text [75.3] occurs nowhere in the report. *)
Lemma rounding_example_not_75_3 :
  Fmt.fixed1 (avg_heart_rate rounding_example) <> "75.3"
  /\ Str.contains "75.3" (generate_report rounding_example zero_counts 0)
     = false.
Proof. split; [vm_compute; discriminate | vm_compute; reflexivity]. Qed.

(** C8: two calls of the renderer on identical statistics, counts and
    total give the same string, byte for byte. *)
Theorem generate_report_deterministic
    (stats1 stats2 : Statistics) (abnormal1 abnormal2 : AbnormalCounts)
    (total1 total2 : Z) :
  stats1 = stats2 -> abnormal1 = abnormal2 -> total1 = total2 ->
  list_byte_of_string (generate_report stats1 abnormal1 total1)
  = list_byte_of_string (generate_report stats2 abnormal2 total2).
Proof. intros -> -> ->. reflexivity. Qed.

Lemma generate_report_deterministic_witness :
  list_byte_of_string
    (generate_report rounding_example
       {| high_heart_rate := 2; high_blood_pressure := 1; high_glucose := 1 |}
       3)
  = list_byte_of_string
      (generate_report rounding_example
         {| high_heart_rate := 2; high_blood_pressure := 1; high_glucose := 1 |}
         3).
Proof.
  apply generate_report_deterministic; reflexivity.
Defined.

(** C10: each of the three counts lies between zero and the number of
    readings; a count and its complement -- the readings at or below the
    threshold -- add up to exactly that number; and it is the number
    [main] passes to the renderer, which prints it on the third line of
    the report. *)
Theorem abnormal_counts_bounded (data : Dataset) :
  (0 <= high_heart_rate (find_abnormal_readings data) <= size data
   /\ 0 <= high_blood_pressure (find_abnormal_readings data) <= size data
   /\ 0 <= high_glucose (find_abnormal_readings data) <= size data)
  /\ (high_heart_rate (find_abnormal_readings data)
      + count_at_most heart_rate 90 data = size data
      /\ high_blood_pressure (find_abnormal_readings data)
         + count_at_most blood_pressure_systolic 130 data = size data
      /\ high_glucose (find_abnormal_readings data)
         + count_at_most glucose_level 110 data = size data)
  /\ (forall w,
        load_data (fs w) data_file = Ok data ->
        main w
        = (_ ← save_report
                 (generate_report (calculate_statistics data)
                    (find_abnormal_readings data) (size data))
                 out_file;
           print "Analysis complete. Report written to output/analysis_report.txt")
            w)
  /\ nth 2 (Str.split Str.LF
              (generate_report (calculate_statistics data)
                 (find_abnormal_readings data) (size data)))
         ""
     = "Total readings: " +:+ Str.of_int (size data).
Proof.
  rewrite generate_report_split, abnormal_counts_eq.
  cbn [high_heart_rate high_blood_pressure high_glucose].
  split; [|split; [|split]].
  - auto using count_above_bounds.
  - auto using count_split.
  - intros w Hload. unfold main, pipeline. rewrite Hload.
    rewrite abnormal_counts_eq. reflexivity.
  - reflexivity.
Qed.

(** ** Binary64 division of integers *)

Section Float.

Lemma digits2_size (p : positive) : digits2_pos p = Pos.size p.
Proof. induction p; simpl; congruence. Qed.

Lemma digits2_bounds (p : positive) :
  2 ^ (Zpos (digits2_pos p) - 1) <= Zpos p < 2 ^ Zpos (digits2_pos p).
Proof.
  rewrite digits2_size. split.
  - pose proof (Pos.size_le p) as H.
    assert (2 ^ Zpos (Pos.size p) <= 2 * Zpos p) as H'.
    { change 2 with (Zpos 2) at 1. rewrite <- Pos2Z.inj_pow.
      change (2 * Zpos p) with (Zpos p~0). exact H. }
    replace (Zpos (Pos.size p)) with (Zpos (Pos.size p) - 1 + 1) in H' by lia.
    rewrite Z.pow_add_r in H' by lia. lia.
  - pose proof (Pos.size_gt p) as H.
    change 2 with (Zpos 2). rewrite <- Pos2Z.inj_pow. exact H.
Qed.

(** The number of digits of a number between two powers of two. *)
Lemma digits2_between (p : positive) (d : Z) :
  0 < d -> 2 ^ (d - 1) <= Zpos p < 2 ^ d -> Zpos (digits2_pos p) = d.
Proof.
  intros Hd [Hlo Hhi]. pose proof (digits2_bounds p) as [Hlo' Hhi'].
  destruct (Z.lt_trichotomy (Zpos (digits2_pos p)) d) as [Hlt|[Heq|Hgt]];
    [exfalso | exact Heq | exfalso].
  - assert (2 ^ Zpos (digits2_pos p) <= 2 ^ (d - 1))
      by (apply Z.pow_le_mono_r; lia). lia.
  - assert (2 ^ d <= 2 ^ (Zpos (digits2_pos p) - 1))
      by (apply Z.pow_le_mono_r; lia). lia.
Qed.

Local Abbreviation prec := 53.
Local Abbreviation emax := 1024.

Lemma fexp_shift (d e : Z) :
  -1074 <= d + e - 53 -> fexp prec emax (d + e) - e = d - 53.
Proof. intros H. unfold fexp, emin. lia. Qed.

Lemma loc_of_record (m : Z) (l : location) :
  loc_of_shr_record (shr_record_of_loc m l) = l.
Proof. destruct l as [|[]]; reflexivity. Qed.

Lemma shr_m_of_loc (m : Z) (l : location) :
  shr_m (shr_record_of_loc m l) = m.
Proof. destruct l as [|[]]; reflexivity. Qed.

Lemma shr_1_pos (p : positive) (r s : bool) :
  shr_1 {| shr_m := Zpos p; shr_r := r; shr_s := s |}
  = {| shr_m := Z.div2 (Zpos p); shr_r := Z.odd (Zpos p);
       shr_s := r || s |}.
Proof. destruct p; reflexivity. Qed.

(** Rounding to nearest even moves the mantissa up by at most one. *)
Lemma round_nearest_even_cases (m : Z) (l : location) :
  round_nearest_even m l = m \/ round_nearest_even m l = m + 1.
Proof.
  destruct l as [|[]]; simpl; auto. destruct (Z.even m); auto.
Qed.

(** The second alignment of [binary_round_aux]: a rounded mantissa of 53
    digits is kept, the one that reached [2^53] is halved. *)
Lemma renormalize (s : bool) (m e : Z) :
  2 ^ 52 <= m <= 2 ^ 53 -> -1074 <= e <= 969 ->
  exists m' e',
    (let '(mrs, e'') := shr_fexp prec emax m e loc_Exact in
     match shr_m mrs with
     | Z0 => S754_zero s
     | Zpos p => if e'' <=? emax - prec then S754_finite s p e''
                 else S754_infinity s
     | Zneg _ => S754_nan
     end) = S754_finite s m' e'
    /\ 2 ^ 52 <= Zpos m' < 2 ^ 53
    /\ 0 <= e' - e <= 1
    /\ Zpos m' * 2 ^ (e' - e) = m.
Proof.
  intros Hm He. destruct m as [|p|p]; try lia.
  destruct (Z.eq_dec (Zpos p) (2 ^ 53)) as [Heq|Hne].
  - exists (Pos.pow 2 52), (e + 1).
    unfold shr_fexp. cbn [Zdigits2].
    rewrite (digits2_between p 54) by lia.
    rewrite fexp_shift by lia. change (54 - 53) with 1.
    cbn [shr iter_pos shr_record_of_loc]. rewrite shr_1_pos. cbn [shr_m].
    rewrite Heq. change (Z.div2 (2 ^ 53)) with (Zpos (2 ^ 52)). cbv iota.
    replace (e + 1 <=? 1024 - 53) with true by (symmetry; apply Z.leb_le; lia).
    split; [reflexivity|]. split; [cbn; lia|]. split; [lia|].
    replace (e + 1 - e) with 1 by lia. reflexivity.
  - exists p, e. unfold shr_fexp. cbn [Zdigits2].
    rewrite (digits2_between p 53) by lia.
    rewrite fexp_shift by lia. change (53 - 53) with 0.
    cbn [shr shr_record_of_loc shr_m].
    replace (e <=? 1024 - 53) with true by (symmetry; apply Z.leb_le; lia).
    split; [reflexivity|]. split; [lia|]. split; [lia|].
    replace (e - e) with 0 by lia. cbn. lia.
Qed.

Lemma new_location_spec (D r : Z) :
  0 < D -> 0 <= r < D ->
  new_location D r
  = if r =? 0 then loc_Exact else loc_Inexact (2 * r ?= D).
Proof.
  intros HD Hr. unfold new_location, new_location_even, new_location_odd.
  destruct (Z.even D) eqn:Heven; [reflexivity|].
  destruct (r =? 0); [reflexivity|]. f_equal.
  assert (Z.odd D = true) as Hodd by (rewrite <- Z.negb_even, Heven; reflexivity).
  apply Z.odd_spec in Hodd as [k Hk].
  destruct (2 * r + 1 ?= D) eqn:Hc; symmetry.
  - apply Z.compare_eq in Hc. apply Z.compare_lt_iff. lia.
  - rewrite Z.compare_lt_iff in Hc. apply Z.compare_lt_iff. lia.
  - rewrite Z.compare_gt_iff in Hc. apply Z.compare_gt_iff. lia.
Qed.

(** The rounding of a quotient [q + r / D] held with 53 or 54 digits:
    the result is a normal number within half a unit in the last place
    of the quotient. *)
Lemma round_quotient (s : bool) (q r D e : Z) :
  0 < D -> 0 <= r < D -> 2 ^ 52 <= q < 2 ^ 54 -> -1074 <= e <= 968 ->
  exists m e',
    binary_round_aux prec emax s q e (new_location D r) = S754_finite s m e'
    /\ 2 ^ 52 <= Zpos m < 2 ^ 53
    /\ 0 <= e' - e <= 2
    /\ 2 * Z.abs (Zpos m * 2 ^ (e' - e) * D - (q * D + r))
       <= 2 ^ (e' - e) * D.
Proof.
  intros HD Hr Hq He. rewrite new_location_spec by assumption.
  set (l := if r =? 0 then loc_Exact else loc_Inexact (2 * r ?= D)).
  destruct q as [|p|p]; try lia.
  unfold binary_round_aux.
  destruct (Z_lt_le_dec (Zpos p) (2 ^ 53)) as [Hsmall|Hbig].
  - (* 53 digits: no first shift *)
    unfold shr_fexp at 1. cbn [Zdigits2].
    rewrite (digits2_between p 53) by lia.
    rewrite fexp_shift by lia. change (53 - 53) with 0. cbn [shr].
    rewrite loc_of_record, shr_m_of_loc.
    set (m1 := round_nearest_even (Zpos p) l).
    assert (2 * Z.abs (m1 * D - (Zpos p * D + r)) <= D
            /\ (m1 = Zpos p \/ m1 = Zpos p + 1)) as [Hclose Hm1].
    { subst m1 l.
      destruct (Z.eqb_spec r 0) as [->|Hr0]; cbn [round_nearest_even].
      - split; [lia | now left].
      - destruct (2 * r ?= D) eqn:Hc; cbn [round_nearest_even].
        + apply Z.compare_eq in Hc.
          destruct (Z.even (Zpos p)); split; auto; lia.
        + rewrite Z.compare_lt_iff in Hc. split; [lia | now left].
        + rewrite Z.compare_gt_iff in Hc. split; [lia | now right]. }
    destruct (renormalize s m1 e) as (m' & e' & -> & Hm' & He' & Hval);
      [lia | lia |].
    exists m', e'. split; [reflexivity|]. split; [exact Hm'|].
    split; [lia|]. rewrite Hval.
    assert (1 <= 2 ^ (e' - e)) by (apply (Z.pow_le_mono_r 2 0); lia).
    nia.
  - (* 54 digits: one first shift *)
    unfold shr_fexp at 1. cbn [Zdigits2].
    rewrite (digits2_between p 54) by lia.
    rewrite fexp_shift by lia. change (54 - 53) with 1.
    cbn [shr iter_pos].
    assert (shr_record_of_loc (Zpos p) l
            = {| shr_m := Zpos p;
                 shr_r := negb (r =? 0) && (D <=? 2 * r);
                 shr_s := negb (r =? 0) && negb (2 * r =? D) |}) as ->.
    { subst l. destruct (Z.eqb_spec r 0) as [->|Hr0]; [reflexivity|].
      destruct (2 * r ?= D) eqn:Hc; cbn [shr_record_of_loc negb andb].
      - apply Z.compare_eq in Hc. f_equal; lia.
      - rewrite Z.compare_lt_iff in Hc. f_equal; lia.
      - rewrite Z.compare_gt_iff in Hc. f_equal; lia. }
    rewrite shr_1_pos. cbn [shr_m].
    set (a := Z.div2 (Zpos p)). set (b := Z.odd (Zpos p)).
    assert (Zpos p = 2 * a + Z.b2z b) as Hp by apply Z.div2_odd.
    assert (0 <= Z.b2z b <= 1) as Hb by (destruct b; cbn; lia).
    set (l' := loc_of_shr_record _).
    set (m1 := round_nearest_even a l').
    assert (Z.abs (2 * m1 * D - (Zpos p * D + r)) <= D
            /\ (m1 = a \/ m1 = a + 1)) as [Hclose Hm1].
    { rewrite Hp. subst m1 l'.
      destruct (Z.eqb_spec r 0) as [->|Hr0]; cbn [negb andb orb].
      - destruct b; cbn [loc_of_shr_record round_nearest_even Z.b2z].
        + destruct (Z.even a); split; auto; lia.
        + split; [lia | now left].
      - assert ((D <=? 2 * r) || negb (2 * r =? D) = true) as ->.
        { destruct (Z.leb_spec D (2 * r)); [reflexivity|].
          destruct (Z.eqb_spec (2 * r) D); [lia | reflexivity]. }
        destruct b; cbn [loc_of_shr_record round_nearest_even Z.b2z].
        + split; [lia | now right].
        + split; [lia | now left]. }
    destruct (renormalize s m1 (e + 1)) as (m' & e' & -> & Hm' & He' & Hval);
      [lia | lia |].
    exists m', e'. split; [reflexivity|]. split; [exact Hm'|].
    split; [lia|].
    replace (e' - e) with (e' - (e + 1) + 1) by lia.
    rewrite Z.pow_add_r by lia. change (2 ^ 1) with 2.
    assert (1 <= 2 ^ (e' - (e + 1))) by (apply (Z.pow_le_mono_r 2 0); lia).
    replace (Zpos m' * (2 ^ (e' - (e + 1)) * 2) * D)
      with (2 * (Zpos m' * 2 ^ (e' - (e + 1))) * D) by ring.
    rewrite Hval. nia.
Qed.

Lemma round_exact (s : bool) (m : positive) (e : Z) :
  2 ^ 52 <= Zpos m < 2 ^ 53 -> -1074 <= e <= 969 ->
  binary_round_aux prec emax s (Zpos m) e loc_Exact = S754_finite s m e.
Proof.
  intros Hm He. unfold binary_round_aux.
  unfold shr_fexp at 1. cbn [Zdigits2].
  rewrite (digits2_between m 53) by lia.
  rewrite fexp_shift by lia. change (53 - 53) with 0.
  cbn [shr shr_record_of_loc loc_of_shr_record shr_m round_nearest_even].
  destruct (renormalize s (Zpos m) e) as (m' & e' & -> & Hm' & He' & Hval);
    [lia | lia |].
  assert (e' - e = 0 \/ e' - e = 1) as [Hj|Hj] by lia; rewrite Hj in Hval.
  - replace e' with e by lia. f_equal. lia.
  - change (2 ^ 1) with 2 in Hval. lia.
Qed.

Lemma iter_xO (p n : positive) :
  Zpos (Pos.iter xO p n) = Zpos p * 2 ^ Zpos n.
Proof.
  induction n as [|n IH] using Pos.peano_ind.
  - cbn [Pos.iter]. lia.
  - rewrite Pos.iter_succ, Pos2Z.inj_succ, Z.pow_succ_r by lia.
    rewrite Pos2Z.inj_xO, IH. ring.
Qed.

(** The conversion of a non-zero integer below [2^53]: the integer
    itself, with its mantissa shifted to 53 digits. *)
Lemma binary_round_small (s : bool) (p : positive) :
  Zpos p < 2 ^ 53 ->
  exists m k,
    binary_round prec emax s p 0 = S754_finite s m (- k)
    /\ 0 <= k <= 52
    /\ Zpos m = Zpos p * 2 ^ k
    /\ 2 ^ 52 <= Zpos m < 2 ^ 53.
Proof.
  intros Hp. pose proof (digits2_bounds p) as [Hlo Hhi].
  set (d := Zpos (digits2_pos p)) in *.
  assert (1 <= d <= 53) as Hd.
  { split; [subst d; lia|].
    destruct (Z_le_gt_dec d 53); [assumption|].
    assert (2 ^ 53 <= 2 ^ (d - 1)) by (apply Z.pow_le_mono_r; lia). lia. }
  unfold binary_round. fold d.
  replace (fexp prec emax (d + 0)) with (d - 53)
    by (unfold fexp, emin; lia).
  unfold shl_align.
  destruct (d - 53 - 0) as [|k|k] eqn:Hk; try lia.
  - exists p, 0. assert (d = 53) as Hd53 by lia. rewrite Hd53 in *.
    change (- 0) with 0.
    rewrite round_exact by lia.
    split; [reflexivity|]. split; [lia|]. split; [cbn; lia | lia].
  - exists (Pos.iter xO p k), (Zpos k).
    assert (Zpos (Pos.iter xO p k) = Zpos p * 2 ^ Zpos k) as Hm
      by apply iter_xO.
    assert (d - 1 + Zpos k = 52) as Hsum by lia.
    assert (2 ^ 52 = 2 ^ (d - 1) * 2 ^ Zpos k) as H52
      by (rewrite <- Z.pow_add_r by lia; now rewrite Hsum).
    assert (2 ^ 53 = 2 ^ d * 2 ^ Zpos k) as H53.
    { rewrite <- Z.pow_add_r by lia. f_equal. lia. }
    assert (0 < 2 ^ Zpos k) as Hpow by (apply Z.pow_pos_nonneg; lia).
    assert (2 ^ 52 <= Zpos (Pos.iter xO p k) < 2 ^ 53) as Hrange.
    { rewrite Hm, H52, H53. split.
      - apply Z.mul_le_mono_nonneg_r; lia.
      - apply Z.mul_lt_mono_pos_r; lia. }
    replace (d - 53) with (- Zpos k) by lia.
    rewrite round_exact by lia.
    split; [reflexivity|]. split; [lia|]. split; [exact Hm | exact Hrange].
Qed.

Lemma cancel_scale (x y z c : Z) :
  0 < c -> 2 * Z.abs (x * c - y * c) <= z * c -> 2 * Z.abs (x - y) <= z.
Proof.
  intros Hc H. replace (x * c - y * c) with ((x - y) * c) in H by ring.
  rewrite Z.abs_mul, (Z.abs_eq c) in H by lia.
  apply (Z.mul_le_mono_pos_r _ _ c); [exact Hc|]. lia.
Qed.

(** IEEE division of two integers below [2^53], each converted exactly:
    a normal number within half a unit in the last place of the exact
    quotient [a / b], with the sign of [a]. *)
Lemma div_of_Z_close (a b : Z) :
  0 < Z.abs a < 2 ^ 53 -> 0 < b < 2 ^ 53 ->
  exists m e,
    SFdiv prec emax (binary_normalize prec emax a 0 false)
          (binary_normalize prec emax b 0 false)
    = S754_finite (a <? 0) m e
    /\ 2 ^ 52 <= Zpos m < 2 ^ 53
    /\ 2 * Z.abs (Zpos m * 2 ^ Z.max e 0 * b
                  - Z.abs a * 2 ^ Z.max (- e) 0)
       <= 2 ^ Z.max e 0 * b.
Proof.
  intros Ha Hb.
  assert (exists pa, Z.abs a = Zpos pa
                     /\ binary_normalize prec emax a 0 false
                        = binary_round prec emax (a <? 0) pa 0)
    as (pa & Hpa & ->).
  { destruct a as [|pa|pa]; [cbn in Ha; lia | |]; exists pa; auto. }
  destruct b as [|pb|pb]; try lia. cbn [binary_normalize].
  rewrite Hpa in *.
  destruct (binary_round_small (a <? 0) pa) as (mx & ka & -> & Hka & Hmx & Hmxr);
    [lia|].
  destruct (binary_round_small false pb) as (my & kb & -> & Hkb & Hmy & Hmyr);
    [lia|].
  cbn [SFdiv]. unfold SFdiv_core_binary. cbn [Zdigits2].
  rewrite (digits2_between mx 53), (digits2_between my 53) by lia.
  replace (fexp prec emax (53 + - ka - (53 + - kb))) with (- ka - - kb - 53)
    by (unfold fexp, emin; lia).
  rewrite Z.min_l by lia.
  replace (- ka - - kb - (- ka - - kb - 53)) with 53 by lia.
  rewrite Z.shiftl_mul_pow2 by lia.
  pose proof (Z_div_mod (Zpos mx * 2 ^ 53) (Zpos my) eq_refl) as Hdiv.
  destruct (Z.div_eucl (Zpos mx * 2 ^ 53) (Zpos my)) as [q r].
  destruct Hdiv as [HN Hr].
  assert (2 ^ 52 <= q < 2 ^ 54) as Hq.
  { change (2 ^ 53) with 9007199254740992 in *.
    change (2 ^ 52) with 4503599627370496 in *.
    change (2 ^ 54) with 18014398509481984. nia. }
  rewrite xorb_false_r.
  destruct (round_quotient (a <? 0) q r (Zpos my) (- ka - - kb - 53))
    as (m & e & -> & Hm & Hj & Hclose); [lia | lia | exact Hq | lia |].
  exists m, e. split; [reflexivity|]. split; [exact Hm|].
  remember (e - (- ka - - kb - 53)) as j eqn:Hjdef.
  replace (q * Zpos my + r) with (Zpos mx * 2 ^ 53) in Hclose by lia.
  rewrite Hmx, Hmy in Hclose.
  assert (0 < 2 ^ kb) by (apply Z.pow_pos_nonneg; lia).
  assert (0 < 2 ^ ka) by (apply Z.pow_pos_nonneg; lia).
  assert (0 < 2 ^ j) by (apply Z.pow_pos_nonneg; lia).
  assert (0 < 2 ^ kb * 2 ^ j) as Hc1 by (apply Z.mul_pos_pos; assumption).
  destruct (Z_le_gt_dec e 0) as [He|He].
  - rewrite Z.max_r, Z.max_l by lia. change (2 ^ 0) with 1.
    assert (2 ^ (- e) * (2 ^ kb * 2 ^ j) = 2 ^ ka * 2 ^ 53) as Hpow.
    { rewrite <- !Z.pow_add_r by lia. f_equal. lia. }
    apply (cancel_scale _ _ _ (2 ^ kb * 2 ^ j)); [exact Hc1|].
    replace (Zpos pa * 2 ^ (- e) * (2 ^ kb * 2 ^ j))
      with (Zpos pa * (2 ^ (- e) * (2 ^ kb * 2 ^ j))) by ring.
    rewrite Hpow.
    eapply Z.le_trans; [|eapply Z.le_trans; [exact Hclose|]];
      apply Z.eq_le_incl; [f_equal; f_equal|]; ring.
  - rewrite Z.max_l, Z.max_r by lia. change (2 ^ 0) with 1.
    assert (2 ^ e * (2 ^ ka * 2 ^ 53) = 2 ^ j * 2 ^ kb) as Hpow.
    { rewrite <- !Z.pow_add_r by lia. f_equal. lia. }
    apply (cancel_scale _ _ _ (2 ^ ka * 2 ^ 53));
      [apply Z.mul_pos_pos; [assumption | reflexivity]|].
    replace (Zpos m * 2 ^ e * Zpos pb * (2 ^ ka * 2 ^ 53))
      with (Zpos m * Zpos pb * (2 ^ e * (2 ^ ka * 2 ^ 53))) by ring.
    replace (2 ^ e * Zpos pb * (2 ^ ka * 2 ^ 53))
      with (Zpos pb * (2 ^ e * (2 ^ ka * 2 ^ 53))) by ring.
    rewrite Hpow.
    eapply Z.le_trans; [|eapply Z.le_trans; [exact Hclose|]];
      apply Z.eq_le_incl; [f_equal; f_equal|]; ring.
Qed.

End Float.

(** ** Binary64 addition of integers *)

Section FloatSums.

Local Abbreviation prec := 53.
Local Abbreviation emax := 1024.

Lemma iter_pos_iter {A : Type} (f : A -> A) (n : positive) (x : A) :
  SpecFloat.iter_pos f n x = Pos.iter f x n.
Proof.
  revert x. induction n as [n IH|n IH|]; intros x;
    cbn [SpecFloat.iter_pos Pos.iter].
  - now rewrite !IH, !Pos.iter_swap.
  - now rewrite !IH.
  - reflexivity.
Qed.

(** Shifting out the zeros at the end of a mantissa loses nothing. *)
Lemma shr_zeros (M : Z) (n : positive) :
  0 < M ->
  SpecFloat.iter_pos shr_1 n
    {| shr_m := M * 2 ^ Zpos n; shr_r := false; shr_s := false |}
  = {| shr_m := M; shr_r := false; shr_s := false |}.
Proof.
  intros HM. rewrite iter_pos_iter. revert M HM.
  induction n as [|n IH] using Pos.peano_ind; intros M HM.
  - cbn [Pos.iter]. destruct M as [|p|p]; try lia.
    change (2 ^ 1) with 2. replace (Zpos p * 2) with (Zpos p~0) by lia.
    reflexivity.
  - rewrite Pos.iter_succ, <- Pos.iter_swap.
    rewrite Pos2Z.inj_succ, Z.pow_succ_r by lia.
    assert (shr_1 {| shr_m := M * (2 * 2 ^ Zpos n); shr_r := false;
                     shr_s := false |}
            = {| shr_m := M * 2 ^ Zpos n; shr_r := false; shr_s := false |})
      as ->.
    { assert (0 < 2 ^ Zpos n) as Hp by (apply Z.pow_pos_nonneg; lia).
      assert (0 < M * 2 ^ Zpos n) as Hq by (apply Z.mul_pos_pos; lia).
      destruct (M * 2 ^ Zpos n) as [|q|q] eqn:Hv; try lia.
      replace (M * (2 * 2 ^ Zpos n)) with (Zpos q~0)
        by (rewrite Pos2Z.inj_xO, <- Hv; ring).
      reflexivity. }
    now apply IH.
Qed.

(** A mantissa of 53 digits followed by zeros is rounded to itself. *)
Lemma round_exact_shift (s : bool) (m q : positive) (e n : Z) :
  2 ^ 52 <= Zpos m < 2 ^ 53 -> 0 <= n -> Zpos q = Zpos m * 2 ^ n ->
  -1074 <= e + n <= 969 ->
  binary_round_aux prec emax s (Zpos q) e loc_Exact
  = S754_finite s m (e + n).
Proof.
  intros Hm Hn Hq He.
  destruct n as [|n|n]; try lia.
  { rewrite Z.pow_0_r, Z.mul_1_r in Hq. injection Hq as ->.
    rewrite Z.add_0_r. apply round_exact; lia. }
  assert (0 < 2 ^ Zpos n) as Hp by (apply Z.pow_pos_nonneg; lia).
  assert (2 ^ (53 + Zpos n - 1) <= Zpos q < 2 ^ (53 + Zpos n)) as Hdig.
  { replace (53 + Zpos n - 1) with (52 + Zpos n) by lia.
    rewrite !Z.pow_add_r, Hq by lia. split.
    - apply Z.mul_le_mono_nonneg_r; lia.
    - apply Z.mul_lt_mono_pos_r; lia. }
  unfold binary_round_aux.
  unfold shr_fexp at 1. cbn [Zdigits2].
  rewrite (digits2_between q (53 + Zpos n)) by lia.
  rewrite fexp_shift by lia.
  replace (53 + Zpos n - 53) with (Zpos n) by lia.
  cbn [shr shr_record_of_loc]. rewrite Hq, shr_zeros by lia.
  cbn [loc_of_shr_record shr_m shr_r shr_s round_nearest_even].
  destruct (renormalize s (Zpos m) (e + Zpos n))
    as (m' & e' & -> & Hm' & He' & Hval); [lia | lia |].
  assert (e' - (e + Zpos n) = 0 \/ e' - (e + Zpos n) = 1) as [Hj|Hj] by lia;
    rewrite Hj in Hval.
  - replace e' with (e + Zpos n) by lia. f_equal. lia.
  - change (2 ^ 1) with 2 in Hval. lia.
Qed.

Lemma shl_align_value (mx : positive) (ex ez : Z) :
  ez <= ex ->
  Zpos (shl_align mx ex ez).1 = Zpos mx * 2 ^ (ex - ez)
  /\ (shl_align mx ex ez).2 = ez.
Proof.
  intros Hle. unfold shl_align.
  destruct (ez - ex) as [|d|d] eqn:Hd; try lia.
  - replace (ex - ez) with 0 by lia. cbn [fst snd]. split; lia.
  - cbn [fst snd]. replace (ex - ez) with (Zpos d) by lia.
    split; [apply iter_xO | reflexivity].
Qed.

(** The conversion of an integer held with zeros at its end. *)
Lemma binary_round_scaled (s : bool) (p q : positive) (K : Z) :
  Zpos p < 2 ^ 53 -> 0 <= K -> Zpos q = Zpos p * 2 ^ K ->
  binary_round prec emax s q (- K) = binary_round prec emax s p 0.
Proof.
  intros Hp HK Hq.
  destruct (binary_round_small s p Hp) as (m & k & -> & Hk & Hm & Hmr).
  assert (0 < 2 ^ K) as HpK by (apply Z.pow_pos_nonneg; lia).
  assert (0 < 2 ^ k) as Hpk by (apply Z.pow_pos_nonneg; lia).
  assert (2 ^ (53 + K - k - 1) * 2 ^ k <= Zpos q * 2 ^ k
          < 2 ^ (53 + K - k) * 2 ^ k) as Hdig.
  { rewrite <- !Z.pow_add_r by lia.
    replace (53 + K - k - 1 + k) with (52 + K) by lia.
    replace (53 + K - k + k) with (53 + K) by lia.
    rewrite !Z.pow_add_r by lia.
    replace (Zpos q * 2 ^ k) with (Zpos m * 2 ^ K) by (rewrite Hq, Hm; ring).
    split.
    - apply Z.mul_le_mono_nonneg_r; lia.
    - apply Z.mul_lt_mono_pos_r; lia. }
  assert (2 ^ (53 + K - k - 1) <= Zpos q < 2 ^ (53 + K - k)) as Hdq.
  { split.
    - apply (Z.mul_le_mono_pos_r _ _ (2 ^ k)); lia.
    - apply (Z.mul_lt_mono_pos_r (2 ^ k)); lia. }
  unfold binary_round.
  rewrite (digits2_between q (53 + K - k)) by lia.
  replace (fexp prec emax (53 + K - k + - K)) with (- k)
    by (unfold fexp, emin; lia).
  destruct (Z_le_gt_dec K k) as [Hle|Hgt].
  - (* the mantissa is shifted left *)
    destruct (shl_align_value q (- K) (- k)) as [Hv He]; [lia|].
    destruct (shl_align q (- K) (- k)) as [mz ez]. cbn [fst snd] in Hv, He.
    subst ez.
    assert (mz = m) as ->.
    { apply Pos2Z.inj. rewrite Hv, Hm, Hq.
      replace (- K - - k) with (k - K) by lia.
      rewrite <- Z.mul_assoc, <- Z.pow_add_r by lia. do 2 f_equal. lia. }
    apply round_exact; lia.
  - unfold shl_align.
    destruct (- k - - K) as [|d|d] eqn:Hd; try lia.
    replace (- k) with (- K + Zpos d) by lia.
    apply round_exact_shift; try lia.
    rewrite Hq, Hm.
    replace K with (k + Zpos d) at 1 by lia.
    rewrite Z.pow_add_r by lia. ring.
Qed.

Lemma of_Z_round (a : Z) :
  a <> 0 ->
  exists pa, Z.abs a = Zpos pa
             /\ binary_normalize prec emax a 0 false
                = binary_round prec emax (a <? 0) pa 0.
Proof. destruct a as [|pa|pa]; [congruence | |]; exists pa; auto. Qed.

Lemma normalize_scaled (c K : Z) :
  Z.abs c < 2 ^ 53 -> 0 <= K ->
  binary_normalize prec emax (c * 2 ^ K) (- K) false
  = binary_normalize prec emax c 0 false.
Proof.
  intros Hc HK.
  assert (0 < 2 ^ K) as HpK by (apply Z.pow_pos_nonneg; lia).
  destruct c as [|p|p].
  - reflexivity.
  - assert (0 < Zpos p * 2 ^ K) as Hpos by (apply Z.mul_pos_pos; lia).
    destruct (Zpos p * 2 ^ K) as [|q|q] eqn:Hq; try lia.
    cbn [binary_normalize].
    apply binary_round_scaled; [cbn in Hc; lia | lia |].
    now rewrite Hq.
  - assert (0 < Zpos p * 2 ^ K) as Hpos by (apply Z.mul_pos_pos; lia).
    assert (Zneg p * 2 ^ K = - (Zpos p * 2 ^ K)) as -> by lia.
    destruct (Zpos p * 2 ^ K) as [|q|q] eqn:Hq; try lia.
    cbn [Z.opp binary_normalize].
    apply binary_round_scaled; [cbn in Hc; lia | lia |].
    now rewrite Hq.
Qed.

(** Binary64 addition of two integers is exact when they and their sum
    are below [2^53]. *)
Lemma add_of_Z (a b : Z) :
  Z.abs a < 2 ^ 53 -> Z.abs b < 2 ^ 53 -> Z.abs (a + b) < 2 ^ 53 ->
  F64.add (F64.of_Z a) (F64.of_Z b) = F64.of_Z (a + b).
Proof.
  intros Ha Hb Hab. unfold F64.add, F64.of_Z, F64.prec, F64.emax.
  destruct (Z.eq_dec a 0) as [->|Hna].
  { destruct (Z.eq_dec b 0) as [->|Hnb]; [reflexivity|].
    rewrite Z.add_0_l.
    destruct (of_Z_round b Hnb) as (pb & Hpb & ->).
    destruct (binary_round_small (b <? 0) pb) as (m & k & -> & _); [lia|].
    reflexivity. }
  destruct (Z.eq_dec b 0) as [->|Hnb].
  { rewrite Z.add_0_r.
    destruct (of_Z_round a Hna) as (pa & Hpa & ->).
    destruct (binary_round_small (a <? 0) pa) as (m & k & -> & _); [lia|].
    reflexivity. }
  destruct (of_Z_round a Hna) as (pa & Hpa & Ea).
  destruct (of_Z_round b Hnb) as (pb & Hpb & Eb).
  destruct (binary_round_small (a <? 0) pa) as (ma & ka & Ra & Hka & Hma & _);
    [lia|].
  destruct (binary_round_small (b <? 0) pb) as (mb & kb & Rb & Hkb & Hmb & _);
    [lia|].
  rewrite <- (normalize_scaled (a + b) (Z.max ka kb)) by lia.
  rewrite Ea, Eb, Ra, Rb.
  cbn [SFadd]. rewrite ?Z.opp_involutive.
  set (K := Z.max ka kb).
  replace (Z.min (- ka) (- kb)) with (- K) by (unfold K; lia).
  destruct (shl_align_value ma (- ka) (- K)) as [-> _]; [unfold K; lia|].
  destruct (shl_align_value mb (- kb) (- K)) as [-> _]; [unfold K; lia|].
  f_equal. rewrite Hma, Hmb.
  assert (forall x k, 0 <= k <= K -> x * 2 ^ k * 2 ^ (- k - - K) = x * 2 ^ K)
    as Hsc.
  { intros x k Hk. rewrite <- Z.mul_assoc, <- Z.pow_add_r by lia.
    do 2 f_equal. lia. }
  rewrite !Hsc by (unfold K; lia).
  assert (forall x px, x <> 0 -> Z.abs x = Zpos px ->
            cond_Zopp (x <? 0) (Zpos px * 2 ^ K) = x * 2 ^ K) as Hsign.
  { intros x px Hx Hpx. destruct x as [|p|p]; [congruence | |];
      cbn in Hpx; injection Hpx as <-; cbn [Z.ltb Z.compare cond_Zopp]; lia. }
  rewrite (Hsign a pa Hna Hpa), (Hsign b pb Hnb Hpb). ring.
Qed.

End FloatSums.

Section NormalQuotient.

Local Abbreviation prec := 53.
Local Abbreviation emax := 1024.

(** IEEE division of two normal numbers: a normal number within half a
    unit in the last place of the exact quotient. *)
Lemma div_normal_close (sx sy : bool) (mx my : positive) (ex ey : Z) :
  2 ^ 52 <= Zpos mx < 2 ^ 53 -> 2 ^ 52 <= Zpos my < 2 ^ 53 ->
  -1074 <= ex - ey - 53 <= 968 ->
  exists m j,
    SFdiv prec emax (S754_finite sx mx ex) (S754_finite sy my ey)
    = S754_finite (xorb sx sy) m (ex - ey - 53 + j)
    /\ 2 ^ 52 <= Zpos m < 2 ^ 53
    /\ 0 <= j <= 2
    /\ 2 * Z.abs (Zpos m * 2 ^ j * Zpos my - Zpos mx * 2 ^ 53)
       <= 2 ^ j * Zpos my.
Proof.
  intros Hmx Hmy He.
  cbn [SFdiv]. unfold SFdiv_core_binary. cbn [Zdigits2].
  rewrite (digits2_between mx 53), (digits2_between my 53) by lia.
  replace (fexp prec emax (53 + ex - (53 + ey))) with (ex - ey - 53)
    by (unfold fexp, emin; lia).
  rewrite Z.min_l by lia.
  replace (ex - ey - (ex - ey - 53)) with 53 by lia.
  rewrite Z.shiftl_mul_pow2 by lia.
  pose proof (Z_div_mod (Zpos mx * 2 ^ 53) (Zpos my) eq_refl) as Hdiv.
  destruct (Z.div_eucl (Zpos mx * 2 ^ 53) (Zpos my)) as [q r].
  destruct Hdiv as [HN Hr].
  assert (2 ^ 52 <= q < 2 ^ 54) as Hq.
  { change (2 ^ 53) with 9007199254740992 in *.
    change (2 ^ 52) with 4503599627370496 in *.
    change (2 ^ 54) with 18014398509481984. nia. }
  destruct (round_quotient (xorb sx sy) q r (Zpos my) (ex - ey - 53))
    as (m & e & -> & Hm & Hj & Hclose); [lia | lia | exact Hq | lia |].
  exists m, (e - (ex - ey - 53)). split; [f_equal; lia|].
  split; [exact Hm|]. split; [lia|].
  now replace (q * Zpos my + r) with (Zpos mx * 2 ^ 53) in Hclose by lia.
Qed.

End NormalQuotient.

(** ** The statistics calculator *)

Section Means.

Lemma sum_from (a : list Z) (k : Z) :
  fold_left Z.add a k = k + Np.sum a.
Proof.
  unfold Np.sum. revert k.
  induction a as [|x a IH]; intros k; cbn [fold_left].
  - lia.
  - rewrite (IH (k + x)), (IH (0 + x)). lia.
Qed.

Lemma sum_cons (x : Z) (a : list Z) : Np.sum (x :: a) = x + Np.sum a.
Proof. unfold Np.sum at 1. cbn [fold_left]. rewrite sum_from. lia. Qed.

(** The sum of [i4] cells is bounded by their number. *)
Lemma sum_bound (f : Reading -> Z) (data : Dataset) :
  (forall r, In r data -> i4 (f r) = true) ->
  Z.abs (Np.sum (column f data)) <= 2 ^ 31 * size data.
Proof.
  unfold size, column. induction data as [|r data IH]; intros Hall.
  - cbn. lia.
  - cbn [map length]. rewrite sum_cons, Nat2Z.inj_succ.
    assert (i4 (f r) = true) as Hr by (apply Hall; now left).
    unfold i4 in Hr. apply andb_prop in Hr as [H1%Z.leb_le H2%Z.ltb_lt].
    assert (Z.abs (Np.sum (map f data)) <= 2 ^ 31 * Z.of_nat (length data))
      as IH' by (apply IH; intros r' Hr'; apply Hall; now right).
    lia.
Qed.

(** [np.mean] of a non-empty column whose cells add up below [2^53]. *)
Lemma mean_rounded (a : list Z) :
  a <> [] -> Z.abs (Np.sum a) < 2 ^ 53 -> Z.of_nat (length a) < 2 ^ 53 ->
  rounded_quotient (Np.sum a) (Z.of_nat (length a)) (Np.mean a).
Proof.
  intros Hne Hsum Hlen. unfold Np.mean, F64.div, F64.of_Z, F64.prec, F64.emax.
  assert (0 < Z.of_nat (length a)) as Hpos by (destruct a; [congruence | cbn; lia]).
  destruct (Z.eq_dec (Np.sum a) 0) as [Hz|Hnz].
  - rewrite Hz. destruct (Z.of_nat (length a)) as [|n|n] eqn:Hn; try lia.
    cbn [binary_normalize].
    destruct (binary_round_small false n) as (m & k & -> & _); [lia|].
    cbn. split; reflexivity.
  - destruct (div_of_Z_close (Np.sum a) (Z.of_nat (length a)))
      as (m & e & -> & Hm & Hclose); [lia | lia |].
    cbn. auto.
Qed.

End Means.

(** ** The additions of [np.mean] *)

Section Accumulation.

Lemma sum_perm (a b : list Z) : a ≡ₚ b -> Np.sum a = Np.sum b.
Proof.
  induction 1 as [|x a b _ IH|x y a|a b c _ IH1 _ IH2].
  - reflexivity.
  - now rewrite !sum_cons, IH.
  - rewrite !sum_cons. lia.
  - congruence.
Qed.

Lemma sum_repeat (c : Z) (n : nat) : Np.sum (repeat c n) = c * Z.of_nat n.
Proof.
  induction n as [|n IH]; [cbn; lia|].
  cbn [repeat]. rewrite sum_cons, IH. lia.
Qed.

Lemma sum_app (a b : list Z) : Np.sum (a ++ b) = Np.sum a + Np.sum b.
Proof.
  induction a as [|x a IH]; [reflexivity|].
  cbn [app]. rewrite !sum_cons, IH. lia.
Qed.

Lemma sum_cells_bound (a : list Z) :
  Forall (fun x => i4 x = true) a ->
  Z.abs (Np.sum a) <= 2 ^ 31 * Z.of_nat (length a).
Proof.
  induction 1 as [|x a Hx _ IH]; [cbn; lia|].
  rewrite sum_cons. cbn [length]. rewrite Nat2Z.inj_succ.
  unfold i4 in Hx. apply andb_prop in Hx as [H1%Z.leb_le H2%Z.ltb_lt]. lia.
Qed.

Lemma add_zero_r (a : Z) (s : bool) :
  Z.abs a < 2 ^ 53 -> F64.add (F64.of_Z a) (S754_zero s) = F64.of_Z a.
Proof.
  intros Ha. unfold F64.add, F64.of_Z, F64.prec, F64.emax.
  destruct a as [|p|p]; [now destruct s | |]; cbn [binary_normalize].
  - destruct (binary_round_small false p) as (m' & k' & -> & _);
      [cbn in Ha; lia | reflexivity].
  - destruct (binary_round_small true p) as (m' & k' & -> & _);
      [cbn in Ha; lia | reflexivity].
Qed.

Lemma add_zero_l (a : Z) (s : bool) :
  Z.abs a < 2 ^ 53 -> F64.add (S754_zero s) (F64.of_Z a) = F64.of_Z a.
Proof.
  intros Ha. unfold F64.add, F64.of_Z, F64.prec, F64.emax.
  destruct a as [|p|p]; [now destruct s | |]; cbn [binary_normalize].
  - destruct (binary_round_small false p) as (m' & k' & -> & _);
      [cbn in Ha; lia | reflexivity].
  - destruct (binary_round_small true p) as (m' & k' & -> & _);
      [cbn in Ha; lia | reflexivity].
Qed.

(** Fewer than [2^22] cells of 32 bits: every addition of the
    accumulation is exact, in whatever order and grouping. *)
Lemma accumulate_exact (tr : Np.addition) :
  Forall (fun x => i4 x = true) (Np.cells tr) ->
  Z.of_nat (length (Np.cells tr)) < 2 ^ 22 ->
  match Np.cells tr with
  | [] => exists s, Np.accumulate tr = S754_zero s
  | _ => Np.accumulate tr = F64.of_Z (Np.sum (Np.cells tr))
  end.
Proof.
  induction tr as [x|s|l IHl r IHr]; cbn [Np.cells Np.accumulate].
  - intros _ _. reflexivity.
  - intros _ _. now exists s.
  - rewrite length_app, Nat2Z.inj_add. intros [Hl Hr]%Forall_app Hlen.
    specialize (IHl Hl ltac:(lia)). specialize (IHr Hr ltac:(lia)).
    pose proof (sum_cells_bound _ Hl) as Bl.
    pose proof (sum_cells_bound _ Hr) as Br.
    assert (Z.abs (Np.sum (Np.cells l)) < 2 ^ 53
            /\ Z.abs (Np.sum (Np.cells r)) < 2 ^ 53
            /\ Z.abs (Np.sum (Np.cells l) + Np.sum (Np.cells r)) < 2 ^ 53)
      as (Hbl & Hbr & Hblr) by lia.
    destruct (Np.cells l) as [|x cl] eqn:El;
      destruct (Np.cells r) as [|y cr] eqn:Er.
    + destruct IHl as [sl ->], IHr as [sr ->]. cbn [app].
      destruct sl, sr; eexists; reflexivity.
    + destruct IHl as [sl ->]. rewrite IHr. cbn [app].
      now apply add_zero_l.
    + destruct IHr as [sr ->]. rewrite IHl, app_nil_r. cbn [app].
      now apply add_zero_r.
    + rewrite IHl, IHr. cbn [app].
      change (x :: cl ++ y :: cr) with ((x :: cl) ++ y :: cr).
      rewrite sum_app. now apply add_of_Z.
Qed.

(** The mean of a column of fewer than [2^22] cells of 32 bits, computed
    by adding the cells in binary64 in any order and grouping, is
    [Np.mean]. *)
Lemma mean_by_any_order (tr : Np.addition) (a : list Z) :
  Np.cells tr ≡ₚ a -> a <> [] ->
  Forall (fun x => i4 x = true) a -> Z.of_nat (length a) < 2 ^ 22 ->
  Np.mean_by tr = Np.mean a.
Proof.
  intros Hperm Hne Hall Hlen.
  assert (Forall (fun x => i4 x = true) (Np.cells tr)) as Hall'
    by now rewrite Hperm.
  pose proof (accumulate_exact tr Hall') as Hacc.
  unfold Np.mean_by, Np.mean.
  rewrite (Permutation_length Hperm) in *.
  specialize (Hacc Hlen).
  destruct (Np.cells tr) as [|x c] eqn:Ec.
  - apply Permutation_nil_l in Hperm. congruence.
  - rewrite Hacc, (sum_perm _ _ Hperm). reflexivity.
Qed.

Lemma column_i4 (f : Reading -> Z) (data : Dataset) :
  (forall r, valid_reading r = true -> i4 (f r) = true) ->
  forallb valid_reading data = true ->
  Forall (fun x => i4 x = true) (column f data).
Proof.
  intros Hf Hvalid. rewrite forallb_forall in Hvalid.
  unfold column. apply Forall_map, Forall_forall.
  intros r Hr%list_elem_of_In. cbn. auto.
Qed.

(** No normal number divided by [2^22 + 1] gives [2^31 - 1]: the numerator
    would be an odd integer above [2^53]. *)
Lemma no_quotient_beyond (s : bool) (m : positive) (e : Z) :
  2 ^ 52 <= Zpos m < 2 ^ 53 -> -1051 <= e <= 971 ->
  F64.div (S754_finite s m e) (F64.of_Z (2 ^ 22 + 1))
  <> F64.of_Z (2 ^ 31 - 1).
Proof.
  intros Hm He.
  change (F64.of_Z (2 ^ 22 + 1))
    with (S754_finite false 4503600701112320 (-30)).
  change (F64.of_Z (2 ^ 31 - 1))
    with (S754_finite false 9007199250546688 (-22)).
  unfold F64.div, F64.prec, F64.emax.
  destruct (div_normal_close s false m 4503600701112320 e (-30))
    as (m' & j & -> & Hm' & Hj & Hclose); [exact Hm | cbn; lia | lia |].
  intros [= _ Hmant Hexp].
  rewrite Hmant in Hclose.
  change (2 ^ 53) with 9007199254740992 in *.
  change (2 ^ 52) with 4503599627370496 in *.
  assert (j = 0 \/ j = 1 \/ j = 2) as [Hv |[Hv | Hv]] by lia; subst j;
    [change (2 ^ 0) with 1 in Hclose | change (2 ^ 1) with 2 in Hclose
     | change (2 ^ 2) with 4 in Hclose]; lia.
Qed.

End Accumulation.

Section PositiveSums.

Local Abbreviation prec := 53.
Local Abbreviation emax := 1024.

Lemma shr_1_m (r : shr_record) :
  0 <= shr_m r -> shr_m (shr_1 r) = shr_m r / 2.
Proof.
  destruct r as [m rb sb]. cbn [shr_m]. intros Hm.
  destruct m as [|[p|p|]|p]; try lia; cbn [shr_1 shr_m].
  - reflexivity.
  - apply (Z.div_unique _ _ _ 1); lia.
  - apply (Z.div_unique _ _ _ 0); lia.
  - reflexivity.
Qed.

(** Shifting a mantissa by [n] digits divides it by [2^n]. *)
Lemma shr_m_iter (n : positive) (r : shr_record) :
  0 <= shr_m r ->
  shr_m (SpecFloat.iter_pos shr_1 n r) = shr_m r / 2 ^ Zpos n.
Proof.
  intros Hm. rewrite iter_pos_iter.
  induction n as [|n IH] using Pos.peano_ind.
  - cbn [Pos.iter]. now apply shr_1_m.
  - rewrite Pos.iter_succ, shr_1_m, IH.
    + rewrite Pos2Z.inj_succ, Z.pow_succ_r by lia.
      rewrite Z.div_div by lia. f_equal. ring.
    + rewrite IH. apply Z.div_pos; [exact Hm|].
      apply Z.pow_pos_nonneg; lia.
Qed.

(** The second alignment of [binary_round_aux], with the overflow. *)
Lemma renormalize_or_overflow (s : bool) (m e : Z) :
  2 ^ 52 <= m <= 2 ^ 53 -> -1074 <= e ->
  (exists m' e',
     (let '(mrs, e'') := shr_fexp prec emax m e loc_Exact in
      match shr_m mrs with
      | Z0 => S754_zero s
      | Zpos p => if e'' <=? emax - prec then S754_finite s p e''
                  else S754_infinity s
      | Zneg _ => S754_nan
      end) = S754_finite s m' e'
     /\ 2 ^ 52 <= Zpos m' < 2 ^ 53 /\ e <= e' <= 971)
  \/ (let '(mrs, e'') := shr_fexp prec emax m e loc_Exact in
      match shr_m mrs with
      | Z0 => S754_zero s
      | Zpos p => if e'' <=? emax - prec then S754_finite s p e''
                  else S754_infinity s
      | Zneg _ => S754_nan
      end) = S754_infinity s.
Proof.
  intros Hm He. destruct m as [|p|p]; try lia.
  destruct (Z.eq_dec (Zpos p) (2 ^ 53)) as [Heq|Hne].
  - unfold shr_fexp. cbn [Zdigits2].
    rewrite (digits2_between p 54) by lia.
    rewrite fexp_shift by lia. change (54 - 53) with 1.
    cbn [shr iter_pos shr_record_of_loc]. rewrite shr_1_pos. cbn [shr_m].
    rewrite Heq. change (Z.div2 (2 ^ 53)) with (Zpos (2 ^ 52)). cbv iota.
    change (1024 - 53) with 971.
    destruct (Z.leb_spec (e + 1) 971); [left | now right].
    exists (Pos.pow 2 52), (e + 1).
    split; [reflexivity|]. split; [cbn; lia | lia].
  - unfold shr_fexp. cbn [Zdigits2].
    rewrite (digits2_between p 53) by lia.
    rewrite fexp_shift by lia. change (53 - 53) with 0.
    cbn [shr shr_record_of_loc shr_m]. change (1024 - 53) with 971.
    destruct (Z.leb_spec e 971); [left | now right].
    exists p, e. split; [reflexivity|]. split; lia.
Qed.

(** The rounding of a mantissa of 53 digits or more: a normal number,
    or the infinity. *)
Lemma round_normal (s : bool) (p : positive) (e : Z) (l : location) :
  2 ^ 52 <= Zpos p -> -1074 <= e ->
  (exists m' e',
     binary_round_aux prec emax s (Zpos p) e l = S754_finite s m' e'
     /\ 2 ^ 52 <= Zpos m' < 2 ^ 53 /\ e <= e' <= 971)
  \/ binary_round_aux prec emax s (Zpos p) e l = S754_infinity s.
Proof.
  intros Hp He. pose proof (digits2_bounds p) as [Hlo Hhi].
  set (d := Zpos (digits2_pos p)) in *.
  assert (53 <= d) as Hd.
  { destruct (Z_le_gt_dec 53 d); [assumption|].
    assert (2 ^ d <= 2 ^ 52) by (apply Z.pow_le_mono_r; lia). lia. }
  assert (exists m1 e1,
            2 ^ 52 <= m1 <= 2 ^ 53 /\ e <= e1
            /\ binary_round_aux prec emax s (Zpos p) e l
               = (let '(mrs, e'') := shr_fexp prec emax m1 e1 loc_Exact in
                  match shr_m mrs with
                  | Z0 => S754_zero s
                  | Zpos q => if e'' <=? emax - prec then S754_finite s q e''
                              else S754_infinity s
                  | Zneg _ => S754_nan
                  end)) as (m1 & e1 & Hm1 & He1 & ->).
  { unfold binary_round_aux.
    unfold shr_fexp at 1. cbn [Zdigits2]. fold d.
    rewrite fexp_shift by lia.
    destruct (d - 53) as [|n|n] eqn:Hn; try lia.
    - cbn [shr]. rewrite loc_of_record, shr_m_of_loc.
      assert (d = 53) as Hd53 by lia. rewrite Hd53 in Hhi.
      eexists _, e. split; [|split; [|reflexivity]]; [|lia].
      destruct (round_nearest_even_cases (Zpos p) l) as [-> | ->]; lia.
    - cbn [shr].
      set (X := SpecFloat.iter_pos shr_1 n (shr_record_of_loc (Zpos p) l)).
      assert (shr_m X = Zpos p / 2 ^ Zpos n) as HX.
      { unfold X.
        rewrite shr_m_iter; rewrite shr_m_of_loc; [reflexivity | lia]. }
      assert (0 < 2 ^ Zpos n) as Hpn by (apply Z.pow_pos_nonneg; lia).
      assert (2 ^ 52 <= shr_m X < 2 ^ 53) as Hrange.
      { rewrite HX. replace d with (53 + Zpos n) in Hlo, Hhi by lia.
        replace (53 + Zpos n - 1) with (52 + Zpos n) in Hlo by lia.
        rewrite Z.pow_add_r in Hlo, Hhi by lia. split.
        - apply Z.div_le_lower_bound; lia.
        - apply Z.div_lt_upper_bound; lia. }
      eexists _, (e + Zpos n). split; [|split; [|reflexivity]]; [|lia].
      destruct (round_nearest_even_cases (shr_m X) (loc_of_shr_record X))
        as [-> | ->]; lia. }
  destruct (renormalize_or_overflow s m1 e1 Hm1 ltac:(lia))
    as [(m' & e' & Hr & Hm' & He')|Hr]; [left | now right].
  exists m', e'. split; [exact Hr|]. split; [exact Hm' | lia].
Qed.

(** The sum of two positive normal numbers not below [2^-52]: a normal
    number not below [2^-52], or the infinity. *)
Lemma add_positive_normal (mx my : positive) (ex ey : Z) :
  2 ^ 52 <= Zpos mx < 2 ^ 53 -> 2 ^ 52 <= Zpos my < 2 ^ 53 ->
  -52 <= ex -> -52 <= ey ->
  (exists m e,
     F64.add (S754_finite false mx ex) (S754_finite false my ey)
     = S754_finite false m e
     /\ 2 ^ 52 <= Zpos m < 2 ^ 53 /\ -52 <= e <= 971)
  \/ F64.add (S754_finite false mx ex) (S754_finite false my ey)
     = S754_infinity false.
Proof.
  intros Hmx Hmy Hex Hey. unfold F64.add, F64.prec, F64.emax.
  cbn [SFadd cond_Zopp].
  set (ez := Z.min ex ey).
  destruct (shl_align_value mx ex ez) as [-> _]; [unfold ez; lia|].
  destruct (shl_align_value my ey ez) as [-> _]; [unfold ez; lia|].
  assert (1 <= 2 ^ (ex - ez)) as Hpx
    by (apply (Z.pow_le_mono_r 2 0); unfold ez; lia).
  assert (1 <= 2 ^ (ey - ez)) as Hpy
    by (apply (Z.pow_le_mono_r 2 0); unfold ez; lia).
  assert (2 ^ 52 <= Zpos mx * 2 ^ (ex - ez) + Zpos my * 2 ^ (ey - ez)) as HM
    by nia.
  destruct (Zpos mx * 2 ^ (ex - ez) + Zpos my * 2 ^ (ey - ez)) as [|p|p];
    try lia.
  cbn [binary_normalize]. unfold binary_round.
  pose proof (digits2_bounds p) as [Hlo Hhi].
  set (d := Zpos (digits2_pos p)) in *.
  assert (53 <= d) as Hd.
  { destruct (Z_le_gt_dec 53 d); [assumption|].
    assert (2 ^ d <= 2 ^ 52) by (apply Z.pow_le_mono_r; lia). lia. }
  replace (fexp prec emax (d + ez)) with (d + ez - 53)
    by (unfold fexp, emin, ez; lia).
  unfold shl_align.
  destruct (d + ez - 53 - ez) as [|k|k] eqn:Hk; try lia;
    (destruct (round_normal false p ez loc_Exact HM ltac:(unfold ez; lia))
      as [(m & e & Hr & Hm & He) | Hr]; rewrite Hr; [left | now right];
     exists m, e; split; [reflexivity|]; split; [exact Hm|];
     unfold ez in *; lia).
Qed.

(** The total of positive cells, whatever the order of the additions: a
    zero when there is no cell, a positive normal number not below 1, or
    the infinity. *)
Lemma accumulate_positive (tr : Np.addition) :
  Forall (fun x => 0 < x < 2 ^ 53) (Np.cells tr) ->
  match Np.accumulate tr with
  | S754_zero _ => True
  | S754_infinity s => s = false
  | S754_nan => False
  | S754_finite s m e =>
      s = false /\ 2 ^ 52 <= Zpos m < 2 ^ 53 /\ -52 <= e <= 971
  end.
Proof.
  induction tr as [x|s|l IHl r IHr]; cbn [Np.cells Np.accumulate].
  - intros Hx%Forall_inv. destruct x as [|p|p]; try lia.
    unfold F64.of_Z, F64.prec, F64.emax. cbn [binary_normalize].
    destruct (binary_round_small false p) as (m & k & -> & Hk & _ & Hm);
      [lia|]. split; [reflexivity|]. split; [exact Hm | lia].
  - intros _. exact I.
  - intros [Hl Hr]%Forall_app. specialize (IHl Hl). specialize (IHr Hr).
    destruct (Np.accumulate l) as [sl|sl| |sl ml el];
      destruct (Np.accumulate r) as [sr|sr| |sr mr er];
      try contradiction.
    + now destruct sl, sr.
    + exact IHr.
    + exact IHr.
    + exact IHl.
    + subst. reflexivity.
    + exact IHl.
    + exact IHl.
    + exact IHr.
    + destruct IHl as (-> & Hml & Hel), IHr as (-> & Hmr & Her).
      destruct (add_positive_normal ml mr el er)
        as [(m & e & Hadd & Hm & He) | Hadd]; try lia;
        rewrite Hadd; auto.
Qed.

(** The mean of [2^22 + 1] cells of value [2^31 - 1], whatever the order
    of the additions, is not [2^31 - 1]. *)
Lemma mean_by_beyond (tr : Np.addition) :
  Forall (fun x => x = 2 ^ 31 - 1) (Np.cells tr) ->
  Z.of_nat (length (Np.cells tr)) = 2 ^ 22 + 1 ->
  Np.mean_by tr <> F64.of_Z (2 ^ 31 - 1).
Proof.
  intros Hcells Hlen. unfold Np.mean_by. rewrite Hlen.
  assert (Forall (fun x => 0 < x < 2 ^ 53) (Np.cells tr)) as Hpos.
  { eapply Forall_impl; [exact Hcells|]. intros x ->. cbn. lia. }
  pose proof (accumulate_positive tr Hpos) as Hacc.
  destruct (Np.accumulate tr) as [s|s| |s m e].
  - discriminate.
  - discriminate.
  - contradiction.
  - destruct Hacc as (-> & Hm & He). apply no_quotient_beyond; lia.
Qed.

(** The dataset beyond the exact sums: its size, its heart rates, their
    sum, and its mean as the additions give it. *)
Lemma size_beyond : size beyond_exact_sums = 2 ^ 22 + 1.
Proof.
  unfold size, beyond_exact_sums. rewrite repeat_length.
  apply Z2Nat.id. discriminate.
Qed.

Lemma column_beyond :
  column heart_rate beyond_exact_sums
  = repeat (2 ^ 31 - 1) (Z.to_nat (2 ^ 22 + 1)).
Proof.
  unfold beyond_exact_sums, column.
  exact (map_repeat full_scale_reading (Z.to_nat (2 ^ 22 + 1)) heart_rate).
Qed.

Lemma sum_beyond :
  Np.sum (column heart_rate beyond_exact_sums)
  = (2 ^ 31 - 1) * size beyond_exact_sums.
Proof.
  rewrite size_beyond, column_beyond, sum_repeat.
  rewrite Z2Nat.id; [reflexivity | discriminate].
Qed.

Lemma mean_beyond (tr : Np.addition) :
  Np.cells tr ≡ₚ column heart_rate beyond_exact_sums ->
  Np.mean_by tr <> F64.of_Z (2 ^ 31 - 1).
Proof.
  rewrite column_beyond. intros Hperm. apply mean_by_beyond.
  - apply Forall_forall. intros x Hx%list_elem_of_In.
    apply (Permutation_in _ Hperm) in Hx.
    exact (repeat_spec _ _ _ Hx).
  - rewrite (Permutation_length Hperm), repeat_length.
    apply Z2Nat.id. discriminate.
Qed.

End PositiveSums.

(** C1: for every non-empty dataset -- rows of 32-bit cells, fewer than
    [2^22] of them -- each of the three averages is the arithmetic mean of
    its column as binary64 has it: the sum of the column divided by the
    number of readings, within half a unit in the last place.  It is the
    value that adding the cells in binary64 and dividing the total by
    their number gives, in whatever order and grouping the cells are
    added.  For the empty dataset the result is the three constants
    [0.0]; the division is not performed, it would have given [nan].  The
    function is total: it returns a statistics value for every dataset. *)
Theorem calculate_statistics_means (data : Dataset) :
  (data <> [] ->
   forallb valid_reading data = true ->
   size data < 2 ^ 22 ->
   rounded_quotient (Np.sum (column heart_rate data)) (size data)
     (avg_heart_rate (calculate_statistics data))
   /\ rounded_quotient (Np.sum (column blood_pressure_systolic data))
        (size data) (avg_systolic_bp (calculate_statistics data))
   /\ rounded_quotient (Np.sum (column glucose_level data)) (size data)
        (avg_glucose (calculate_statistics data))
   /\ (forall tr,
         Np.cells tr ≡ₚ column heart_rate data ->
         Np.mean_by tr = avg_heart_rate (calculate_statistics data))
   /\ (forall tr,
         Np.cells tr ≡ₚ column blood_pressure_systolic data ->
         Np.mean_by tr = avg_systolic_bp (calculate_statistics data))
   /\ (forall tr,
         Np.cells tr ≡ₚ column glucose_level data ->
         Np.mean_by tr = avg_glucose (calculate_statistics data)))
  /\ calculate_statistics []
     = {| avg_heart_rate := S754_zero false;
          avg_systolic_bp := S754_zero false;
          avg_glucose := S754_zero false |}
  /\ Np.mean [] = S754_nan.
Proof.
  split; [|split; reflexivity]. intros Hne Hvalid Hsize.
  assert (forall f, Z.of_nat (length (column f data)) = size data) as Hlen
    by (intros f; unfold size, column; now rewrite length_map).
  assert (forall f, column f data <> []) as Hcol
    by (intros f; destruct data; [congruence | discriminate]).
  assert (forall f,
            (forall r, valid_reading r = true -> i4 (f r) = true) ->
            rounded_quotient (Np.sum (column f data)) (size data)
              (Np.mean (column f data))
            /\ (forall tr,
                  Np.cells tr ≡ₚ column f data ->
                  Np.mean_by tr = Np.mean (column f data))) as Hmean.
  { intros f Hf. split.
    - assert (Z.abs (Np.sum (column f data)) <= 2 ^ 31 * size data) as Hb.
      { apply sum_bound. rewrite forallb_forall in Hvalid. auto. }
      rewrite <- (Hlen f). apply mean_rounded; [apply Hcol | lia|].
      rewrite Hlen. lia.
    - intros tr Hperm. apply mean_by_any_order; [exact Hperm | apply Hcol | |].
      + now apply column_i4.
      + now rewrite Hlen. }
  assert (forall r, valid_reading r = true ->
            i4 (heart_rate r) = true /\ i4 (blood_pressure_systolic r) = true
            /\ i4 (glucose_level r) = true) as Hcells.
  { intros r Hr. unfold valid_reading in Hr.
    do 3 (apply andb_prop in Hr as [Hr ?]). auto. }
  unfold calculate_statistics.
  destruct (size data =? 0) eqn:Hzero.
  { apply Z.eqb_eq in Hzero. unfold size in Hzero.
    destruct data; [congruence | discriminate]. }
  cbn [avg_heart_rate avg_systolic_bp avg_glucose].
  destruct (Hmean heart_rate) as [Hq1 Hby1]; [intros r Hr; apply Hcells, Hr|].
  destruct (Hmean blood_pressure_systolic) as [Hq2 Hby2];
    [intros r Hr; apply Hcells, Hr|].
  destruct (Hmean glucose_level) as [Hq3 Hby3];
    [intros r Hr; apply Hcells, Hr|].
  auto 10.
Qed.

Lemma calculate_statistics_means_witness :
  rounded_quotient 280 3 (avg_heart_rate (calculate_statistics scenario_A))
  /\ avg_heart_rate (calculate_statistics scenario_A)
     = S754_finite false 6567749456581973 (-46)
  /\ Np.mean_by (Np.Add (Np.Add (Np.Start true) (Np.Cell 100))
                        (Np.Add (Np.Cell 85) (Np.Cell 95)))
     = avg_heart_rate (calculate_statistics scenario_A).
Proof.
  pose proof (proj1 (calculate_statistics_means scenario_A)) as H.
  destruct H as (Hq & _ & _ & Hby & _);
    [discriminate | reflexivity | reflexivity|].
  split; [exact Hq|]. split; [reflexivity|].
  apply Hby.
  change ([100; 85; 95] ≡ₚ [85; 95; 100]).
  apply (Permutation_cons_append [85; 95] 100).
Defined.

(** C1, as stated: the averages are not the arithmetic means themselves,
    and not for every dataset the nearest numbers to them.  On scenario A
    the mean of the heart rates is 280/3, which no binary64 number is:
    the result is [6567749456581973 * 2^-46], which times three is not
    280.  And with [2^22 + 1] readings of heart rate [2^31 - 1] the mean
    is [2^31 - 1], a binary64 number, yet [np.mean] returns another
    number: the heart rates add up to an odd integer above [2^53], so the
    additions round, and in whatever order and grouping the cells are
    added the total divided by the number of readings is not
    [2^31 - 1]. *)
Lemma calculate_statistics_not_the_mean :
  avg_heart_rate (calculate_statistics scenario_A)
  = S754_finite false 6567749456581973 (-46)
  /\ 3 * 6567749456581973 <> 280 * 2 ^ 46
  /\ size beyond_exact_sums = 2 ^ 22 + 1
  /\ Np.sum (column heart_rate beyond_exact_sums)
     = (2 ^ 31 - 1) * size beyond_exact_sums
  /\ (forall tr,
        Np.cells tr ≡ₚ column heart_rate beyond_exact_sums ->
        Np.mean_by tr <> F64.of_Z (2 ^ 31 - 1)).
Proof.
  split; [reflexivity|]. split; [discriminate|].
  split; [exact size_beyond|]. split; [exact sum_beyond|].
  exact mean_beyond.
Qed.

(** ** The loader *)

Section Loader.

Import Genfromtxt.

Lemma mapM_Ok_length {A B : Type} (f : A -> result B) (l : list A)
    (l' : list B) :
  mapM f l = Ok l' -> length l' = length l.
Proof.
  revert l'. induction l as [|a l IH]; intros l'; simpl.
  - now intros [= <-].
  - destruct (f a) as [b|e]; [|discriminate]. simpl.
    destruct (mapM f l) as [bs|e]; [|discriminate]. simpl.
    intros [= <-]. simpl. now rewrite (IH bs).
Qed.

Lemma mapM_Ok_Forall2 {A B : Type} (f : A -> result B) (l : list A)
    (l' : list B) :
  mapM f l = Ok l' -> Forall2 (fun a b => f a = Ok b) l l'.
Proof.
  revert l'. induction l as [|a l IH]; intros l'; simpl.
  - intros [= <-]. constructor.
  - destruct (f a) as [b|e] eqn:Hb; [|discriminate]. simpl.
    destruct (mapM f l) as [bs|e]; [|discriminate]. simpl.
    intros [= <-]. constructor; auto.
Qed.

Lemma mapM_Raise_head {A B : Type} (f : A -> result B) (a : A) (l : list A) :
  is_ok (f a) = false -> is_ok (mapM f (a :: l)) = false.
Proof. simpl. destruct (f a); [discriminate | reflexivity]. Qed.

Lemma skip_blank_filter (splits : list (list string)) :
  List.filter filled (skip_blank splits) = List.filter filled splits.
Proof.
  induction splits as [|vs splits IH]; [reflexivity|].
  destruct vs; [exact IH | reflexivity].
Qed.

Lemma skip_blank_hd (splits : list (list string)) :
  hd [] (skip_blank splits) = hd [] (List.filter filled splits).
Proof.
  induction splits as [|vs splits IH]; [reflexivity|].
  destruct vs; [exact IH | reflexivity].
Qed.

Lemma filter_numbered {A : Type} (P : A -> bool) (g : nat -> Z) (l : list A) :
  map snd (List.filter (fun '(_, v) => P v) (imap (fun i v => (g i, v)) l))
  = List.filter P l.
Proof.
  revert g. induction l as [|v l IH]; intros g; [reflexivity|].
  cbn [imap List.filter]. specialize (IH (g ∘ S)).
  destruct (P v); cbn [map snd]; [f_equal|]; exact IH.
Qed.

Lemma filter_snd {A : Type} (P : A -> bool) (l : list (Z * A)) :
  map snd (List.filter (fun '(_, v) => P v) l) = List.filter P (map snd l).
Proof.
  induction l as [|[i v] l IH]; [reflexivity|].
  cbn [map snd List.filter]. destruct (P v); cbn [map snd]; now rewrite IH.
Qed.

(** What [read_rows] returns, in terms of the rows of the file. *)
Lemma read_rows_spec (delimiter : ascii) (skip_header : nat)
    (lines : list string) :
  let R := data_rows delimiter skip_header lines in
  let nbcols := length (hd [] R) in
  exists invalid,
    read_rows delimiter "#" skip_header lines
    = (nbcols, List.filter (fun vs => length vs =? nbcols)%nat R, invalid)
    /\ map snd invalid
       = map length
           (List.filter (fun vs => negb (length vs =? nbcols)%nat) R).
Proof.
  intros R nbcols. unfold read_rows.
  set (splits := map (split_line delimiter "#") (drop skip_header lines)).
  assert (hd [] (skip_blank splits) = hd [] R) as Hhd
    by apply skip_blank_hd.
  rewrite Hhd. fold nbcols.
  set (numbered := imap (fun i vs => (Z.of_nat i, vs)) (skip_blank splits)).
  set (kept := List.filter (fun '(_, vs) => filled vs) numbered).
  assert (map snd kept = R) as Hkept.
  { unfold kept, numbered.
    rewrite (filter_numbered filled Z.of_nat). apply skip_blank_filter. }
  eexists. split.
  - f_equal. f_equal.
    rewrite (filter_snd (fun vs => (length vs =? nbcols)%nat)).
    now rewrite Hkept.
  - rewrite map_map.
    rewrite <- Hkept.
    rewrite <- (filter_snd (fun vs => negb (length vs =? nbcols)%nat)).
    rewrite map_map. apply map_ext. now intros [i vs].
Qed.

End Loader.

Section LoaderFailures.

Import Genfromtxt.

Lemma store_row_length (vals : list value) :
  length vals <> 8%nat -> exists e, store_row vals = Raise e.
Proof.
  intros Hlen.
  do 8 (destruct vals as [|[] vals];
        try (eexists; reflexivity)).
  destruct vals; [simpl in Hlen; lia | eexists; reflexivity].
Qed.

Lemma from_lines_invalid (lines : list string) (row : list string) :
  let R := data_rows "," 1 lines in
  In row R -> length row <> length (hd [] R) ->
  exists msg, from_lines "," dtype 1 lines = raise ValueError msg.
Proof.
  intros R Hin Hlen. unfold from_lines.
  destruct (read_rows_spec "," 1 lines) as (invalid & -> & Hinv).
  fold R in Hinv.
  destruct invalid as [|iv invalid]; [|eexists; reflexivity].
  exfalso. simpl in Hinv. symmetry in Hinv. apply map_eq_nil in Hinv.
  assert (In row (List.filter
                    (fun vs => negb (length vs =? length (hd [] R))%nat) R))
    as Hrow.
  { apply filter_In. split; [exact Hin|].
    apply negb_true_iff, Nat.eqb_neq, Hlen. }
  rewrite Hinv in Hrow. destruct Hrow.
Qed.

Lemma from_lines_short (lines : list string) :
  let R := data_rows "," 1 lines in
  R <> [] -> (length (hd [] R) < 8)%nat ->
  exists e, from_lines "," dtype 1 lines = Raise e.
Proof.
  intros R Hne Hshort. unfold from_lines.
  destruct (read_rows_spec "," 1 lines) as (invalid & -> & _).
  fold R. fold R in Hshort.
  destruct invalid; [|eexists; reflexivity].
  destruct R as [|r0 R'] eqn:HR; [congruence|]. cbn [hd] in *.
  assert (r0 <> []) as Hr0.
  { assert (In r0 (data_rows "," 1 lines)) as Hin
      by (fold R; rewrite HR; now left).
    apply filter_In in Hin as [_ Hf]. unfold filled in Hf.
    apply negb_true_iff, bool_decide_eq_false in Hf. exact Hf. }
  cbn [List.filter]. rewrite Nat.eqb_refl.
  set (rows := r0 :: List.filter _ R').
  destruct (convert_columns (converters dtype (length r0)) rows)
    as [columns|e] eqn:Hconv; [|eexists; reflexivity].
  cbn [mbind result_bind].
  apply mapM_Ok_length in Hconv.
  assert (length columns = length r0) as Hcols.
  { rewrite Hconv. unfold converters. rewrite length_take, length_imap.
    simpl. lia. }
  unfold zip_columns.
  destruct columns as [|c cs] eqn:Hc.
  { destruct r0; [congruence | discriminate Hcols]. }
  rewrite <- Hc in *. unfold rows. cbn [length seq map].
  destruct (store_row_length (map (fun col => nth 0 col (VStr "")) columns))
    as [e He].
  { rewrite length_map. lia. }
  cbn [mapM]. rewrite He. eexists; reflexivity.
Qed.

End LoaderFailures.

Section LoadedData.

Import Genfromtxt.

Lemma store_i4_range (n n' : Z) : store_i4 n = Ok n' -> i4 n' = true.
Proof.
  unfold store_i4. destruct (i4 n) eqn:Hr; [|discriminate].
  now intros [= <-].
Qed.

Lemma store_row_valid (vals : list value) (r : Reading) :
  store_row vals = Ok r -> valid_reading r = true.
Proof.
  unfold store_row.
  do 8 (destruct vals as [|[] vals]; try discriminate).
  destruct vals; [|discriminate].
  unfold mbind, result_bind.
  destruct (store_i4 n) as [hr|] eqn:H1; [|discriminate].
  destruct (store_i4 n0) as [sys|] eqn:H2; [|discriminate].
  destruct (store_i4 n1) as [dia|] eqn:H3; [|discriminate].
  destruct (store_i4 n2) as [glu|] eqn:H4; [|discriminate].
  intros [= <-]. unfold valid_reading. cbn.
  now rewrite (store_i4_range _ _ H1), (store_i4_range _ _ H2),
    (store_i4_range _ _ H3), (store_i4_range _ _ H4).
Qed.

(** Every array the loader returns holds 32-bit cells. *)
Lemma load_data_valid (t : gmap path node) (filename : path)
    (data : Dataset) :
  load_data t filename = Ok data -> forallb valid_reading data = true.
Proof.
  unfold load_data, genfromtxt, from_lines.
  destruct (Fs.read_text t filename) as [text|]; [|discriminate].
  cbn [mbind result_bind].
  destruct (read_rows "," "#" 1 (Str.file_lines text)) as [[nbcols rows] invalid].
  destruct invalid; [|discriminate].
  destruct (convert_columns (converters dtype nbcols) rows) as [columns|];
    [|discriminate].
  cbn [mbind result_bind].
  intros Hstore%mapM_Ok_Forall2.
  induction Hstore as [|vals r l l' Hr _ IH]; [reflexivity|].
  cbn [forallb]. now rewrite (store_row_valid _ _ Hr), IH.
Qed.

End LoadedData.

(** C4, as the code has it: the loader has no handler and no exception of
    its own, so it fails exactly when [genfromtxt] raises, with that
    exception.  For a proper path without the extension of a compressed
    file: when neither the path nor a compressed variant of it is there,
    [FileNotFoundError] with a message naming the path; for a file closed
    to reading, [PermissionError] naming the path; for a readable file of
    plain text, a row whose number of fields differs from that of the
    first row raises [ValueError], and rows of fewer than eight fields
    raise when the array is built.  A value that is not a number does not
    fail the load: an integer column takes [-1] and the float column
    [nan]. *)
Theorem load_data_failures (t : gmap path node) (filename : path) :
  proper_path filename = true ->
  DataSource.iszip filename = false ->
  (Forall (fun q => Fs.lookup t q = None)
          (DataSource.possible_names filename) ->
   load_data t filename
   = raise FileNotFoundError (path_str filename +:+ " not found."))
  /\ (forall f,
        Fs.lookup t filename = Some (File f) -> readable f = false ->
        load_data t filename
        = raise PermissionError
                ("[Errno 13] Permission denied: '" +:+ path_str filename
                 +:+ "'"))
  /\ (forall f row,
        Fs.lookup t filename = Some (File f) -> readable f = true ->
        plain_text (content f) = true ->
        In row (Genfromtxt.data_rows "," 1 (Str.file_lines (content f))) ->
        length row
        <> length (hd [] (Genfromtxt.data_rows "," 1
                            (Str.file_lines (content f)))) ->
        exists msg, load_data t filename = raise ValueError msg)
  /\ (forall f,
        Fs.lookup t filename = Some (File f) -> readable f = true ->
        plain_text (content f) = true ->
        Genfromtxt.data_rows "," 1 (Str.file_lines (content f)) <> [] ->
        (length (hd [] (Genfromtxt.data_rows "," 1
                          (Str.file_lines (content f)))) < 8)%nat ->
        exists e, load_data t filename = Raise e)
  /\ (forall v,
        plain_text v = true ->
        Py.float_of_str v = None ->
        Genfromtxt.loose_call Genfromtxt.I4 v = Ok (Genfromtxt.VInt (-1))
        /\ Genfromtxt.loose_call Genfromtxt.F4 v
           = Ok (Genfromtxt.VFloat S754_nan)).
Proof.
  intros _ _. unfold load_data, Genfromtxt.genfromtxt, Fs.read_text.
  split; [|split; [|split; [|split]]].
  - intros Hnone%Forall_inv. cbn beta in Hnone. now rewrite Hnone.
  - intros f -> ->. reflexivity.
  - intros f row -> -> _ Hin Hlen. cbn [mbind result_bind].
    exact (from_lines_invalid _ row Hin Hlen).
  - intros f -> -> _ Hne Hshort. cbn [mbind result_bind].
    exact (from_lines_short _ Hne Hshort).
  - intros v _ Hv. simpl. now rewrite Hv.
Qed.

Lemma load_data_failures_witness :
  load_data ∅ data_file
  = raise FileNotFoundError "health_data.csv not found."
  /\ exists msg,
       load_data {[ data_file := File ragged_file ]} data_file
       = raise ValueError msg.
Proof.
  pose proof (load_data_failures ∅ data_file eq_refl eq_refl) as [Hmissing _].
  pose proof (load_data_failures {[ data_file := File ragged_file ]}
                data_file eq_refl eq_refl) as (_ & _ & Hragged & _).
  split.
  - apply Hmissing. repeat constructor.
  - apply (Hragged ragged_file
             ["P002"; "2024-01-15T08:05:00"; "88"; "135"; "85"; "37.1";
              "112"]);
      [reflexivity | reflexivity | reflexivity
      | vm_compute; auto | vm_compute; lia].
Defined.

(** C4, as stated: there is no [LoadError], and two of the rows the
    claim counts as parse failures load.  A non-numeric value in a numeric
    column does not make the loader fail: the file above loads, with [-1]
    as the heart rate.  Nor does a column count other than eight: rows of
    nine fields load, the ninth field is dropped.  And where the loader
    fails on a row, it is with the [ValueError] of the parser, whose
    message gives the line and the numbers of fields, not the path. *)
Lemma load_data_no_load_error :
  Py.float_of_str "abc" = None
  /\ load_data non_numeric_file data_file
     = Ok [ {| patient_id := "P001"; timestamp := "2024-01-15T08:00:00";
            heart_rate := -1; blood_pressure_systolic := 120;
            blood_pressure_diastolic := 80;
            temperature := S754_finite false 9594470 (-18);
            glucose_level := 95; sensor_id := "S001" |} ]
  /\ load_data {[ data_file := File nine_fields_file ]} data_file
     = Ok [ {| patient_id := "P001"; timestamp := "2024-01-15T08:00:00";
            heart_rate := 72; blood_pressure_systolic := 120;
            blood_pressure_diastolic := 80;
            temperature := S754_finite false 9594470 (-18);
            glucose_level := 95; sensor_id := "S001" |} ]
  /\ load_data {[ data_file := File ragged_file ]} data_file
     = raise ValueError
             ("Some errors were detected !" +:+ String Str.LF ""
              +:+ "    Line #3 (got 7 columns instead of 8)")
  /\ Str.contains (path_str data_file)
       ("Some errors were detected !" +:+ String Str.LF ""
        +:+ "    Line #3 (got 7 columns instead of 8)") = false.
Proof. repeat split; vm_compute; reflexivity. Qed.

Section HeaderOnly.

Import Genfromtxt.

Lemma skip_blank_all_blank (splits : list (list string)) :
  Forall (fun vs => vs = []) splits -> skip_blank splits = [].
Proof. induction 1 as [|vs splits -> _ IH]; [reflexivity | exact IH]. Qed.

Lemma from_lines_no_rows (header : string) (blank : list string) :
  Forall (fun l => split_line "," "#" l = []) blank ->
  from_lines "," dtype 1 (header :: blank) = Ok [].
Proof.
  intros Hblank. unfold from_lines, read_rows. cbn [drop].
  rewrite skip_blank_all_blank; [reflexivity|].
  now apply Forall_map.
Qed.

End HeaderOnly.

(** C5: a readable file made of a header line, followed by nothing or by
    lines without a field, loads as the empty dataset, with no error; the
    statistics are then all [0.0], the counts all [0], the total [0], the
    third line of the report is [Total readings: 0], and [main] goes on
    to write that report. *)
Theorem header_only_file (t : gmap path node) (filename : path) (f : file)
    (header : string) (blank : list string) :
  Fs.lookup t filename = Some (File f) ->
  readable f = true ->
  Str.file_lines (content f) = header :: blank ->
  Forall (fun l => Genfromtxt.split_line "," "#" l = []) blank ->
  load_data t filename = Ok []
  /\ calculate_statistics [] = zero_statistics
  /\ find_abnormal_readings [] = zero_counts
  /\ size [] = 0
  /\ nth 2 (Str.split Str.LF
              (generate_report (calculate_statistics [])
                 (find_abnormal_readings []) (size [])))
         "" = "Total readings: 0"
  /\ (forall w, fs w = t -> filename = data_file ->
        main w
        = (_ ← save_report (generate_report zero_statistics zero_counts 0)
                           out_file;
           print "Analysis complete. Report written to output/analysis_report.txt")
            w).
Proof.
  intros Hlook Hread Hlines Hblank.
  assert (load_data t filename = Ok []) as Hload.
  { unfold load_data, Genfromtxt.genfromtxt, Fs.read_text.
    rewrite Hlook, Hread. cbn [mbind result_bind]. rewrite Hlines.
    now apply from_lines_no_rows. }
  repeat split; try reflexivity; [exact Hload|].
  intros w <- ->. unfold main, pipeline. rewrite Hload. reflexivity.
Qed.

Lemma header_only_file_witness :
  load_data header_only_fs data_file = Ok [].
Proof.
  refine (proj1 (header_only_file header_only_fs data_file _ _ [] _ _ _ _));
    [reflexivity | reflexivity | reflexivity | constructor].
Defined.

(** ** The orchestrator *)

(** C6: whenever the load step fails, [main] prints one line that names
    the input path and carries the message of the exception, leaves the
    file system as it was -- no output file, no directory -- and returns
    normally. *)
Theorem main_load_failure (w : World) (e : exn) :
  load_data (fs w) data_file = Raise e ->
  main w
  = (Ok tt,
     {| fs := fs w;
        stdout := stdout w ++
          ["Error loading data from health_data.csv: " +:+ exn_msg e] |})
  /\ fs (snd (main w)) = fs w
  /\ file_content (fs (snd (main w))) out_file = file_content (fs w) out_file
  /\ (forall line, last (stdout (snd (main w))) = Some line ->
        Str.contains (path_str data_file) line = true
        /\ line = "Error loading data from " +:+ path_str data_file +:+ ": "
                  +:+ exn_msg e).
Proof.
  intros Hload.
  assert (main w
          = (Ok tt,
             {| fs := fs w;
                stdout := stdout w ++
                  ["Error loading data from health_data.csv: "
                   +:+ exn_msg e] |})) as Hmain.
  { unfold main, pipeline. rewrite Hload. reflexivity. }
  rewrite Hmain. cbn [snd fs stdout]. repeat split.
  - rewrite last_snoc in H. injection H as <-. reflexivity.
  - rewrite last_snoc in H. injection H as <-. reflexivity.
Qed.

Lemma main_load_failure_witness :
  main {| fs := ∅; stdout := [] |}
  = (Ok tt,
     {| fs := ∅;
        stdout :=
          ["Error loading data from health_data.csv: health_data.csv not found."] |}).
Proof.
  refine (proj1 (main_load_failure {| fs := ∅; stdout := [] |}
                   {| exn_kind := FileNotFoundError;
                      exn_msg := "health_data.csv not found." |} _)).
  reflexivity.
Defined.

(** ** The report writer *)

Section Writer.

Implicit Types (t : gmap path node) (p q : path).

Lemma ancestors_spec p q :
  In q (ancestors p) <-> exists k, k <> [] /\ p = q ++ k.
Proof.
  revert q. induction p as [|x p IH]; intros q; simpl.
  - split; [tauto|]. intros (k & Hk & Heq).
    symmetry in Heq. apply app_eq_nil in Heq as [_ ->]. congruence.
  - split.
    + intros [<-|Hin].
      * exists (x :: p). split; [discriminate | reflexivity].
      * apply in_map_iff in Hin as (q' & <- & Hq').
        apply IH in Hq' as (k & Hk & ->). exists k. tauto.
    + intros (k & Hk & Heq). destruct q as [|y q]; [now left | right].
      simpl in Heq. injection Heq as <- ->.
      apply in_map, IH. eauto.
Qed.

Lemma dirname_snoc p x : dirname (p ++ [x]) = p.
Proof. apply removelast_last. Qed.

Lemma dirname_ancestor p : p <> [] -> In (dirname p) (ancestors p).
Proof.
  intros Hp. apply ancestors_spec.
  destruct (exists_last Hp) as (h & x & ->).
  rewrite dirname_snoc. exists [x]. split; [discriminate | reflexivity].
Qed.

Lemma lookup_nonempty t p : p <> [] -> Fs.lookup t p = t !! p.
Proof. now destruct p. Qed.

Lemma lookup_insert_other t p q (n : node) :
  p <> q -> Fs.lookup (<[p := n]> t) q = Fs.lookup t q.
Proof.
  intros Hne. destruct q; [reflexivity|]. simpl.
  now apply lookup_insert_ne.
Qed.

Lemma lookup_insert_same t p (n : node) :
  p <> [] -> Fs.lookup (<[p := n]> t) p = Some n.
Proof.
  intros Hp. rewrite lookup_nonempty by exact Hp. apply lookup_insert_eq.
Qed.

(** In a well-formed tree everything above a node is a directory. *)
Lemma wf_above t q k :
  Fs.wf t -> k <> [] -> is_Some (Fs.lookup t (q ++ k)) ->
  Fs.lookup t q = Some Dir.
Proof.
  intros [Hroot Hwf]. induction k as [|y k IH] using rev_ind; [congruence|].
  intros _ [n Hn].
  assert (q ++ k ++ [y] <> []) as Hne by (destruct q, k; discriminate).
  rewrite lookup_nonempty in Hn by exact Hne.
  apply Hwf in Hn. rewrite app_assoc, dirname_snoc in Hn.
  destruct k as [|z k]; [now rewrite app_nil_r in Hn|].
  apply IH; [discriminate | eauto].
Qed.

(** Adding a directory below a directory keeps the tree well formed. *)
Lemma wf_insert_dir t p :
  Fs.wf t -> p <> [] -> Fs.lookup t (dirname p) = Some Dir ->
  Fs.wf (<[p := Dir]> t).
Proof.
  intros [Hroot Hwf] Hp Hparent. split.
  - rewrite lookup_insert_ne by congruence. exact Hroot.
  - intros p' n Hn. destruct (decide (p = dirname p')) as [->|Hne].
    + apply lookup_insert_same. exact Hp.
    + rewrite lookup_insert_other by exact Hne.
      destruct (decide (p = p')) as [<-|Hne']; [exact Hparent|].
      rewrite lookup_insert_ne in Hn by exact Hne'. eauto.
Qed.

(** Writing a file where there was none, or a file, below a directory
    keeps the tree well formed. *)
Lemma wf_insert_file t p (f : file) :
  Fs.wf t -> p <> [] -> Fs.lookup t (dirname p) = Some Dir ->
  t !! p <> Some Dir ->
  Fs.wf (<[p := File f]> t).
Proof.
  intros [Hroot Hwf] Hp Hparent Hnodir. split.
  - rewrite lookup_insert_ne by congruence. exact Hroot.
  - intros p' n Hn. destruct (decide (p = p')) as [<-|Hne'].
    + rewrite lookup_insert_other; [exact Hparent|].
      intros Heq. destruct (exists_last Hp) as (h & x & ->).
      rewrite dirname_snoc in Heq.
      apply (f_equal (@length string)) in Heq.
      rewrite length_app in Heq. simpl in Heq. lia.
    + rewrite lookup_insert_ne in Hn by exact Hne'.
      destruct (decide (p = dirname p')) as [->|Hne].
      * apply Hwf in Hn.
        rewrite lookup_nonempty in Hn by exact Hp. contradiction.
      * rewrite lookup_insert_other by exact Hne. eauto.
Qed.

Lemma prefix_snoc_cases q p x :
  q `prefix_of` p ++ [x] -> q `prefix_of` p \/ q = p ++ [x].
Proof.
  intros [k Hk]. destruct k as [|y k _] using rev_ind.
  - right. now rewrite app_nil_r in Hk.
  - left. rewrite app_assoc in Hk. apply app_inj_tail in Hk as [-> _].
    now exists k.
Qed.

(** [makedirs] succeeds when nothing on the way is a file: afterwards the
    directory and all above it exist, and nothing else has changed. *)
Lemma makedirs_rev_ok (rname : list string) t :
  rname <> [] ->
  Fs.wf t ->
  (forall q f, q `prefix_of` rev rname -> Fs.lookup t q <> Some (File f)) ->
  exists t',
    Fs.makedirs_rev t rname = (t', None)
    /\ Fs.wf t'
    /\ (forall q, q `prefix_of` rev rname -> Fs.lookup t' q = Some Dir)
    /\ (forall p, ~ p `prefix_of` rev rname -> t' !! p = t !! p).
Proof.
  revert t. induction rname as [|x rh IH]; intros t Hnonempty Hwf Hfree.
  - congruence.
  - clear Hnonempty. cbn [rev] in *. cbn [Fs.makedirs_rev rev]. set (h := rev rh) in *.
    assert (exists t1,
              (if negb (bool_decide (rh = [])) && negb (Fs.exists_ t h)
               then match Fs.makedirs_rev t rh with
                    | (t', Some e) =>
                        match exn_kind e with
                        | FileExistsError => (t', None)
                        | _ => (t', Some e)
                        end
                    | r => r
                    end
               else (t, None)) = (t1, None)
              /\ Fs.wf t1
              /\ (forall q, q `prefix_of` h -> Fs.lookup t1 q = Some Dir)
              /\ (forall p, ~ p `prefix_of` h -> t1 !! p = t !! p))
      as (t1 & -> & Hwf1 & Hdirs1 & Hsame1).
    { destruct (bool_decide (rh = [])) eqn:Hrh; cbn [negb andb].
      - apply bool_decide_eq_true in Hrh. exists t.
        split; [reflexivity|]. split; [exact Hwf|]. split; [|reflexivity].
        intros q Hq. unfold h in Hq. rewrite Hrh in Hq.
        apply prefix_nil_inv in Hq. now subst.
      - destruct (Fs.exists_ t h) eqn:Hex; cbn [negb].
        + exists t.
          split; [reflexivity|]. split; [exact Hwf|]. split; [|reflexivity].
          intros q [k ->]. unfold Fs.exists_ in Hex.
          destruct (Fs.lookup t (q ++ k)) as [n|] eqn:Hn; [|discriminate].
          destruct k as [|y k].
          * rewrite app_nil_r in *. destruct n as [|f]; [exact Hn|].
            exfalso. apply (Hfree q f); [|exact Hn].
            now apply prefix_app_r.
          * apply (wf_above t q (y :: k)); [exact Hwf | discriminate|].
            rewrite Hn. eauto.
        + apply bool_decide_eq_false in Hrh.
          destruct (IH t Hrh Hwf) as (t1 & -> & Hwf1 & Hdirs1 & Hsame1).
          { intros q f Hq. apply Hfree. now apply prefix_app_r. }
          exists t1. split; [reflexivity|]. split; [exact Hwf1|].
          split; assumption. }
    assert (h ++ [x] <> []) as Hne by (destruct h; discriminate).
    assert (t1 !! (h ++ [x]) = t !! (h ++ [x])) as Hname
      by (apply Hsame1, prefix_snoc_not).
    unfold Fs.mkdir, Fs.isdir. rewrite dirname_snoc.
    rewrite bool_decide_eq_false_2 by exact Hne.
    rewrite (lookup_nonempty t1 _ Hne), Hname.
    destruct (t !! (h ++ [x])) as [n|] eqn:Hn.
    + cbn [raise]. destruct n as [|f].
      2:{ exfalso. apply (Hfree (h ++ [x]) f); [reflexivity|].
          now rewrite lookup_nonempty. }
      exists t1. split; [reflexivity|]. split; [exact Hwf1|]. split.
      * intros q [Hq| ->]%prefix_snoc_cases; [now apply Hdirs1|].
        rewrite lookup_nonempty by exact Hne. now rewrite Hname.
      * intros p Hp. apply Hsame1. intros Hq. apply Hp.
        now apply prefix_app_r.
    + rewrite (Hdirs1 h) by reflexivity.
      exists (<[h ++ [x] := Dir]> t1). split; [reflexivity|].
      split; [|split].
      * apply wf_insert_dir; [exact Hwf1 | exact Hne|].
        rewrite dirname_snoc. now apply Hdirs1.
      * intros q [Hq| ->]%prefix_snoc_cases.
        -- rewrite lookup_insert_other; [now apply Hdirs1|].
           intros <-. now apply prefix_snoc_not in Hq.
        -- now apply lookup_insert_same.
      * intros p Hp. rewrite lookup_insert_ne.
        -- apply Hsame1. intros Hq. apply Hp. now apply prefix_app_r.
        -- intros <-. now apply Hp.
Qed.

End Writer.

Section SaveReport.

Implicit Types (t : gmap path node) (p q : path).

Lemma dirs_above t p :
  Fs.wf t -> Fs.lookup t p = Some Dir ->
  forall q, q `prefix_of` p -> Fs.lookup t q = Some Dir.
Proof.
  intros Hwf Hp q [k ->]. destruct k as [|y k].
  - now rewrite app_nil_r in Hp.
  - apply (wf_above t q (y :: k)); [exact Hwf | discriminate | eauto].
Qed.

Lemma can_write_spec t filename :
  can_write t filename = true ->
  filename <> []
  /\ (forall q f, In q (ancestors filename) ->
        Fs.lookup t q <> Some (File f))
  /\ (t !! filename = None
      \/ exists f, t !! filename = Some (File f) /\ writable f = true).
Proof.
  unfold can_write. intros [[Hne Hanc]%andb_prop Htarget]%andb_prop.
  split; [|split].
  - now apply negb_true_iff, bool_decide_eq_false in Hne.
  - intros q f Hq Hf. rewrite forallb_forall in Hanc.
    specialize (Hanc q Hq). now rewrite Hf in Hanc.
  - destruct (t !! filename) as [[|f]|]; [discriminate | right | left]; eauto.
Qed.

Lemma write_text_ok t (filename : path) (report : string) :
  filename <> [] ->
  Fs.lookup t (dirname filename) = Some Dir ->
  (t !! filename = None
   \/ exists f, t !! filename = Some (File f) /\ writable f = true) ->
  exists f,
    Fs.write_text t filename report = Ok (<[filename := File f]> t)
    /\ content f = report /\ writable f = true.
Proof.
  intros Hne Hparent Htarget. unfold Fs.write_text. rewrite Hparent.
  destruct filename as [|y l]; [congruence|].
  destruct Htarget as [-> | (f & -> & Hwr)].
  - eexists. split; [reflexivity|]. split; reflexivity.
  - rewrite Hwr. eexists. split; [reflexivity|]. split; reflexivity.
Qed.

(** The effect of a successful [save_report]. *)
Lemma save_report_ok (w : World) (report : string) (filename : path) :
  Fs.wf (fs w) ->
  can_write (fs w) filename = true ->
  exists t1 (f : file),
    save_report report filename w
    = (Ok tt, {| fs := <[filename := File f]> t1; stdout := stdout w |})
    /\ content f = report /\ writable f = true
    /\ Fs.wf t1
    /\ (forall q, q `prefix_of` dirname filename ->
          Fs.lookup t1 q = Some Dir)
    /\ (forall p, ~ p `prefix_of` dirname filename ->
          t1 !! p = fs w !! p)
    /\ t1 !! filename <> Some Dir.
Proof.
  intros Hwf (Hne & Hanc & Htarget)%can_write_spec.
  destruct (exists_last Hne) as (h & x & ->).
  assert (forall q f, q `prefix_of` h -> Fs.lookup (fs w) q <> Some (File f))
    as Hfree.
  { intros q f [k ->]. apply Hanc, ancestors_spec.
    exists (k ++ [x]). split; [destruct k; discriminate|].
    now rewrite app_assoc. }
  assert (exists t1,
            (negb (bool_decide (h = []))
             && negb (Fs.exists_ (fs w) h) = false -> t1 = fs w)
            /\ Fs.wf t1
            /\ (forall q, q `prefix_of` h -> Fs.lookup t1 q = Some Dir)
            /\ (forall p, ~ p `prefix_of` h -> t1 !! p = fs w !! p)
            /\ (negb (bool_decide (h = []))
                && negb (Fs.exists_ (fs w) h) = true ->
                Fs.makedirs (fs w) h = (t1, None)))
    as (t1 & Hskip & Hwf1 & Hdirs1 & Hsame1 & Hmk).
  { destruct (bool_decide (h = [])) eqn:Hh; cbn [negb andb].
    - apply bool_decide_eq_true in Hh as ->. exists (fs w).
      split; [reflexivity|]. split; [exact Hwf|].
      split; [|split; [reflexivity | discriminate]].
      intros q Hq%prefix_nil_inv. now subst.
    - destruct (Fs.exists_ (fs w) h) eqn:Hex; cbn [negb].
      + exists (fs w).
        split; [reflexivity|]. split; [exact Hwf|].
        split; [|split; [reflexivity | discriminate]].
        apply dirs_above; [exact Hwf|]. unfold Fs.exists_ in Hex.
        destruct (Fs.lookup (fs w) h) as [[|f]|] eqn:Hn;
          [reflexivity | | discriminate].
        exfalso. now apply (Hfree h f).
      + unfold Fs.makedirs. apply bool_decide_eq_false in Hh.
        destruct (makedirs_rev_ok (rev h) (fs w))
          as (t1 & -> & Hwf1 & Hdirs1 & Hsame1); [| exact Hwf | |].
        { intros Hrev. apply Hh. now rewrite <- (rev_involutive h), Hrev. }
        { rewrite rev_involutive. exact Hfree. }
        rewrite rev_involutive in *. exists t1.
        split; [discriminate|]. auto. }
  assert (t1 !! (h ++ [x]) = fs w !! (h ++ [x])) as Hname
    by (apply Hsame1, prefix_snoc_not).
  destruct (write_text_ok t1 (h ++ [x]) report Hne) as (f & Hwrite & Hc & Hw).
  { rewrite dirname_snoc. now apply Hdirs1. }
  { now rewrite Hname. }
  exists t1, f. rewrite dirname_snoc.
  split; [|repeat (split; [assumption|]);
           rewrite Hname; destruct Htarget as [->|(f' & -> & _)]; discriminate].
  unfold save_report, path_exists, makedirs, write_text.
  unfold mbind, io_bind, mret, io_ret. cbn beta iota.
  rewrite dirname_snoc.
  destruct (negb (bool_decide (h = [])) && negb (Fs.exists_ (fs w) h))
    eqn:Hcond.
  - rewrite (Hmk eq_refl). cbn [fs stdout]. now rewrite Hwrite.
  - rewrite (Hskip eq_refl) in *. now rewrite Hwrite.
Qed.

Lemma makedirs_output t :
  t !! ["output"] = None ->
  Fs.makedirs t ["output"] = (<[["output"] := Dir]> t, None).
Proof.
  intros Hnone. unfold Fs.makedirs. cbn [rev app Fs.makedirs_rev].
  rewrite bool_decide_eq_true_2 by reflexivity. cbn [negb andb].
  unfold Fs.mkdir. rewrite bool_decide_eq_false_2 by discriminate.
  cbn [rev app Fs.lookup dirname removelast]. now rewrite Hnone.
Qed.

(** The tree after [save_report] at [out_file], whether it succeeds
    or raises. *)
Lemma save_report_out_file_fs t (so : list string) (report : string) :
  fs (snd (save_report report out_file {| fs := t; stdout := so |}))
  = written t report.
Proof.
  unfold save_report, path_exists, makedirs, write_text, Fs.exists_,
    Fs.write_text, written.
  unfold mbind, io_bind, mret, io_ret.
  change (dirname out_file) with ["output"]. cbn [Fs.lookup fs stdout].
  change (match out_file with [] => ?a | _ :: _ => ?b end) with b.
  destruct (t !! ["output"]) as [[|f]|] eqn:Hparent.
  - cbn [negb]. rewrite andb_false_r. cbn [fs stdout]. rewrite Hparent.
    destruct (t !! out_file) as [[|f']|];
      [reflexivity | destruct (writable f'); reflexivity | reflexivity].
  - cbn [negb]. rewrite andb_false_r. cbn [fs stdout]. rewrite Hparent.
    reflexivity.
  - cbn [negb]. rewrite andb_true_r.
    rewrite bool_decide_eq_false_2 by discriminate. cbn [negb fs stdout].
    rewrite (makedirs_output t Hparent). cbn [fs stdout].
    rewrite lookup_insert_eq.
    rewrite (lookup_insert_ne t ["output"]) by discriminate.
    destruct (t !! out_file) as [[|f']|];
      [reflexivity | destruct (writable f'); reflexivity | reflexivity].
Qed.


Lemma written_input t (report : string) :
  Fs.lookup (written t report) data_file = Fs.lookup t data_file.
Proof.
  unfold written, Fs.lookup, data_file.
  repeat (case_match; try reflexivity);
    rewrite ?lookup_insert_ne by discriminate; reflexivity.
Qed.

End SaveReport.

Section Pipeline.

Implicit Types (t : gmap path node) (w : World).



(** The tree [main] leaves. *)
Lemma main_fs w :
  fs (snd (main w))
  = match load_data (fs w) data_file with
    | Ok data => written (fs w) (report_of data)
    | Raise _ => fs w
    end.
Proof.
  unfold main, pipeline.
  destruct (load_data (fs w) data_file) as [data|e]; [|reflexivity].
  fold (report_of data).
  rewrite <- (save_report_out_file_fs (fs w) (stdout w) (report_of data)).
  unfold mbind, io_bind. destruct w as [t so]. cbn [fs stdout].
  destruct (save_report (report_of data) out_file {| fs := t; stdout := so |})
    as [[[]|e] w1]; reflexivity.
Qed.


End Pipeline.

Lemma wf_empty : Fs.wf ∅.
Proof. split; [reflexivity|]. intros p n Hn. now rewrite lookup_empty in Hn. Qed.

Lemma wf_single_file (p : path) (f : file) :
  length p = 1%nat -> Fs.wf {[ p := File f ]}.
Proof.
  intros Hp. destruct p as [|x [|y p]]; try discriminate.
  apply (wf_insert_file ∅ [x] f wf_empty); [discriminate | reflexivity|].
  now rewrite lookup_empty.
Qed.

(** ** When the report cannot be written *)

Section WriterFailures.

Implicit Types (t : gmap path node) (p q : path).

Lemma forallb_false_ex {A : Type} (P : A -> bool) (l : list A) :
  forallb P l = false -> exists a, In a l /\ P a = false.
Proof.
  induction l as [|a l IH]; [discriminate|]. cbn [forallb].
  destruct (P a) eqn:Ha.
  - intros (b & Hb & Hfb)%IH. exists b. split; [now right | exact Hfb].
  - intros _. exists a. split; [now left | exact Ha].
Qed.

(** Below a file there is nothing. *)
Lemma wf_below_file t p (f : file) x :
  Fs.wf t -> Fs.lookup t p = Some (File f) -> t !! (p ++ [x]) = None.
Proof.
  intros [_ Hwf] Hp. destruct (t !! (p ++ [x])) as [n|] eqn:Hn; [|reflexivity].
  apply Hwf in Hn. rewrite dirname_snoc in Hn. congruence.
Qed.

(** [makedirs] below a file: [NotADirectoryError], and nothing is made. *)
Lemma makedirs_rev_blocked (rname : list string) t q (f : file) :
  Fs.wf t -> q `prefix_of` rev rname -> q <> rev rname ->
  Fs.lookup t q = Some (File f) ->
  exists e, Fs.makedirs_rev t rname = (t, Some e)
            /\ exn_kind e = NotADirectoryError.
Proof.
  intros Hwf. induction rname as [|x rh IH]; intros Hpre Hneq Hq.
  - apply prefix_nil_inv in Hpre. contradiction.
  - cbn [rev] in *. cbn [Fs.makedirs_rev rev].
    destruct (prefix_snoc_cases _ _ _ Hpre) as [Hpre'|]; [|contradiction].
    assert (rh <> []) as Hrh.
    { intros ->. apply prefix_nil_inv in Hpre'. subst q. discriminate Hq. }
    rewrite (bool_decide_eq_false_2 _ Hrh). cbn [negb andb].
    destruct (decide (q = rev rh)) as [->|Hproper].
    + unfold Fs.exists_. rewrite Hq. cbn [negb].
      unfold Fs.mkdir, Fs.isdir. rewrite dirname_snoc, Hq.
      assert (rev rh ++ [x] <> []) as Hne by (destruct (rev rh); discriminate).
      rewrite (bool_decide_eq_false_2 _ Hne).
      rewrite (lookup_nonempty t _ Hne), (wf_below_file t _ f x Hwf Hq).
      eexists. split; reflexivity.
    + assert (Fs.exists_ t (rev rh) = false) as ->.
      { unfold Fs.exists_.
        destruct (Fs.lookup t (rev rh)) as [n|] eqn:Hn; [|reflexivity].
        exfalso. destruct Hpre' as [k Hk].
        assert (k <> []) as Hk'
          by (intros ->; rewrite app_nil_r in Hk; congruence).
        rewrite Hk in Hn.
        rewrite (wf_above t q k Hwf Hk') in Hq by (rewrite Hn; eauto).
        discriminate Hq. }
      cbn [negb].
      destruct (IH Hpre' Hproper Hq) as (e & -> & Hkind).
      rewrite Hkind. eexists. split; [reflexivity | exact Hkind].
Qed.

(** [save_report] where the file cannot be written: the exception of the
    file system, and the world as it was. *)
Lemma save_report_raises (w : World) (report : string) (filename : path) :
  Fs.wf (fs w) ->
  can_write (fs w) filename = false ->
  exists e,
    save_report report filename w = (Raise e, w)
    /\ exn_kind e
       = match filename with
         | [] => FileNotFoundError
         | _ => match fs w !! filename with
                | Some Dir => IsADirectoryError
                | Some (File _) => PermissionError
                | None => NotADirectoryError
                end
         end.
Proof.
  intros Hwf Hcan. destruct w as [t so]. cbn [fs] in *.
  unfold save_report, path_exists, makedirs, write_text.
  unfold mbind, io_bind, mret, io_ret. cbn beta iota. cbn [fs stdout].
  destruct (decide (filename = [])) as [->|Hne].
  { cbn. eexists. split; reflexivity. }
  destruct (exists_last Hne) as (h & x & ->). rewrite dirname_snoc.
  assert (match h ++ [x] with
          | [] => FileNotFoundError
          | _ => match t !! (h ++ [x]) with
                 | Some Dir => IsADirectoryError
                 | Some (File _) => PermissionError
                 | None => NotADirectoryError
                 end
          end
          = match t !! (h ++ [x]) with
            | Some Dir => IsADirectoryError
            | Some (File _) => PermissionError
            | None => NotADirectoryError
            end) as -> by (destruct h; reflexivity).
  assert (Fs.write_text t (h ++ [x]) report
          = match Fs.lookup t h with
            | None =>
                raise FileNotFoundError
                      ("[Errno 2] No such file or directory: "
                       +:+ Fs.quoted (h ++ [x]))
            | Some (File _) =>
                raise NotADirectoryError
                      ("[Errno 20] Not a directory: " +:+ Fs.quoted (h ++ [x]))
            | Some Dir =>
                match t !! (h ++ [x]) with
                | Some Dir =>
                    raise IsADirectoryError
                          ("[Errno 21] Is a directory: "
                           +:+ Fs.quoted (h ++ [x]))
                | Some (File f) =>
                    if writable f then
                      Ok (<[h ++ [x] := File {| readable := readable f;
                                                writable := writable f;
                                                content := report |}]> t)
                    else raise PermissionError
                               ("[Errno 13] Permission denied: "
                                +:+ Fs.quoted (h ++ [x]))
                | None =>
                    Ok (<[h ++ [x] := File {| readable := true;
                                              writable := true;
                                              content := report |}]> t)
                end
            end) as Hwrite.
  { unfold Fs.write_text. rewrite dirname_snoc. now destruct h. }
  unfold can_write in Hcan.
  rewrite (bool_decide_eq_false_2 _ Hne) in Hcan. cbn [negb andb] in Hcan.
  destruct (t !! (h ++ [x])) as [n|] eqn:Htarget.
  - (* the target is there: so is its parent, a directory *)
    assert (Fs.lookup t h = Some Dir) as Hparent.
    { destruct Hwf as [_ Hwf]. apply Hwf in Htarget.
      now rewrite dirname_snoc in Htarget. }
    assert (forallb (fun q => match Fs.lookup t q with
                              | Some (File _) => false
                              | _ => true
                              end) (ancestors (h ++ [x])) = true) as Hanc.
    { apply forallb_forall. intros q (k & Hk & Heq)%ancestors_spec.
      rewrite (wf_above t q k Hwf Hk); [reflexivity|].
      rewrite <- Heq, lookup_nonempty, Htarget by exact Hne. eauto. }
    rewrite Hanc in Hcan. cbn [andb] in Hcan.
    unfold Fs.exists_. rewrite Hparent. cbn [negb]. rewrite andb_false_r.
    cbn [fs stdout]. rewrite Hwrite, Hparent.
    destruct n as [|f]; [eexists; split; reflexivity|].
    rewrite Hcan. eexists. split; reflexivity.
  - (* the target is free: a file stands above it *)
    rewrite andb_true_r in Hcan.
    assert (exists q f, q `prefix_of` h /\ Fs.lookup t q = Some (File f))
      as (q & f & Hpre & Hq).
    { apply forallb_false_ex in Hcan
        as (q & (k & Hk & Heq)%ancestors_spec & Hfile).
      destruct (Fs.lookup t q) as [[|f]|] eqn:Hq; try discriminate.
      exists q, f. split; [|exact Hq].
      destruct (prefix_snoc_cases q h x) as [Hp|Hp]; [now exists k | exact Hp|].
      exfalso. rewrite Hp in Heq at 1.
      apply (f_equal (@length string)) in Heq.
      rewrite !length_app in Heq.
      destruct k; [congruence | simpl in Heq; lia]. }
    assert (h <> []) as Hh.
    { intros ->. apply prefix_nil_inv in Hpre. subst q. discriminate Hq. }
    rewrite (bool_decide_eq_false_2 _ Hh). cbn [negb andb].
    destruct (decide (q = h)) as [->|Hproper].
    + unfold Fs.exists_. rewrite Hq. cbn [negb].
      cbn [fs stdout]. rewrite Hwrite, Hq. eexists. split; reflexivity.
    + assert (Fs.exists_ t h = false) as ->.
      { unfold Fs.exists_.
        destruct (Fs.lookup t h) as [n|] eqn:Hn; [|reflexivity].
        exfalso. destruct Hpre as [k Hk].
        assert (k <> []) as Hk'
          by (intros ->; rewrite app_nil_r in Hk; congruence).
        rewrite Hk in Hn.
        rewrite (wf_above t q k Hwf Hk') in Hq by (rewrite Hn; eauto).
        discriminate Hq. }
      cbn [negb fs stdout]. unfold Fs.makedirs.
      destruct (makedirs_rev_blocked (rev h) t q f Hwf) as (e & -> & Hkind);
        [now rewrite rev_involutive | now rewrite rev_involutive | exact Hq|].
      exists e. split; [reflexivity | exact Hkind].
Qed.

(** [save_report] never prints. *)
Lemma save_report_stdout (w : World) (report : string) (filename : path) :
  stdout (snd (save_report report filename w)) = stdout w.
Proof.
  unfold save_report, path_exists, makedirs, write_text.
  unfold mbind, io_bind, mret, io_ret. cbn beta iota.
  destruct (negb (bool_decide (dirname filename = []))
            && negb (Fs.exists_ (fs w) (dirname filename))).
  - destruct (Fs.makedirs (fs w) (dirname filename)) as [t [e|]];
      [reflexivity|]. cbn [fs stdout].
    destruct (Fs.write_text t filename report); reflexivity.
  - destruct (Fs.write_text (fs w) filename report); reflexivity.
Qed.

End WriterFailures.




(** * Further properties of the pipeline *)

(** ** What the report is computed from *)

Section Columns.

Lemma column_vitals (g : Z * Z * Z -> Z) (f : Reading -> Z) (d1 d2 : Dataset) :
  (forall r, f r = g (vitals r)) ->
  map vitals d1 = map vitals d2 -> column f d1 = column f d2.
Proof.
  intros Hf Heq. unfold column.
  rewrite (map_ext f (g ∘ vitals)) by exact Hf.
  rewrite (map_ext f (g ∘ vitals) Hf d2).
  rewrite <- !(map_map vitals g). now rewrite Heq.
Qed.

Lemma sum_bool_perm (a b : list bool) :
  a ≡ₚ b -> Np.sum_bool a = Np.sum_bool b.
Proof.
  induction 1 as [|x a b _ IH|x y a|a b c _ IH1 _ IH2].
  - reflexivity.
  - now rewrite !sum_bool_cons, IH.
  - rewrite !sum_bool_cons. lia.
  - congruence.
Qed.

Lemma count_above_app (f : Reading -> Z) (c : Z) (a b : Dataset) :
  count_above f c (a ++ b) = count_above f c a + count_above f c b.
Proof.
  unfold count_above. rewrite filter_app, length_app. lia.
Qed.

End Columns.

(** X1: the report is computed from three columns only: two arrays that
    agree on [heart_rate], [blood_pressure_systolic] and [glucose_level],
    row by row, give the same statistics, the same counts and the same
    report, whatever their identifiers, timestamps, diastolic pressures and
    temperatures. *)
Theorem report_reads_three_columns (d1 d2 : Dataset) :
  map vitals d1 = map vitals d2 ->
  calculate_statistics d1 = calculate_statistics d2
  /\ find_abnormal_readings d1 = find_abnormal_readings d2
  /\ report_of d1 = report_of d2.
Proof.
  intros Heq.
  assert (size d1 = size d2) as Hsize.
  { unfold size. apply (f_equal (@length _)) in Heq.
    rewrite !length_map in Heq. now rewrite Heq. }
  assert (column heart_rate d1 = column heart_rate d2) as Hhr
    by (apply (column_vitals (fun v => v.1.1)); [reflexivity | exact Heq]).
  assert (column blood_pressure_systolic d1
          = column blood_pressure_systolic d2) as Hbp
    by (apply (column_vitals (fun v => v.1.2)); [reflexivity | exact Heq]).
  assert (column glucose_level d1 = column glucose_level d2) as Hg
    by (apply (column_vitals (fun v => v.2)); [reflexivity | exact Heq]).
  assert (calculate_statistics d1 = calculate_statistics d2) as Hs
    by (unfold calculate_statistics; now rewrite Hsize, Hhr, Hbp, Hg).
  assert (find_abnormal_readings d1 = find_abnormal_readings d2) as Ha
    by (unfold find_abnormal_readings; now rewrite Hsize, Hhr, Hbp, Hg).
  split; [exact Hs|]. split; [exact Ha|].
  unfold report_of. now rewrite Hs, Ha, Hsize.
Qed.

Lemma report_reads_three_columns_witness :
  report_of scenario_A
  = report_of (map (fun r => {| patient_id := "Q"; timestamp := "";
                                heart_rate := heart_rate r;
                                blood_pressure_systolic :=
                                  blood_pressure_systolic r;
                                blood_pressure_diastolic := 0;
                                temperature := F64.zero;
                                glucose_level := glucose_level r;
                                sensor_id := "" |}) scenario_A).
Proof.
  apply (report_reads_three_columns scenario_A). reflexivity.
Defined.

(** X2: the order of the rows does not matter, nor the order in which
    their cells are added.  An array and any rearrangement of its rows
    give the same counts.  When the array is not empty and has fewer than
    [2^22] rows of 32-bit cells, the means of the columns of the
    rearranged array, computed by adding the cells in binary64 in any order
    and grouping, are the averages of the array, and the report rendered
    from them is the report of the array. *)
Theorem row_order_irrelevant (d1 d2 : Dataset) :
  d1 ≡ₚ d2 ->
  find_abnormal_readings d1 = find_abnormal_readings d2
  /\ (d1 <> [] -> forallb valid_reading d1 = true -> size d1 < 2 ^ 22 ->
      forall hr bp glu,
        Np.cells hr ≡ₚ column heart_rate d2 ->
        Np.cells bp ≡ₚ column blood_pressure_systolic d2 ->
        Np.cells glu ≡ₚ column glucose_level d2 ->
        statistics_by hr bp glu = calculate_statistics d1
        /\ generate_report (statistics_by hr bp glu)
             (find_abnormal_readings d2) (size d2)
           = report_of d1).
Proof.
  intros Hperm.
  assert (size d1 = size d2) as Hsize
    by (unfold size; now rewrite (Permutation_length Hperm)).
  assert (find_abnormal_readings d1 = find_abnormal_readings d2) as Ha.
  { unfold find_abnormal_readings. rewrite Hsize.
    assert (forall f c, Np.sum_bool (Np.gt (column f d1) c)
                        = Np.sum_bool (Np.gt (column f d2) c)) as Hc.
    { intros f c. apply sum_bool_perm. unfold Np.gt, column.
      now do 2 apply Permutation_map. }
    now rewrite !Hc. }
  split; [exact Ha|]. intros Hne Hvalid Hbound hr bp glu Hhr Hbp Hglu.
  assert (forall f tr,
            (forall r, valid_reading r = true -> i4 (f r) = true) ->
            Np.cells tr ≡ₚ column f d2 ->
            Np.mean_by tr = Np.mean (column f d1)) as Hmean.
  { intros f tr Hf Htr. apply mean_by_any_order.
    - rewrite Htr. unfold column. symmetry. now apply Permutation_map.
    - destruct d1; [congruence | discriminate].
    - now apply column_i4.
    - unfold column. rewrite length_map. exact Hbound. }
  assert (forall r, valid_reading r = true ->
            i4 (heart_rate r) = true /\ i4 (blood_pressure_systolic r) = true
            /\ i4 (glucose_level r) = true) as Hcells.
  { intros r Hr. unfold valid_reading in Hr.
    do 3 (apply andb_prop in Hr as [Hr ?]). auto. }
  assert (statistics_by hr bp glu = calculate_statistics d1) as Hs.
  { unfold calculate_statistics, statistics_by.
    destruct (size d1 =? 0) eqn:Hzero.
    { apply Z.eqb_eq in Hzero. unfold size in Hzero.
      destruct d1; [congruence | discriminate]. }
    rewrite (Hmean heart_rate hr), (Hmean blood_pressure_systolic bp),
      (Hmean glucose_level glu);
      try assumption; try (intros r Hr; apply Hcells, Hr).
    reflexivity. }
  split; [exact Hs|].
  unfold report_of. now rewrite Hs, Ha, Hsize.
Qed.

Lemma row_order_irrelevant_witness :
  generate_report
    (statistics_by
       (Np.Add (Np.Add (Np.Start true) (Np.Cell 100))
               (Np.Add (Np.Cell 95) (Np.Cell 85)))
       (Np.Add (Np.Cell 120) (Np.Add (Np.Cell 135) (Np.Cell 125)))
       (Np.Add (Np.Add (Np.Cell 105) (Np.Cell 115)) (Np.Cell 90)))
    (find_abnormal_readings (rev scenario_A)) (size (rev scenario_A))
  = report_of scenario_A.
Proof.
  refine (proj2 (proj2 (row_order_irrelevant scenario_A (rev scenario_A) _)
                   _ _ _ _ _ _ _ _ _)).
  - apply Permutation_rev.
  - discriminate.
  - reflexivity.
  - reflexivity.
  - change ([100; 95; 85] ≡ₚ [100; 95; 85]). reflexivity.
  - change ([120; 135; 125] ≡ₚ [125; 135; 120]).
    apply (Permutation_rev [120; 135; 125]).
  - change ([105; 115; 90] ≡ₚ [105; 115; 90]). reflexivity.
Defined.

(** X3: counting two arrays one after the other: each count of the
    concatenation is the sum of the counts of the parts, also when a part is
    empty. *)
Theorem abnormal_counts_additive (a b : Dataset) :
  high_heart_rate (find_abnormal_readings (a ++ b))
  = high_heart_rate (find_abnormal_readings a)
    + high_heart_rate (find_abnormal_readings b)
  /\ high_blood_pressure (find_abnormal_readings (a ++ b))
     = high_blood_pressure (find_abnormal_readings a)
       + high_blood_pressure (find_abnormal_readings b)
  /\ high_glucose (find_abnormal_readings (a ++ b))
     = high_glucose (find_abnormal_readings a)
       + high_glucose (find_abnormal_readings b).
Proof.
  rewrite !abnormal_counts_eq.
  cbn [high_heart_rate high_blood_pressure high_glucose].
  now rewrite !count_above_app.
Qed.

(** ** What a run leaves and prints *)

Section Orchestrator.

Implicit Types (t : gmap path node) (w : World).

Lemma written_frame t (report : string) (p : path) :
  p <> out_file ->
  (p <> ["output"] \/ is_Some (t !! p)) ->
  written t report !! p = t !! p.
Proof.
  intros Hfile Hdir. unfold written.
  set (t1 := match t !! ["output"] with
             | None => <[["output"] := Dir]> t
             | Some _ => t
             end).
  assert (t1 !! p = t !! p) as Hparent.
  { subst t1. destruct (t !! ["output"]) eqn:Hout; [reflexivity|].
    apply lookup_insert_ne. intros <-.
    destruct Hdir as [|[n Hn]]; congruence. }
  destruct (t1 !! ["output"]) as [[|f]|]; [|exact Hparent..].
  destruct (t !! out_file) as [[|f]|]; [exact Hparent | |].
  - destruct (writable f); [|exact Hparent].
    now rewrite lookup_insert_ne by congruence.
  - now rewrite lookup_insert_ne by congruence.
Qed.

(** What [main] returns and prints, whatever the world. *)
Lemma main_result w :
  main w
  = match load_data (fs w) data_file with
    | Raise e =>
        (Ok tt,
         {| fs := fs w;
            stdout := stdout w ++
              ["Error loading data from health_data.csv: " +:+ exn_msg e] |})
    | Ok data =>
        match save_report (report_of data) out_file w with
        | (Ok _, w') =>
            (Ok tt,
             {| fs := fs w';
                stdout := stdout w' ++
                  ["Analysis complete. Report written to output/analysis_report.txt"] |})
        | (Raise e, w') => (Raise e, w')
        end
    end.
Proof.
  unfold main, pipeline.
  destruct (load_data (fs w) data_file) as [data|e]; [|reflexivity].
  fold (report_of data). unfold mbind, io_bind.
  destruct (save_report (report_of data) out_file w) as [[[]|e] w'];
    reflexivity.
Qed.

End Orchestrator.



(** X5: a run that loads and can write: [main] returns normally, the output
    file holds the report of the loaded array and nothing else, [output] is
    a directory, the input file is as it was, and the one line printed is
    the completion message. *)
Theorem main_success (w : World) (data : Dataset) :
  Fs.wf (fs w) ->
  load_data (fs w) data_file = Ok data ->
  can_write (fs w) out_file = true ->
  exists w',
    main w = (Ok tt, w')
    /\ file_content (fs w') out_file = Some (report_of data)
    /\ Fs.lookup (fs w') ["output"] = Some Dir
    /\ Fs.lookup (fs w') data_file = Fs.lookup (fs w) data_file
    /\ stdout w'
       = stdout w ++
         ["Analysis complete. Report written to output/analysis_report.txt"].
Proof.
  intros Hwf Hload Hcan.
  destruct (save_report_ok w (report_of data) out_file Hwf Hcan)
    as (t1 & f & Hsave & Hc & _ & _ & Hdirs & Hsame & _).
  rewrite main_result, Hload, Hsave. cbn [fs stdout].
  eexists. split; [reflexivity|]. cbn [fs stdout]. repeat split.
  - unfold file_content. now rewrite lookup_insert_eq, Hc.
  - rewrite lookup_insert_other by discriminate.
    apply Hdirs. reflexivity.
  - rewrite lookup_insert_other by discriminate.
    unfold data_file, Fs.lookup. apply Hsame.
    intros [k Hk]. discriminate Hk.
Qed.

Lemma main_success_witness :
  exists w',
    main {| fs := header_only_fs; stdout := [] |} = (Ok tt, w')
    /\ file_content (fs w') out_file
       = Some (generate_report zero_statistics zero_counts 0).
Proof.
  destruct (main_success {| fs := header_only_fs; stdout := [] |} [])
    as (w' & Hmain & Hfile & _).
  - now apply wf_single_file.
  - reflexivity.
  - reflexivity.
  - exists w'. split; [exact Hmain | exact Hfile].
Defined.

(** X6: a run that loads but cannot write: the exception of [save_report] is
    not handled, it leaves [main]; nothing is printed and the file system is
    as it was. *)
Theorem main_write_failure (w : World) (data : Dataset) :
  Fs.wf (fs w) ->
  load_data (fs w) data_file = Ok data ->
  can_write (fs w) out_file = false ->
  exists e,
    main w = (Raise e, w)
    /\ exn_kind e
       = match fs w !! out_file with
         | Some Dir => IsADirectoryError
         | Some (File _) => PermissionError
         | None => NotADirectoryError
         end.
Proof.
  intros Hwf Hload Hcan.
  destruct (save_report_raises w (report_of data) out_file Hwf Hcan)
    as (e & Hsave & Hkind).
  exists e. split; [|exact Hkind].
  now rewrite main_result, Hload, Hsave.
Qed.

Lemma main_write_failure_witness :
  exists e,
    main {| fs := <[data_file := File numerals_file]> (fs blocked_world);
            stdout := [] |}
    = (Raise e,
       {| fs := <[data_file := File numerals_file]> (fs blocked_world);
          stdout := [] |})
    /\ exn_kind e = NotADirectoryError.
Proof.
  refine (main_write_failure
            {| fs := <[data_file := File numerals_file]> (fs blocked_world);
               stdout := [] |} [numerals_reading] _ _ _).
  - apply wf_insert_file;
      [now apply wf_single_file | discriminate | reflexivity | discriminate].
  - vm_compute. reflexivity.
  - reflexivity.
Defined.

(** X7: the file system after [main], whatever happened: nothing that was
    there has been removed or changed except the output file, and nothing
    has been added except the output file and its directory.  The input
    file in particular is as it was. *)
Theorem main_frame (w : World) :
  (forall p n, p <> out_file ->
     fs w !! p = Some n -> fs (snd (main w)) !! p = Some n)
  /\ (forall p, p <> out_file -> p <> ["output"] ->
        fs (snd (main w)) !! p = fs w !! p)
  /\ Fs.lookup (fs (snd (main w))) data_file = Fs.lookup (fs w) data_file.
Proof.
  rewrite main_fs.
  destruct (load_data (fs w) data_file) as [data|e]; [|auto].
  split; [|split].
  - intros p n Hp Hn. rewrite written_frame; eauto.
  - intros p Hp Hout. apply written_frame; auto.
  - apply written_input.
Qed.

(** X8: what [main] prints: it calls [print] exactly once when it returns
    normally -- with the completion message, or with the load error
    followed by the message of the exception, as it is: a message of
    several lines is printed on several lines -- and not at all when it
    raises, which it does only after the load has succeeded. *)
Theorem main_prints (w : World) :
  match main w with
  | (Ok _, w') =>
      exists line,
        stdout w' = stdout w ++ [line]
        /\ match load_data (fs w) data_file with
           | Ok _ =>
               line =
               "Analysis complete. Report written to output/analysis_report.txt"
           | Raise e =>
               line = "Error loading data from health_data.csv: "
                      +:+ exn_msg e
           end
  | (Raise _, w') =>
      stdout w' = stdout w /\ is_ok (load_data (fs w) data_file) = true
  end.
Proof.
  rewrite main_result.
  destruct (load_data (fs w) data_file) as [data|e].
  - pose proof (save_report_stdout w (report_of data) out_file) as Hout.
    destruct (save_report (report_of data) out_file w) as [[[]|e] w'];
      cbn [snd] in Hout.
    + eexists. cbn [stdout]. rewrite Hout. split; reflexivity.
    + split; [exact Hout | reflexivity].
  - eexists. split; reflexivity.
Qed.

(** ** The array of a file, row by row *)

Section Rows.

Import Genfromtxt.

Lemma mapM_Forall2_Ok {A B : Type} (f : A -> result B) (l : list A)
    (l' : list B) :
  Forall2 (fun a b => f a = Ok b) l l' -> mapM f l = Ok l'.
Proof.
  induction 1 as [|a b l l' Hab _ IH]; [reflexivity|].
  cbn [mapM]. now rewrite Hab, IH.
Qed.

Lemma mapM_is_ok {A B : Type} (f : A -> result B) (l : list A) :
  is_ok (mapM f l) = forallb (fun a => is_ok (f a)) l.
Proof.
  induction l as [|a l IH]; [reflexivity|]. cbn [mapM forallb].
  destruct (f a) as [b|e]; [|reflexivity]. cbn [mbind result_bind is_ok].
  rewrite <- IH. now destruct (mapM f l).
Qed.

Lemma forallb_swap {A B : Type} (P : A -> B -> bool) (l : list A)
    (k : list B) :
  forallb (fun a => forallb (fun b => P a b) k) l
  = forallb (fun b => forallb (fun a => P a b) l) k.
Proof.
  induction l as [|a l IH]; cbn [forallb].
  - induction k as [|b k IHk]; [reflexivity | exact IHk].
  - rewrite IH. clear IH. induction k as [|b k IHk]; [reflexivity|].
    cbn [forallb]. rewrite <- IHk.
    destruct (P a b), (forallb (fun a0 => P a0 b) l),
      (forallb (fun b0 => P a b0) k); reflexivity.
Qed.

Lemma forallb_ext' {A : Type} (P Q : A -> bool) (l : list A) :
  (forall a, P a = Q a) -> forallb P l = forallb Q l.
Proof.
  intros Heq. induction l as [|a l IH]; [reflexivity|].
  cbn [forallb]. now rewrite Heq, IH.
Qed.

Lemma mapM_compose {A B C : Type} (g : A -> result B) (h : B -> result C)
    (l : list A) (vs : list B) :
  mapM g l = Ok vs ->
  mapM (fun a => b ← g a; h b) l = mapM h vs.
Proof.
  revert vs. induction l as [|a l IH]; intros vs; cbn [mapM].
  - now intros [= <-].
  - destruct (g a) as [b|e]; [|discriminate]. cbn [mbind result_bind].
    destruct (mapM g l) as [bs|e]; [|discriminate]. cbn [mbind result_bind].
    intros [= <-]. cbn [mapM]. now rewrite (IH bs).
Qed.

Lemma mapM_bind_is_ok {A B C : Type} (g : A -> result B) (h : B -> result C)
    (l : list A) :
  is_ok (mapM (fun a => b ← g a; h b) l) = true -> is_ok (mapM g l) = true.
Proof.
  rewrite !mapM_is_ok, !forallb_forall. intros Hall a Ha.
  specialize (Hall a Ha). now destruct (g a).
Qed.

Lemma convert_columns_cells (convs : list (nat * ftype))
    (rows : list (list string)) :
  convert_columns convs rows
  = mapM (fun c => mapM (cell c) rows) convs.
Proof.
  unfold convert_columns. induction convs as [|[i t] convs IH];
    [reflexivity|]. cbn [mapM]. now rewrite IH.
Qed.

(** The converted columns, read across: the cells of each row. *)
Lemma zip_columns_rows (convs : list (nat * ftype))
    (rows : list (list string)) (columns : list (list value)) :
  convs <> [] \/ rows = [] ->
  convert_columns convs rows = Ok columns ->
  mapM (fun row => mapM (fun c => cell c row) convs) rows
  = Ok (zip_columns (length rows) columns).
Proof.
  intros Hne. rewrite convert_columns_cells.
  intros Hcols%mapM_Ok_Forall2. apply mapM_Forall2_Ok.
  unfold zip_columns. destruct columns as [|col0 cols0] eqn:Hc.
  { apply Forall2_nil_inv_r in Hcols.
    destruct Hne as [Hne | Hne]; [contradiction | rewrite Hne; constructor]. }
  rewrite <- Hc in *. clear Hc col0 cols0.
  apply Forall2_same_length_lookup_2.
  { now rewrite length_map, length_seq. }
  intros j row vs Hrow. rewrite list_lookup_fmap.
  rewrite lookup_seq_lt by (now apply lookup_lt_Some in Hrow).
  intros [= <-]. apply mapM_Forall2_Ok, Forall2_fmap_r.
  eapply Forall2_impl; [exact Hcols|].
  intros c col Hcol%mapM_Ok_Forall2. cbn beta in *.
  destruct (Forall2_lookup_l _ _ _ _ _ Hcol Hrow) as (b & Hb & ->).
  f_equal. symmetry. now apply nth_lookup_Some.
Qed.

Lemma convert_columns_is_ok (convs : list (nat * ftype))
    (rows : list (list string)) :
  is_ok (convert_columns convs rows)
  = is_ok (mapM (fun row => mapM (fun c => cell c row) convs) rows).
Proof.
  rewrite convert_columns_cells, !mapM_is_ok.
  rewrite (forallb_ext' _
             (fun c => forallb (fun row => is_ok (cell c row)) rows))
    by (intros c; apply mapM_is_ok).
  rewrite forallb_swap. apply forallb_ext'. intros row.
  symmetry. apply mapM_is_ok.
Qed.

Lemma data_rows_filled (lines : list string) (row : list string) :
  In row (data_rows "," 1 lines) -> row <> [].
Proof.
  intros [_ Hf]%filter_In. unfold filled in Hf.
  now apply negb_true_iff, bool_decide_eq_false in Hf.
Qed.

Lemma filter_all {A : Type} (P : A -> bool) (l : list A) :
  Forall (fun a => P a = true) l -> List.filter P l = l.
Proof.
  induction 1 as [|a l Ha _ IH]; [reflexivity|].
  cbn [List.filter]. now rewrite Ha, IH.
Qed.

Lemma filter_none {A : Type} (P : A -> bool) (l : list A) :
  Forall (fun a => P a = true) l -> List.filter (fun a => negb (P a)) l = [].
Proof.
  induction 1 as [|a l Ha _ IH]; [reflexivity|].
  cbn [List.filter]. now rewrite Ha, IH.
Qed.

(** The array of a file whose rows have the same number of fields, row
    by row. *)
Lemma from_lines_uniform (lines : list string) :
  let R := data_rows "," 1 lines in
  Forall (fun row => length row = length (hd [] R)) R ->
  forall data,
    from_lines "," dtype 1 lines = Ok data <-> mapM convert_row R = Ok data.
Proof.
  intros R Hlen data. unfold from_lines.
  destruct (read_rows_spec "," 1 lines) as (invalid & -> & Hinv).
  fold R in Hinv |- *.
  assert (Forall (fun vs => (length vs =? length (hd [] R))%nat = true) R)
    as Hlen' by (eapply Forall_impl; [exact Hlen|]; intros vs;
                 apply Nat.eqb_eq).
  rewrite (filter_none _ _ Hlen') in Hinv.
  apply map_eq_nil in Hinv as ->. rewrite (filter_all _ _ Hlen').
  set (convs := converters dtype (length (hd [] R))).
  assert (convs <> [] \/ R = []) as Hne.
  { destruct R as [|r0 R'] eqn:HR; [now right | left].
    assert (r0 <> []) as Hr0
      by (apply (data_rows_filled lines); fold R; rewrite HR; now left).
    subst convs. cbn [hd]. destruct r0; [congruence | discriminate]. }
  assert (mapM convert_row R
          = mapM (fun row => vals ← mapM (fun c => cell c row) convs;
                             store_row vals) R) as ->.
  { clear Hne Hlen'. induction Hlen as [|row R' Hrow _ IH]; [reflexivity|].
    cbn [mapM]. rewrite IH. unfold convert_row at 1. rewrite Hrow.
    fold convs. reflexivity. }
  destruct (convert_columns convs R) as [columns|e] eqn:Hcols;
    cbn [mbind result_bind].
  - rewrite (mapM_compose _ store_row R _
               (zip_columns_rows convs R columns Hne Hcols)).
    reflexivity.
  - split; [discriminate|]. intros Hok. exfalso.
    assert (is_ok (convert_columns convs R) = true) as Hc.
    { rewrite convert_columns_is_ok.
      apply (mapM_bind_is_ok _ store_row). now rewrite Hok. }
    now rewrite Hcols in Hc.
Qed.

Lemma take_length (n : nat) (s : string) :
  (String.length (Str.take n s) <= n)%nat.
Proof.
  revert s. induction n as [|n IH]; intros [|c s]; cbn; try lia.
  specialize (IH s). lia.
Qed.

Lemma store_row_fits (vals : list value) (r : Reading) :
  store_row vals = Ok r -> fits_dtype r = true.
Proof.
  intros Hr. unfold fits_dtype. rewrite (store_row_valid _ _ Hr).
  revert Hr. unfold store_row.
  do 8 (destruct vals as [|[] vals]; try discriminate).
  destruct vals; [|discriminate].
  unfold mbind, result_bind.
  destruct (store_i4 n) as [hr|]; [|discriminate].
  destruct (store_i4 n0) as [sys|]; [|discriminate].
  destruct (store_i4 n1) as [dia|]; [|discriminate].
  destruct (store_i4 n2) as [glu|]; [|discriminate].
  intros [= <-]. cbn [patient_id timestamp sensor_id andb].
  rewrite !andb_true_iff, !Nat.leb_le. repeat split;
    first [exact (take_length 10 _) | exact (take_length 20 _)].
Qed.

End Rows.

(** X9: the array of a readable file of plain text, under a proper path
    without the extension of a compressed file, in terms of its rows --
    the lines after the header that hold a field, cut at [#], stripped and
    split at the commas.  The load succeeds exactly when every row has as
    many fields as the first and every row converts on its own; the array
    is then the converted rows, one reading for each row, in file order. *)
Theorem load_data_rows (t : gmap path node) (filename : path) (f : file)
    (data : Dataset) :
  Fs.lookup t filename = Some (File f) ->
  readable f = true ->
  plain_source filename f = true ->
  (load_data t filename = Ok data
   <-> Forall (fun row =>
                 length row
                 = length (hd [] (Genfromtxt.data_rows "," 1
                                    (Str.file_lines (content f)))))
              (Genfromtxt.data_rows "," 1 (Str.file_lines (content f)))
       /\ mapM convert_row
               (Genfromtxt.data_rows "," 1 (Str.file_lines (content f)))
          = Ok data)
  /\ (load_data t filename = Ok data ->
      size data
      = Z.of_nat (length (Genfromtxt.data_rows "," 1
                            (Str.file_lines (content f))))).
Proof.
  intros Hlook Hread _.
  set (R := Genfromtxt.data_rows "," 1 (Str.file_lines (content f))).
  assert (load_data t filename
          = Genfromtxt.from_lines "," dtype 1 (Str.file_lines (content f)))
    as Hload.
  { unfold load_data, Genfromtxt.genfromtxt, Fs.read_text.
    now rewrite Hlook, Hread. }
  assert (load_data t filename = Ok data ->
          Forall (fun row => length row = length (hd [] R)) R) as Hlen.
  { intros Hok. apply Forall_forall. intros row Hrow%list_elem_of_In.
    destruct (Nat.eq_dec (length row) (length (hd [] R))) as [|Hne];
      [assumption|].
    destruct (from_lines_invalid _ row Hrow Hne) as [msg Hmsg].
    rewrite Hload, Hmsg in Hok. discriminate Hok. }
  assert (load_data t filename = Ok data
          <-> Forall (fun row => length row = length (hd [] R)) R
              /\ mapM convert_row R = Ok data) as Hiff.
  { split.
    - intros Hok. split; [now apply Hlen|].
      apply from_lines_uniform; [now apply Hlen | now rewrite <- Hload].
    - intros [Hall Hrows]. rewrite Hload. now apply from_lines_uniform. }
  split; [exact Hiff|].
  intros [_ Hrows%mapM_Ok_length]%Hiff. unfold size. now rewrite Hrows.
Qed.

Lemma load_data_rows_witness :
  load_data {[ data_file := File two_rows_file ]} data_file
  = Ok two_rows_readings
  /\ size two_rows_readings = 2.
Proof.
  pose proof (load_data_rows {[ data_file := File two_rows_file ]} data_file
                two_rows_file two_rows_readings eq_refl eq_refl eq_refl)
    as [Hiff Hsize].
  assert (load_data {[ data_file := File two_rows_file ]} data_file
          = Ok two_rows_readings) as Hload.
  { apply Hiff. split; [|vm_compute; reflexivity].
    change (Genfromtxt.data_rows "," 1
              (Str.file_lines (content two_rows_file)))
      with [ ["P001"; "2024-01-15T08:00:00"; "72"; "120"; "80"; "36.6";
              "95"; "S001"];
             ["P002"; "2024-01-15T08:05:00"; "95"; "135"; "85"; "37.1";
              "112"; "S002"] ].
    repeat constructor. }
  split; [exact Hload|]. rewrite (Hsize Hload). reflexivity.
Defined.

(** X10: every array the loader returns fits the [dtype]: the integers are
    within 32 bits, the identifiers hold at most 10 characters and the
    timestamp at most 20 -- longer texts have been cut. *)
Theorem load_data_fits_dtype (t : gmap path node) (filename : path)
    (data : Dataset) :
  load_data t filename = Ok data -> forallb fits_dtype data = true.
Proof.
  unfold load_data, Genfromtxt.genfromtxt, Genfromtxt.from_lines.
  destruct (Fs.read_text t filename) as [text|]; [|discriminate].
  cbn [mbind result_bind].
  destruct (Genfromtxt.read_rows "," "#" 1 (Str.file_lines text))
    as [[nbcols rows] invalid].
  destruct invalid; [|discriminate].
  destruct (Genfromtxt.convert_columns (Genfromtxt.converters dtype nbcols)
              rows) as [columns|]; [|discriminate].
  cbn [mbind result_bind].
  intros Hstore%mapM_Ok_Forall2.
  induction Hstore as [|vals r l l' Hr _ IH]; [reflexivity|].
  cbn [forallb]. now rewrite (store_row_fits _ _ Hr), IH.
Qed.

Lemma load_data_fits_dtype_witness :
  forallb fits_dtype [numerals_reading] = true.
Proof.
  refine (load_data_fits_dtype {[ data_file := File numerals_file ]}
            data_file _ _).
  vm_compute. reflexivity.
Defined.

(** ** Decimal numerals in the integer columns *)

Section Numerals.

Import Genfromtxt.

Lemma uint_digits (d : Decimal.uint) :
  all_in digit_chars (NilEmpty.string_of_uint d) = true.
Proof. induction d; simpl; auto. Qed.

Lemma digit_not_space (c : ascii) :
  Str.mem c numeral_chars = true -> Str.mem c Py.whitespace = false.
Proof.
  destruct c as [[] [] [] [] [] [] [] []]; vm_compute; congruence.
Qed.

Lemma digit_not_underscore (c : ascii) :
  Str.mem c numeral_chars = true -> Ascii.eqb c "_" = false.
Proof.
  destruct c as [[] [] [] [] [] [] [] []]; vm_compute; congruence.
Qed.

Lemma digit_is_digit (c : ascii) :
  Str.mem c digit_chars = true ->
  Py.is_digit c = true /\ Ascii.eqb c "-" = false /\ Ascii.eqb c "+" = false
  /\ Ascii.eqb (Str.lower_char c) "i" = false
  /\ Ascii.eqb (Str.lower_char c) "n" = false
  /\ Str.mem c numeral_chars = true.
Proof.
  destruct c as [[] [] [] [] [] [] [] []]; vm_compute; intuition congruence.
Qed.

Lemma rstrip_clean (chars s : string) :
  (forall c, Str.mem c s = true -> Str.mem c chars = false) ->
  Str.rstrip chars s = s.
Proof.
  induction s as [|c s IH]; [reflexivity|]. intros Hclean.
  cbn [Str.rstrip]. rewrite IH.
  - destruct s; [|reflexivity].
    rewrite (Hclean c); [reflexivity|]. cbn. now rewrite Ascii.eqb_refl.
  - intros d Hd. apply Hclean. cbn. rewrite Hd. apply orb_true_r.
Qed.

Lemma strip_clean (chars s : string) :
  (forall c, Str.mem c s = true -> Str.mem c chars = false) ->
  Str.strip chars s = s.
Proof.
  intros Hclean. unfold Str.strip.
  assert (Str.lstrip chars s = s) as ->.
  { destruct s as [|c s]; [reflexivity|]. cbn [Str.lstrip].
    rewrite (Hclean c); [reflexivity|]. cbn. now rewrite Ascii.eqb_refl. }
  now apply rstrip_clean.
Qed.

Lemma all_in_mem (allowed s : string) (c : ascii) :
  all_in allowed s = true -> Str.mem c s = true -> Str.mem c allowed = true.
Proof.
  induction s as [|d s IH]; [discriminate|]. cbn [all_in Str.mem].
  intros [Hd Hs]%andb_prop [Hc|Hc]%orb_prop; [|auto].
  apply Ascii.eqb_eq in Hc. now subst.
Qed.

Lemma drop_underscores_clean (prev : ascii) (s : string) :
  Ascii.eqb prev "_" = false -> all_in numeral_chars s = true ->
  Py.drop_underscores prev s = Some s.
Proof.
  revert prev. induction s as [|c s IH]; intros prev Hprev.
  - intros _. cbn. now rewrite Hprev.
  - cbn [all_in]. intros [Hc Hs]%andb_prop. cbn [Py.drop_underscores].
    rewrite (digit_not_underscore c Hc), Hprev. cbn [andb].
    now rewrite (IH c (digit_not_underscore c Hc) Hs).
Qed.

Lemma read_digits_acc (d : Decimal.uint) (acc : positive) (k : Z) :
  exists k',
    Py.read_digits (NilEmpty.string_of_uint d) (Zpos acc) k
    = (Zpos (Pos.of_uint_acc d acc), k', "") /\ k <= k'.
Proof.
  revert acc k. induction d; intros acc k;
    cbn [NilEmpty.string_of_uint Py.read_digits Pos.of_uint_acc];
    try (exists k; split; [reflexivity | lia]);
    change (Py.is_digit _) with true; cbv iota;
    match goal with
    | |- context [Py.read_digits _ (10 * Zpos acc + ?v) (k + 1)] =>
        let v' := eval vm_compute in v in change v with v'
    end;
    match goal with
    | |- context [Pos.of_uint_acc d ?a] =>
        destruct (IHd a (k + 1)) as (k' & Hk' & Hle)
    end;
    exists k'; (split; [|lia]); rewrite <- Hk'; f_equal; lia.
Qed.

Lemma read_digits_uint (d : Decimal.uint) (k : Z) :
  exists k',
    Py.read_digits (NilEmpty.string_of_uint d) 0 k
    = (Z.of_N (Pos.of_uint d), k', "")
    /\ k <= k' /\ (d <> Decimal.Nil -> k < k').
Proof.
  revert k. induction d; intros k;
    cbn [NilEmpty.string_of_uint Py.read_digits Pos.of_uint];
    try (exists k; split; [reflexivity | split; [lia | congruence]]);
    change (Py.is_digit _) with true; cbv iota;
    match goal with
    | |- context [Py.read_digits _ (10 * 0 + ?v) (k + 1)] =>
        let v' := eval vm_compute in (10 * 0 + v) in
        change (10 * 0 + v) with v'
    end.
  1:{ destruct (IHd (k + 1)) as (k' & Hk' & Hle & _).
      exists k'. split; [exact Hk' | lia]. }
  all: match goal with
       | |- context [Pos.of_uint_acc ?d' ?a] =>
           destruct (read_digits_acc d' a (k + 1)) as (k' & Hk' & Hle)
       end;
       exists k'; (split; [|lia]); exact Hk'.
Qed.

(** [float] of the decimal numeral of an integer: the integer,
    converted. *)
Lemma float_of_str_of_int (n : Z) :
  Py.float_of_str (Str.of_int n) = Some (F64.of_Z n).
Proof.
  destruct n as [|p|p]; [reflexivity| |].
  all: unfold Str.of_int, Z.to_int, NilZero.string_of_int;
       pose proof (DecimalPos.Unsigned.to_uint_nonnil p) as Hnil;
       pose proof (DecimalPos.Unsigned.of_to p) as Hval;
       pose proof (uint_digits (Pos.to_uint p)) as Hdig;
       destruct (read_digits_uint (Pos.to_uint p) 0) as (k' & Hread & _ & Hk');
       specialize (Hk' Hnil); rewrite Hval in Hread;
       set (body := NilEmpty.string_of_uint (Pos.to_uint p)) in *;
       assert (NilZero.string_of_uint (Pos.to_uint p) = body) as Hbody
         by (unfold NilZero.string_of_uint; destruct (Pos.to_uint p);
             [congruence | reflexivity..]);
       rewrite Hbody;
       assert (exists c rest, body = String c rest
                              /\ Str.mem c digit_chars = true)
         as (c & rest & Hc & Hcd)
         by (subst body; destruct (Pos.to_uint p);
             [congruence | eexists _, _; split; reflexivity..]);
       destruct (digit_is_digit c Hcd) as (_ & Hminus & Hplus & Hi & Hn & _);
       assert (all_in numeral_chars body = true) as Hnum
         by (clear -Hdig; induction body as [|d body IH]; [reflexivity|];
             cbn [all_in] in *; apply andb_prop in Hdig as [Hd Hb];
             rewrite (IH Hb), andb_true_r;
             now destruct (digit_is_digit d Hd) as (_ & _ & _ & _ & _ & ?)).
  - unfold Py.float_of_str.
    rewrite strip_clean
      by (intros d Hd; apply digit_not_space, (all_in_mem _ body); auto).
    rewrite drop_underscores_clean by (reflexivity || exact Hnum).
    assert (Py.read_sign body = (false, body)) as ->
      by (rewrite Hc; cbn [Py.read_sign]; now rewrite Hminus, Hplus).
    assert (String.eqb (Str.lower body) "inf" = false
            /\ String.eqb (Str.lower body) "infinity" = false
            /\ String.eqb (Str.lower body) "nan" = false) as (-> & -> & ->)
      by (rewrite Hc; cbn [Str.lower String.eqb]; now rewrite Hi, Hn).
    cbn [orb]. rewrite Hread.
    replace (0 <? k' + 0) with true by (symmetry; apply Z.ltb_lt; lia).
    cbn [Py.read_exponent]. unfold F64.of_decimal, F64.of_Z.
    cbn [Z.of_N]. change (0 - 0) with 0. cbv iota.
    now rewrite Z.pow_0_r, Z.mul_1_r.
  - unfold Py.float_of_str.
    assert (all_in numeral_chars (String "-" body) = true) as Hnum'
      by (cbn [all_in]; now rewrite Hnum).
    rewrite strip_clean
      by (intros d Hd; apply digit_not_space,
            (all_in_mem _ (String "-" body)); auto).
    rewrite drop_underscores_clean by (reflexivity || exact Hnum').
    cbn [Py.read_sign]. rewrite Ascii.eqb_refl.
    assert (String.eqb (Str.lower body) "inf" = false
            /\ String.eqb (Str.lower body) "infinity" = false
            /\ String.eqb (Str.lower body) "nan" = false) as (-> & -> & ->)
      by (rewrite Hc; cbn [Str.lower String.eqb]; now rewrite Hi, Hn).
    cbn [orb]. rewrite Hread.
    replace (0 <? k' + 0) with true by (symmetry; apply Z.ltb_lt; lia).
    cbn [Py.read_exponent]. unfold F64.of_decimal, F64.of_Z.
    cbn [Z.of_N]. change (0 - 0) with 0. cbv iota.
    now rewrite Z.pow_0_r, Z.mul_1_r.
Qed.

End Numerals.

Section NumeralCells.

Import Genfromtxt.

(** [int(float(n))] gives the integer back below [2^53]. *)
Lemma int_of_float_of_Z (n : Z) :
  Z.abs n < 2 ^ 53 -> Py.int_of_float (F64.of_Z n) = Ok n.
Proof.
  intros Hn. unfold F64.of_Z, F64.prec, F64.emax.
  assert (forall s p, Zpos p < 2 ^ 53 ->
            Py.int_of_float (binary_round 53 1024 s p 0)
            = Ok (cond_Zopp s (Zpos p))) as Hround.
  { intros s p Hp.
    destruct (binary_round_small s p Hp) as (m & k & -> & Hk & Hm & _).
    unfold Py.int_of_float, F64.trunc. do 2 f_equal.
    destruct k as [|k|k]; try lia.
    - change (- 0) with 0. cbv iota. rewrite Hm, !Z.pow_0_r. lia.
    - change (- Zpos k) with (Zneg k). cbv iota. rewrite Hm.
      apply Z.div_mul. apply Z.pow_nonzero; lia. }
  destruct n as [|p|p]; [reflexivity | |]; cbn [binary_normalize];
    rewrite Hround by (cbn in Hn; lia); reflexivity.
Qed.

Lemma loose_call_of_int (n : Z) :
  Z.abs n < 2 ^ 53 -> loose_call I4 (Str.of_int n) = Ok (VInt n).
Proof.
  intros Hn. unfold loose_call.
  now rewrite float_of_str_of_int, int_of_float_of_Z.
Qed.

Lemma take_short (n : nat) (s : string) :
  (String.length s <= n)%nat -> Str.take n s = s.
Proof.
  revert s. induction n as [|n IH]; intros [|c s]; cbn; try reflexivity;
    try lia.
  intros Hlen. rewrite IH by lia. reflexivity.
Qed.

Lemma i4_abs (n : Z) : i4 n = true -> Z.abs n < 2 ^ 53.
Proof. unfold i4. intros [H1%Z.leb_le H2%Z.ltb_lt]%andb_prop. lia. Qed.

(** A row of eight fields whose integer cells are decimal numerals. *)
Lemma convert_row_numerals (r : Reading) (temp : string) :
  fits_dtype r = true ->
  temperature r
  = F32.of_f64 (default S754_nan (Py.float_of_str temp)) ->
  convert_row [ patient_id r; timestamp r; Str.of_int (heart_rate r);
                Str.of_int (blood_pressure_systolic r);
                Str.of_int (blood_pressure_diastolic r); temp;
                Str.of_int (glucose_level r); sensor_id r ]
  = Ok r.
Proof.
  unfold fits_dtype, valid_reading.
  intros [[[[[[Hhr Hsys]%andb_prop Hdia]%andb_prop Hglu]%andb_prop
            Hpid%Nat.leb_le]%andb_prop Hts%Nat.leb_le]%andb_prop
            Hsid%Nat.leb_le]%andb_prop Htemp.
  unfold convert_row. cbn [length converters dtype imap take mapM nth].
  unfold convert_row, converters. cbn [length dtype imap take compose].
  cbn [mapM nth].
  rewrite !loose_call_of_int by now apply i4_abs.
  assert (loose_call F4 temp
          = Ok (VFloat (default S754_nan (Py.float_of_str temp)))) as ->
    by (unfold loose_call; now destruct (Py.float_of_str temp)).
  cbn [loose_call mbind result_bind]. unfold store_row, store_i4.
  rewrite Hhr, Hsys, Hdia, Hglu. cbn [mbind result_bind].
  rewrite <- Htemp, !take_short by assumption. now destruct r.
Qed.

End NumeralCells.

(** X11: a file of decimal numerals: for a readable file of plain text
    under a proper path without the extension of a compressed file, when
    every row holds eight fields, the integer cells being the decimal
    numerals of 32-bit integers, and the texts fit the widths of their
    fields, the load succeeds and the array holds exactly those texts and
    integers, and in the temperature column the binary32 nearest to what
    [float] reads, [nan] when it reads nothing. *)
Theorem load_data_numerals (t : gmap path node) (filename : path) (f : file)
    (data : Dataset) :
  Fs.lookup t filename = Some (File f) ->
  readable f = true ->
  plain_source filename f = true ->
  Forall2 (fun row r =>
             fits_dtype r = true
             /\ exists temp,
                  row = [ patient_id r; timestamp r;
                          Str.of_int (heart_rate r);
                          Str.of_int (blood_pressure_systolic r);
                          Str.of_int (blood_pressure_diastolic r); temp;
                          Str.of_int (glucose_level r); sensor_id r ]
                  /\ temperature r
                     = F32.of_f64
                         (default S754_nan (Py.float_of_str temp)))
          (Genfromtxt.data_rows "," 1 (Str.file_lines (content f))) data ->
  load_data t filename = Ok data.
Proof.
  intros Hlook Hread _ Hrows.
  assert (load_data t filename
          = Genfromtxt.from_lines "," dtype 1 (Str.file_lines (content f)))
    as ->.
  { unfold load_data, Genfromtxt.genfromtxt, Fs.read_text.
    now rewrite Hlook, Hread. }
  set (R := Genfromtxt.data_rows "," 1 (Str.file_lines (content f))) in *.
  assert (Forall (fun row => length row = 8%nat) R) as Hlen.
  { clear -Hrows. induction Hrows as [|row r R' data' Hr _ IH];
      constructor; [|exact IH].
    destruct Hr as (_ & temp & -> & _). reflexivity. }
  apply from_lines_uniform; fold R.
  - destruct R as [|r0 R']; [constructor|]. cbn [hd].
    pose proof (Forall_inv Hlen) as Hr0. cbn beta in Hr0.
    eapply Forall_impl; [exact Hlen|]. intros row Hrow. cbn beta in *.
    congruence.
  - apply mapM_Forall2_Ok. eapply Forall2_impl; [exact Hrows|].
    intros row r (Hfits & temp & -> & Htemp).
    now apply convert_row_numerals.
Qed.

Lemma load_data_numerals_witness :
  load_data {[ data_file := File numerals_file ]} data_file
  = Ok [numerals_reading].
Proof.
  apply (load_data_numerals _ data_file numerals_file);
    [reflexivity | reflexivity | reflexivity|].
  change (Genfromtxt.data_rows "," 1 (Str.file_lines (content numerals_file)))
    with [["P001"; "2024-01-15T08:00:00"; "-72"; "120"; "80"; "36.6"; "95";
           "S001"]].
  constructor; [|constructor]. split; [reflexivity|].
  exists "36.6". split; reflexivity.
Defined.

(** ** The cells that fail a load *)

Section IntegerCells.

Import Genfromtxt.

Lemma mapM_Raise {A B : Type} (f : A -> result B) (l : list A) (e : exn) :
  mapM f l = Raise e -> exists a, In a l /\ f a = Raise e.
Proof.
  induction l as [|a l IH]; [discriminate|]. cbn [mapM].
  destruct (f a) as [b|e'] eqn:Ha; cbn [mbind result_bind].
  - destruct (mapM f l) as [bs|e'']; [discriminate|].
    cbn [mbind result_bind]. intros [= ->].
    destruct (IH eq_refl) as (a' & Hin & Hfa). exists a'. split; [now right|].
    exact Hfa.
  - intros [= ->]. exists a. split; [now left | exact Ha].
Qed.

Lemma loose_call_I4_cases (v : string) :
  (exists n, loose_call I4 v = Ok (VInt n))
  \/ (exists e, loose_call I4 v = Raise e /\ exn_kind e = OverflowError).
Proof.
  unfold loose_call. destruct (Py.float_of_str v) as [x|]; [|left; eauto].
  destruct x as [s|s| |s m e]; cbn; eauto.
Qed.

Lemma loose_call_raises (t : ftype) (v : string) (e : exn) :
  loose_call t v = Raise e -> exn_kind e = OverflowError.
Proof.
  destruct t.
  - discriminate.
  - destruct (loose_call_I4_cases v) as [[n ->]|(e' & -> & Hk)];
      [discriminate | now intros [= <-]].
  - cbn. destruct (Py.float_of_str v); discriminate.
Qed.

Lemma store_i4_raises (n : Z) (e : exn) :
  store_i4 n = Raise e -> exn_kind e = OverflowError.
Proof.
  unfold store_i4. destruct (i4 n); [discriminate|]. now intros [= <-].
Qed.

(** The conversion of a row of eight fields: it succeeds when the four
    integer cells fit, and fails with [OverflowError] otherwise. *)
Lemma convert_row_eight (row : list string) :
  length row = 8%nat ->
  is_ok (convert_row row)
  = int_cell_fits (nth 2 row "") && int_cell_fits (nth 3 row "")
    && int_cell_fits (nth 4 row "") && int_cell_fits (nth 6 row "")
  /\ (forall e, convert_row row = Raise e -> exn_kind e = OverflowError).
Proof.
  intros Hlen.
  do 8 (destruct row as [|? row]; [discriminate|]).
  destruct row; [|discriminate]. clear Hlen.
  unfold convert_row, converters. cbn [length dtype imap take compose].
  cbn [mapM nth]. unfold int_cell_fits.
  assert (forall v, loose_call F4 v
                    = Ok (VFloat (default S754_nan (Py.float_of_str v))))
    as HF by (intros v; unfold loose_call; now destruct (Py.float_of_str v)).
  rewrite HF.
  change (loose_call (U 10) ?v) with (Ok (VStr v)).
  change (loose_call (U 20) ?v) with (Ok (VStr v)).
  cbn [mbind result_bind].
  destruct (loose_call_I4_cases s1) as [[n1 ->]|(e1 & -> & Hk1)];
    cbn [mbind result_bind is_ok andb];
    [|split; [reflexivity | now intros e [= <-]]].
  destruct (loose_call_I4_cases s2) as [[n2 ->]|(e2 & -> & Hk2)];
    cbn [mbind result_bind is_ok andb];
    [|split; [now rewrite andb_false_r | now intros e [= <-]]].
  destruct (loose_call_I4_cases s3) as [[n3 ->]|(e3 & -> & Hk3)];
    cbn [mbind result_bind is_ok andb];
    [|split; [now rewrite !andb_false_r | now intros e [= <-]]].
  destruct (loose_call_I4_cases s5) as [[n5 ->]|(e5 & -> & Hk5)];
    cbn [mbind result_bind is_ok andb];
    [|split; [now rewrite !andb_false_r | now intros e [= <-]]].
  unfold store_row, store_i4.
  destruct (i4 n1); cbn [mbind result_bind raise is_ok andb];
    [|split; [reflexivity | now intros e [= <-]]].
  destruct (i4 n2); cbn [mbind result_bind raise is_ok andb];
    [|split; [reflexivity | now intros e [= <-]]].
  destruct (i4 n3); cbn [mbind result_bind raise is_ok andb];
    [|split; [reflexivity | now intros e [= <-]]].
  destruct (i4 n5); cbn [mbind result_bind raise is_ok andb];
    [|split; [reflexivity | now intros e [= <-]]].
  split; [reflexivity | discriminate].
Qed.

(** Whatever [from_lines] raises on rows of eight fields is an
    [OverflowError]. *)
Lemma from_lines_eight_raise (lines : list string) (e : exn) :
  Forall (fun row => length row = 8%nat) (data_rows "," 1 lines) ->
  from_lines "," dtype 1 lines = Raise e ->
  exn_kind e = OverflowError.
Proof.
  set (R := data_rows "," 1 lines). intros Hlen8.
  assert (Forall (fun row => length row = length (hd [] R)) R) as Hlen.
  { destruct R as [|r0 R']; [constructor|]. cbn [hd].
    pose proof (Forall_inv Hlen8) as Hr0. cbn beta in Hr0.
    eapply Forall_impl; [exact Hlen8|]. intros row Hrow. cbn beta in *.
    congruence. }
  unfold from_lines.
  destruct (read_rows_spec "," 1 lines) as (invalid & -> & Hinv).
  fold R in Hinv |- *.
  assert (Forall (fun vs => (length vs =? length (hd [] R))%nat = true) R)
    as Hlen' by (eapply Forall_impl; [exact Hlen|]; intros vs;
                 apply Nat.eqb_eq).
  rewrite (filter_none _ _ Hlen') in Hinv.
  apply map_eq_nil in Hinv as ->. rewrite (filter_all _ _ Hlen').
  set (convs := converters dtype (length (hd [] R))).
  assert (convs <> [] \/ R = []) as Hne.
  { destruct R as [|r0 R'] eqn:HR; [now right | left].
    assert (r0 <> []) as Hr0
      by (apply (data_rows_filled lines); fold R; rewrite HR; now left).
    subst convs. cbn [hd]. destruct r0; [congruence | discriminate]. }
  destruct (convert_columns convs R) as [columns|e'] eqn:Hcols;
    cbn [mbind result_bind].
  - pose proof (zip_columns_rows convs R columns Hne Hcols) as Hzip.
    intros (vals & Hin & Hstore)%mapM_Raise.
    apply mapM_Ok_Forall2 in Hzip.
    apply list_elem_of_In, list_elem_of_lookup in Hin as [j Hj].
    destruct (Forall2_lookup_r _ _ _ _ _ Hzip Hj) as (row & Hrowj & Hvals).
    cbn beta in Hvals.
    assert (row ∈ R) as Hin by (eapply list_elem_of_lookup_2; exact Hrowj).
    rewrite Forall_forall in Hlen, Hlen8.
    apply (proj2 (convert_row_eight row (Hlen8 row Hin))).
    assert (convert_row row
            = (vals ← mapM (fun c => cell c row) convs; store_row vals))
      as -> by (unfold convert_row; rewrite (Hlen row Hin); reflexivity).
    rewrite Hvals. exact Hstore.
  - intros [= ->]. rewrite convert_columns_cells in Hcols.
    apply mapM_Raise in Hcols as ([i t] & Hc & Hcol).
    apply mapM_Raise in Hcol as (row & Hin & Hcell).
    now apply loose_call_raises in Hcell.
Qed.

End IntegerCells.

(** X12: when the load of a file of eight-field rows fails.  For a readable
    file of plain text, under a proper path without the extension of a
    compressed file, whose rows all hold eight fields, the load succeeds
    exactly when every cell of the four integer columns converts to an
    integer of 32 bits, and a failure is an [OverflowError].  A plain text
    that [float] does not read is no failure (the cell is [-1]); a decimal
    numeral fails exactly when it is out of the 32-bit range.  The text
    columns and the temperature never fail the load. *)
Theorem load_data_integer_cells (t : gmap path node) (filename : path)
    (f : file) :
  Fs.lookup t filename = Some (File f) ->
  readable f = true ->
  plain_source filename f = true ->
  Forall (fun row => length row = 8%nat)
         (Genfromtxt.data_rows "," 1 (Str.file_lines (content f))) ->
  is_ok (load_data t filename)
  = forallb (fun row =>
               int_cell_fits (nth 2 row "") && int_cell_fits (nth 3 row "")
               && int_cell_fits (nth 4 row "")
               && int_cell_fits (nth 6 row ""))
            (Genfromtxt.data_rows "," 1 (Str.file_lines (content f)))
  /\ (forall e, load_data t filename = Raise e ->
        exn_kind e = OverflowError)
  /\ (forall v,
        plain_text v = true -> Py.float_of_str v = None ->
        int_cell_fits v = true)
  /\ (forall n, Z.abs n < 2 ^ 53 -> int_cell_fits (Str.of_int n) = i4 n).
Proof.
  intros Hlook Hread _ Hlen8.
  assert (load_data t filename
          = Genfromtxt.from_lines "," dtype 1 (Str.file_lines (content f)))
    as ->.
  { unfold load_data, Genfromtxt.genfromtxt, Fs.read_text.
    now rewrite Hlook, Hread. }
  set (R := Genfromtxt.data_rows "," 1 (Str.file_lines (content f))) in *.
  assert (Forall (fun row => length row = length (hd [] R)) R) as Hlen.
  { destruct R as [|r0 R']; [constructor|]. cbn [hd].
    pose proof (Forall_inv Hlen8) as Hr0. cbn beta in Hr0.
    eapply Forall_impl; [exact Hlen8|]. intros row Hrow. cbn beta in *.
    congruence. }
  split; [|split; [|split]].
  - assert (is_ok (Genfromtxt.from_lines "," dtype 1
                     (Str.file_lines (content f)))
            = is_ok (mapM convert_row R)) as ->.
    { pose proof (from_lines_uniform (Str.file_lines (content f)) Hlen)
        as Hiff. fold R in Hiff.
      destruct (Genfromtxt.from_lines _ _ _ _) as [data|e].
      - now rewrite (proj1 (Hiff data) eq_refl).
      - destruct (mapM convert_row R) as [data|e']; [|reflexivity].
        now pose proof (proj2 (Hiff data) eq_refl). }
    rewrite mapM_is_ok. clear Hlen.
    induction Hlen8 as [|row R' Hrow _ IH]; [reflexivity|].
    cbn [forallb]. rewrite IH.
    now rewrite (proj1 (convert_row_eight row Hrow)).
  - intros e. now apply from_lines_eight_raise.
  - intros v _ Hv. unfold int_cell_fits, Genfromtxt.loose_call.
    now rewrite Hv.
  - intros n Hn. unfold int_cell_fits.
    now rewrite loose_call_of_int.
Qed.

Lemma load_data_integer_cells_witness :
  is_ok (load_data {[ data_file := File overflow_file ]} data_file) = false.
Proof.
  refine (eq_trans
            (proj1 (load_data_integer_cells
                      {[ data_file := File overflow_file ]} data_file
                      overflow_file _ _ _ _)) _);
    [reflexivity | reflexivity | reflexivity | vm_compute; repeat constructor
    | vm_compute; reflexivity].
Defined.

(** ** Averages in range, averages that are exact *)

Section ExactQuotient.

Local Abbreviation prec := 53.
Local Abbreviation emax := 1024.

(** An even mantissa of 54 digits is halved without loss. *)
Lemma round_exact_even (s : bool) (m : positive) (e : Z) :
  2 ^ 52 <= Zpos m < 2 ^ 53 -> -1074 <= e <= 968 ->
  binary_round_aux prec emax s (Zpos m~0) e loc_Exact
  = S754_finite s m (e + 1).
Proof.
  intros Hm He. unfold binary_round_aux.
  unfold shr_fexp at 1. cbn [Zdigits2].
  rewrite (digits2_between m~0 54) by lia.
  rewrite fexp_shift by lia. change (54 - 53) with 1.
  cbn [shr shr_record_of_loc].
  change (SpecFloat.iter_pos shr_1 1
            {| shr_m := Zpos m~0; shr_r := false; shr_s := false |})
    with {| shr_m := Zpos m; shr_r := false; shr_s := false |}.
  cbn [loc_of_shr_record shr_m shr_r shr_s round_nearest_even].
  destruct (renormalize s (Zpos m) (e + 1)) as (m' & e' & -> & Hm' & He' & Hval);
    [lia | lia |].
  assert (e' - (e + 1) = 0 \/ e' - (e + 1) = 1) as [Hj|Hj] by lia;
    rewrite Hj in Hval.
  - replace e' with (e + 1) by lia. f_equal. lia.
  - change (2 ^ 1) with 2 in Hval. lia.
Qed.

(** Two mantissas of 53 digits of the same number are the same. *)
Lemma normal_unique (q j k : Z) :
  0 < q -> 0 <= j -> 0 <= k ->
  2 ^ 52 <= q * 2 ^ j < 2 ^ 53 -> 2 ^ 52 <= q * 2 ^ k < 2 ^ 53 -> j = k.
Proof.
  intros Hq Hj Hk Hqj Hqk.
  destruct (Z.lt_trichotomy j k) as [Hlt|[Heq|Hgt]]; [exfalso|exact Heq|exfalso].
  - assert (2 ^ k = 2 ^ j * 2 ^ (k - j)) as Hpow
      by (rewrite <- Z.pow_add_r by lia; f_equal; lia).
    assert (2 <= 2 ^ (k - j)) by (apply (Z.pow_le_mono_r 2 1); lia).
    assert (0 < 2 ^ j) by (apply Z.pow_pos_nonneg; lia).
    rewrite Hpow in Hqk. nia.
  - assert (2 ^ j = 2 ^ k * 2 ^ (j - k)) as Hpow
      by (rewrite <- Z.pow_add_r by lia; f_equal; lia).
    assert (2 <= 2 ^ (j - k)) by (apply (Z.pow_le_mono_r 2 1); lia).
    assert (0 < 2 ^ k) by (apply Z.pow_pos_nonneg; lia).
    rewrite Hpow in Hqj. nia.
Qed.

(** IEEE division of [q * b] by [b]: the integer [q], exactly. *)
Lemma div_of_Z_exact (q b : Z) :
  Z.abs (q * b) < 2 ^ 53 -> 0 < b < 2 ^ 53 ->
  SFdiv prec emax (binary_normalize prec emax (q * b) 0 false)
        (binary_normalize prec emax b 0 false)
  = binary_normalize prec emax q 0 false.
Proof.
  intros Ha Hb.
  destruct (Z.eq_dec q 0) as [->|Hq].
  { destruct b as [|pb|pb]; try lia. cbn [Z.mul binary_normalize].
    destruct (binary_round_small false pb) as (my & kb & -> & _); [lia|].
    reflexivity. }
  assert (exists pq, Z.abs q = Zpos pq
                     /\ binary_normalize prec emax q 0 false
                        = binary_round prec emax (q <? 0) pq 0)
    as (pq & Hpq & ->).
  { destruct q as [|pq|pq]; [congruence | |]; exists pq; auto. }
  destruct b as [|pb|pb]; try lia.
  assert (binary_normalize prec emax (q * Zpos pb) 0 false
          = binary_round prec emax (q <? 0) (pq * pb) 0) as ->.
  { destruct q as [|p|p]; [congruence | |]; cbn in Hpq;
      injection Hpq as <-; reflexivity. }
  assert (Zpos pq * Zpos pb < 2 ^ 53) as Hprod.
  { rewrite <- Hpq. rewrite Z.abs_mul in Ha. lia. }
  cbn [binary_normalize].
  destruct (binary_round_small (q <? 0) (pq * pb))
    as (mx & ka & -> & Hka & Hmx & Hmxr); [lia|].
  destruct (binary_round_small false pb) as (my & kb & -> & Hkb & Hmy & Hmyr);
    [lia|].
  destruct (binary_round_small (q <? 0) pq)
    as (mq & kq & -> & Hkq & Hmq & Hmqr); [nia|].
  cbn [SFdiv]. unfold SFdiv_core_binary. cbn [Zdigits2].
  rewrite (digits2_between mx 53), (digits2_between my 53) by lia.
  replace (fexp prec emax (53 + - ka - (53 + - kb))) with (- ka - - kb - 53)
    by (unfold fexp, emin; lia).
  rewrite Z.min_l by lia.
  replace (- ka - - kb - (- ka - - kb - 53)) with 53 by lia.
  rewrite Z.shiftl_mul_pow2 by lia.
  set (j := ka + 53 - kb).
  assert (0 < 2 ^ kb) by (apply Z.pow_pos_nonneg; lia).
  assert (0 < 2 ^ ka) by (apply Z.pow_pos_nonneg; lia).
  assert (1 <= j) as Hj by (unfold j; lia).
  assert (Zpos mx * 2 ^ 53 = Zpos pq * 2 ^ j * Zpos my) as Hquot.
  { rewrite Hmx, Hmy, Pos2Z.inj_mul.
    assert (2 ^ ka * 2 ^ 53 = 2 ^ j * 2 ^ kb) as Hpow
      by (rewrite <- !Z.pow_add_r by lia; f_equal; unfold j; lia).
    replace (Zpos pq * Zpos pb * 2 ^ ka * 2 ^ 53)
      with (Zpos pq * Zpos pb * (2 ^ ka * 2 ^ 53)) by ring.
    rewrite Hpow. ring. }
  assert (0 < 2 ^ j) as Hpj by (apply Z.pow_pos_nonneg; lia).
  assert (0 < Zpos pq * 2 ^ j) as HQpos by (apply Z.mul_pos_pos; lia).
  assert (Z.div_eucl (Zpos mx * 2 ^ 53) (Zpos my) = (Zpos pq * 2 ^ j, 0))
    as ->.
  { assert (forall a b, Z.div_eucl a b = (a / b, a mod b)) as Hde
      by (intros a b; unfold Z.div, Z.modulo;
          now destruct (Z.div_eucl a b)).
    rewrite Hde, Hquot, Z.div_mul, Z.mod_mul by lia. reflexivity. }
  rewrite xorb_false_r. rewrite new_location_spec by lia.
  change (0 =? 0) with true. cbv iota.
  assert (2 ^ 52 <= Zpos pq * 2 ^ j < 2 ^ 54) as HQ.
  { change (2 ^ 53) with 9007199254740992 in *.
    change (2 ^ 52) with 4503599627370496 in *.
    change (2 ^ 54) with 18014398509481984.
    split.
    - destruct (Z_le_gt_dec 4503599627370496 (Zpos pq * 2 ^ j)) as [|Hgt];
        [assumption | exfalso].
      assert (Zpos pq * 2 ^ j * Zpos my <= 4503599627370495 * Zpos my)
        by (apply Z.mul_le_mono_nonneg_r; lia).
      lia.
    - destruct (Z_lt_le_dec (Zpos pq * 2 ^ j) 18014398509481984) as [|Hge];
        [assumption | exfalso].
      assert (18014398509481984 * Zpos my <= Zpos pq * 2 ^ j * Zpos my)
        by (apply Z.mul_le_mono_nonneg_r; lia).
      lia. }
  destruct (Z_lt_le_dec (Zpos pq * 2 ^ j) (2 ^ 53)) as [Hsmall|Hbig].
  - assert (j = kq) as Hjk.
    { apply (normal_unique (Zpos pq)); [lia | lia | lia | lia |].
      now rewrite <- Hmq. }
    destruct (Zpos pq * 2 ^ j) as [|Q|Q] eqn:HQv; try lia.
    rewrite round_exact by lia.
    f_equal; [|unfold j in Hjk; lia].
    apply Pos2Z.inj. rewrite Hmq, <- Hjk. now rewrite <- HQv.
  - assert (2 ^ j = 2 * 2 ^ (j - 1)) as Hpow.
    { replace j with (j - 1 + 1) at 1 by lia.
      rewrite Z.pow_add_r by lia. change (2 ^ 1) with 2. ring. }
    assert (j - 1 = kq) as Hjk.
    { apply (normal_unique (Zpos pq)); [lia | lia | lia | | now rewrite <- Hmq].
      rewrite Hpow in HQ, Hbig. lia. }
    assert (Zpos pq * 2 ^ j = Zpos mq~0) as ->.
    { change (Zpos mq~0) with (2 * Zpos mq).
      rewrite Hmq, <- Hjk, Hpow. ring. }
    rewrite round_exact_even by lia.
    f_equal. unfold j in Hjk. lia.
Qed.

End ExactQuotient.

Section FloatOrder.

Local Abbreviation prec := 53.
Local Abbreviation emax := 1024.

(** The order of two normal numbers: the order of their exponents, then
    of their mantissas. *)
Lemma normal_order (m1 m2 : positive) (e1 e2 : Z) :
  2 ^ 52 <= Zpos m1 < 2 ^ 53 -> 2 ^ 52 <= Zpos m2 < 2 ^ 53 ->
  e1 <= 0 -> e2 <= 0 ->
  Zpos m1 * 2 ^ (- e2) <= Zpos m2 * 2 ^ (- e1) ->
  e1 < e2 \/ (e1 = e2 /\ (m1 <= m2)%positive).
Proof.
  intros Hm1 Hm2 He1 He2 Hle.
  destruct (Z.lt_trichotomy e1 e2) as [Hlt|[Heq|Hgt]]; [now left | right|].
  - subst e2. split; [reflexivity|].
    assert (0 < 2 ^ (- e1)) by (apply Z.pow_pos_nonneg; lia).
    assert (Zpos m1 <= Zpos m2) by nia. lia.
  - exfalso.
    assert (2 ^ (- e2) = 2 ^ (- e1) * 2 ^ (e1 - e2)) as Hpow
      by (rewrite <- Z.pow_add_r by lia; f_equal; lia).
    assert (2 <= 2 ^ (e1 - e2)) by (apply (Z.pow_le_mono_r 2 1); lia).
    assert (0 < 2 ^ (- e1)) by (apply Z.pow_pos_nonneg; lia).
    rewrite Hpow in Hle.
    assert (Zpos m1 * 2 ^ (e1 - e2) <= Zpos m2) by nia. nia.
Qed.

Lemma compare_le (m1 m2 : positive) :
  (m1 <= m2)%positive ->
  Pos.compare_cont Eq m1 m2 = Eq \/ Pos.compare_cont Eq m1 m2 = Lt.
Proof.
  intros Hle. change (Pos.compare_cont Eq m1 m2) with (Pos.compare m1 m2).
  destruct (Pos.compare_spec m1 m2); auto. lia.
Qed.

Lemma compare_ge (m1 m2 : positive) :
  (m2 <= m1)%positive ->
  Pos.compare_cont Eq m1 m2 = Eq \/ Pos.compare_cont Eq m1 m2 = Gt.
Proof.
  intros Hle. change (Pos.compare_cont Eq m1 m2) with (Pos.compare m1 m2).
  destruct (Pos.compare_spec m1 m2); auto. lia.
Qed.

(** A normal number below an integer, as [<=] on floats has it. *)
Lemma leb_finite_of_Z (s : bool) (m : positive) (e h : Z) :
  2 ^ 52 <= Zpos m < 2 ^ 53 -> e <= 0 -> Z.abs h < 2 ^ 53 ->
  cond_Zopp s (Zpos m) <= h * 2 ^ (- e) ->
  SFleb (S754_finite s m e) (binary_normalize prec emax h 0 false) = true.
Proof.
  intros Hm He Hh Hle.
  assert (0 < 2 ^ (- e)) as HP by (apply Z.pow_pos_nonneg; lia).
  destruct h as [|p|p]; cbn [binary_normalize].
  - destruct s; [reflexivity | cbn [cond_Zopp] in Hle; lia].
  - destruct (binary_round_small false p) as (mh & kh & -> & Hkh & Hmh & Hmhr);
      [lia|].
    destruct s; [reflexivity|]. cbn [cond_Zopp] in Hle.
    unfold SFleb, SFcompare.
    assert (0 < 2 ^ kh) by (apply Z.pow_pos_nonneg; lia).
    destruct (normal_order m mh e (- kh) Hm Hmhr He) as [Hlt|[-> Hmm]];
      [lia | rewrite Z.opp_involutive, Hmh; nia | |].
    + apply Z.compare_lt_iff in Hlt. now rewrite Hlt.
    + rewrite Z.compare_refl.
      destruct (compare_le m mh Hmm) as [-> | ->]; reflexivity.
  - destruct (binary_round_small true p) as (mh & kh & -> & Hkh & Hmh & Hmhr);
      [cbn in Hh; lia|].
    destruct s; [|cbn [cond_Zopp] in Hle; lia]. cbn [cond_Zopp] in Hle.
    unfold SFleb, SFcompare.
    assert (0 < 2 ^ kh) by (apply Z.pow_pos_nonneg; lia).
    destruct (normal_order mh m (- kh) e Hmhr Hm) as [Hlt|[<- Hmm]];
      [lia | exact He | rewrite Z.opp_involutive, Hmh; nia | |].
    + apply Z.compare_gt_iff in Hlt. now rewrite Hlt.
    + rewrite Z.compare_refl.
      destruct (compare_ge m mh Hmm) as [-> | ->]; reflexivity.
Qed.

(** An integer below a normal number. *)
Lemma leb_of_Z_finite (s : bool) (m : positive) (e l : Z) :
  2 ^ 52 <= Zpos m < 2 ^ 53 -> e <= 0 -> Z.abs l < 2 ^ 53 ->
  l * 2 ^ (- e) <= cond_Zopp s (Zpos m) ->
  SFleb (binary_normalize prec emax l 0 false) (S754_finite s m e) = true.
Proof.
  intros Hm He Hl Hle.
  assert (0 < 2 ^ (- e)) as HP by (apply Z.pow_pos_nonneg; lia).
  destruct l as [|p|p]; cbn [binary_normalize].
  - destruct s; [cbn [cond_Zopp] in Hle; lia | reflexivity].
  - destruct (binary_round_small false p) as (ml & kl & -> & Hkl & Hml & Hmlr);
      [lia|].
    destruct s; [cbn [cond_Zopp] in Hle; lia|]. cbn [cond_Zopp] in Hle.
    unfold SFleb, SFcompare.
    assert (0 < 2 ^ kl) by (apply Z.pow_pos_nonneg; lia).
    destruct (normal_order ml m (- kl) e Hmlr Hm) as [Hlt|[<- Hmm]];
      [lia | exact He | rewrite Z.opp_involutive, Hml; nia | |].
    + apply Z.compare_lt_iff in Hlt. now rewrite Hlt.
    + rewrite Z.compare_refl.
      destruct (compare_le ml m Hmm) as [-> | ->]; reflexivity.
  - destruct (binary_round_small true p) as (ml & kl & -> & Hkl & Hml & Hmlr);
      [cbn in Hl; lia|].
    destruct s; [|reflexivity]. cbn [cond_Zopp] in Hle.
    unfold SFleb, SFcompare.
    assert (0 < 2 ^ kl) by (apply Z.pow_pos_nonneg; lia).
    destruct (normal_order m ml e (- kl) Hm Hmlr He) as [Hlt|[-> Hmm]];
      [lia | rewrite Z.opp_involutive, Hml; nia | |].
    + apply Z.compare_gt_iff in Hlt. now rewrite Hlt.
    + rewrite Z.compare_refl.
      destruct (compare_ge ml m Hmm) as [-> | ->]; reflexivity.
Qed.

End FloatOrder.

Section MeanBounds.

Lemma sum_between (a : list Z) (lo hi : Z) :
  Forall (fun x => lo <= x <= hi) a ->
  lo * Z.of_nat (length a) <= Np.sum a <= hi * Z.of_nat (length a).
Proof.
  induction 1 as [|x a Hx _ IH]; [cbn; lia|].
  rewrite sum_cons. cbn [length]. lia.
Qed.

(** The mean of a column lies between any two bounds of its cells. *)
Lemma mean_between (a : list Z) (lo hi : Z) :
  a <> [] -> Z.abs (Np.sum a) <= 2 ^ 31 * Z.of_nat (length a) ->
  Z.of_nat (length a) < 2 ^ 22 ->
  Z.abs lo < 2 ^ 53 -> Z.abs hi < 2 ^ 53 ->
  Forall (fun x => lo <= x <= hi) a ->
  SFleb (F64.of_Z lo) (Np.mean a) = true
  /\ SFleb (Np.mean a) (F64.of_Z hi) = true.
Proof.
  intros Hne Hsum Hlen Hlo Hhi Hall.
  pose proof (sum_between a lo hi Hall) as Hbounds.
  assert (0 < Z.of_nat (length a)) as Hpos
    by (destruct a; [congruence | cbn; lia]).
  pose proof (mean_rounded a Hne ltac:(lia) ltac:(lia)) as Hround.
  set (S := Np.sum a) in *. set (n := Z.of_nat (length a)) in *.
  unfold F64.of_Z, F64.prec, F64.emax.
  destruct (Np.mean a) as [s|s| |s m e]; cbn [rounded_quotient] in Hround;
    try contradiction.
  - destruct Hround as [HS ->]. rewrite HS in Hbounds.
    assert (lo <= 0 <= hi) as [Hl Hh] by nia.
    split.
    + destruct lo as [|p|p]; [reflexivity | lia|]. cbn [binary_normalize].
      destruct (binary_round_small true p) as (ml & kl & -> & _);
        [cbn in Hlo; lia | reflexivity].
    + destruct hi as [|p|p]; [reflexivity | | lia]. cbn [binary_normalize].
      destruct (binary_round_small false p) as (mh & kh & -> & _);
        [lia | reflexivity].
  - destruct Hround as (Hs & Hm & Hclose).
    assert (e < 0) as He.
    { destruct (Z_lt_le_dec e 0) as [|He]; [assumption | exfalso].
      rewrite Z.max_l, Z.max_r in Hclose by lia. change (2 ^ 0) with 1 in Hclose.
      assert (1 <= 2 ^ e) by (apply (Z.pow_le_mono_r 2 0); lia).
      change (2 ^ 52) with 4503599627370496 in *.
      change (2 ^ 31) with 2147483648 in *.
      assert (0 < 2 ^ e * n) by nia.
      assert (4503599627370496 * (2 ^ e * n) <= Zpos m * 2 ^ e * n) by nia.
      assert (Z.abs S <= 2147483648 * (2 ^ e * n)) by nia.
      lia. }
    rewrite Z.max_r, Z.max_l in Hclose by lia. change (2 ^ 0) with 1 in Hclose.
    assert (0 < 2 ^ (- e)) as HP by (apply Z.pow_pos_nonneg; lia).
    assert (2 * Z.abs (cond_Zopp s (Zpos m) * n - S * 2 ^ (- e)) <= n)
      as Hsigned.
    { rewrite Hs. destruct (Z.ltb_spec S 0); cbn [cond_Zopp].
      - rewrite (Z.abs_neq S) in Hclose by lia.
        replace (- Zpos m * n - S * 2 ^ (- e))
          with (- (Zpos m * 1 * n - - S * 2 ^ (- e))) by ring.
        rewrite Z.abs_opp. lia.
      - rewrite (Z.abs_eq S) in Hclose by lia.
        replace (Zpos m * n) with (Zpos m * 1 * n) by ring. lia. }
    set (M := cond_Zopp s (Zpos m)) in *. set (P := 2 ^ (- e)) in *.
    assert (lo * P <= M <= hi * P) as [HloM HMhi].
    { assert (lo * P * n <= S * P <= hi * P * n) as [HloS HShi].
      { replace (lo * P * n) with (lo * n * P) by ring.
        replace (hi * P * n) with (hi * n * P) by ring.
        split; apply Z.mul_le_mono_nonneg_r; lia. }
      split.
      - destruct (Z_le_gt_dec (lo * P) M) as [|Hgt]; [assumption | exfalso].
        assert (1 * n <= (lo * P - M) * n)
          by (apply Z.mul_le_mono_nonneg_r; lia).
        replace ((lo * P - M) * n) with (lo * P * n - M * n) in * by ring.
        lia.
      - destruct (Z_le_gt_dec M (hi * P)) as [|Hgt]; [assumption | exfalso].
        assert (1 * n <= (M - hi * P) * n)
          by (apply Z.mul_le_mono_nonneg_r; lia).
        replace ((M - hi * P) * n) with (M * n - hi * P * n) in * by ring.
        lia. }
    split.
    + apply leb_of_Z_finite; [exact Hm | lia | exact Hlo | exact HloM].
    + apply leb_finite_of_Z; [exact Hm | lia | exact Hhi | exact HMhi].
Qed.

Lemma mean_exact (a : list Z) (q : Z) :
  a <> [] -> Z.abs (Np.sum a) < 2 ^ 53 -> Z.of_nat (length a) < 2 ^ 53 ->
  Np.sum a = q * Z.of_nat (length a) ->
  Np.mean a = F64.of_Z q.
Proof.
  intros Hne Hsum Hlen Hq. unfold Np.mean, F64.div, F64.of_Z.
  assert (0 < Z.of_nat (length a)) as Hpos
    by (destruct a; [congruence | cbn [length]; lia]).
  rewrite Hq in *. apply div_of_Z_exact; [exact Hsum | lia].
Qed.

End MeanBounds.

(** X13: each average lies between the smallest and the largest cell of its
    column, as [<=] on floats has it: for an array of fewer than [2^22] rows
    of 32-bit cells, if every cell of a column is between the integers [lo]
    and [hi], so is the average of the column.  No rounding takes it out of
    the range of the data. *)
Theorem averages_within_range (data : Dataset) (lo hi : Z) :
  data <> [] ->
  forallb valid_reading data = true ->
  size data < 2 ^ 22 ->
  Z.abs lo < 2 ^ 53 -> Z.abs hi < 2 ^ 53 ->
  (Forall (fun r => lo <= heart_rate r <= hi) data ->
   SFleb (F64.of_Z lo) (avg_heart_rate (calculate_statistics data)) = true
   /\ SFleb (avg_heart_rate (calculate_statistics data)) (F64.of_Z hi) = true)
  /\ (Forall (fun r => lo <= blood_pressure_systolic r <= hi) data ->
      SFleb (F64.of_Z lo) (avg_systolic_bp (calculate_statistics data)) = true
      /\ SFleb (avg_systolic_bp (calculate_statistics data)) (F64.of_Z hi)
         = true)
  /\ (Forall (fun r => lo <= glucose_level r <= hi) data ->
      SFleb (F64.of_Z lo) (avg_glucose (calculate_statistics data)) = true
      /\ SFleb (avg_glucose (calculate_statistics data)) (F64.of_Z hi) = true).
Proof.
  intros Hne Hvalid Hsize Hlo Hhi.
  rewrite forallb_forall in Hvalid.
  assert (forall f,
            (forall r, valid_reading r = true -> i4 (f r) = true) ->
            Forall (fun r => lo <= f r <= hi) data ->
            SFleb (F64.of_Z lo) (Np.mean (column f data)) = true
            /\ SFleb (Np.mean (column f data)) (F64.of_Z hi) = true) as Hmean.
  { intros f Hf Hall.
    assert (Z.of_nat (length (column f data)) = size data) as Hlen
      by (unfold size, column; now rewrite length_map).
    apply mean_between; rewrite ?Hlen; try assumption.
    - destruct data; [congruence | discriminate].
    - apply sum_bound. auto.
    - unfold column. now apply Forall_map. }
  unfold calculate_statistics.
  destruct (size data =? 0) eqn:Hzero.
  { apply Z.eqb_eq in Hzero. unfold size in Hzero.
    destruct data; [congruence | discriminate]. }
  cbn [avg_heart_rate avg_systolic_bp avg_glucose].
  repeat split; apply Hmean; try assumption;
    intros r Hr; unfold valid_reading in Hr;
    do 3 (apply andb_prop in Hr as [Hr ?]); assumption.
Qed.

Lemma averages_within_range_witness :
  SFleb (F64.of_Z 85) (avg_heart_rate (calculate_statistics scenario_A)) = true
  /\ SFleb (avg_heart_rate (calculate_statistics scenario_A)) (F64.of_Z 100)
     = true.
Proof.
  apply (averages_within_range scenario_A 85 100);
    [discriminate | reflexivity | reflexivity | reflexivity | reflexivity|].
  repeat constructor; cbn; lia.
Defined.

(** X14: an average that is an integer is computed exactly.  For an array
    of fewer than [2^22] rows of 32-bit cells, when the sum of a column is
    [q] times the number of rows, the average is the float of [q], with no
    rounding error; so a column whose cells are all equal has that cell as
    its average. *)
Theorem averages_exact (data : Dataset) :
  data <> [] ->
  forallb valid_reading data = true ->
  size data < 2 ^ 22 ->
  (forall q,
     Np.sum (column heart_rate data) = q * size data ->
     avg_heart_rate (calculate_statistics data) = F64.of_Z q)
  /\ (forall q,
        Np.sum (column blood_pressure_systolic data) = q * size data ->
        avg_systolic_bp (calculate_statistics data) = F64.of_Z q)
  /\ (forall q,
        Np.sum (column glucose_level data) = q * size data ->
        avg_glucose (calculate_statistics data) = F64.of_Z q)
  /\ (forall c,
        Forall (fun r => heart_rate r = c) data ->
        avg_heart_rate (calculate_statistics data) = F64.of_Z c)
  /\ (forall c,
        Forall (fun r => blood_pressure_systolic r = c) data ->
        avg_systolic_bp (calculate_statistics data) = F64.of_Z c)
  /\ (forall c,
        Forall (fun r => glucose_level r = c) data ->
        avg_glucose (calculate_statistics data) = F64.of_Z c).
Proof.
  intros Hne Hvalid Hsize.
  rewrite forallb_forall in Hvalid.
  assert (forall f q,
            (forall r, valid_reading r = true -> i4 (f r) = true) ->
            Np.sum (column f data) = q * size data ->
            Np.mean (column f data) = F64.of_Z q) as Hmean.
  { intros f q Hf Hq.
    assert (Z.abs (Np.sum (column f data)) <= 2 ^ 31 * size data) as Hb
      by (apply sum_bound; auto).
    assert (Z.of_nat (length (column f data)) = size data) as Hlen
      by (unfold size, column; now rewrite length_map).
    apply mean_exact; rewrite ?Hlen; try assumption; try lia.
    destruct data; [congruence | discriminate]. }
  assert (forall (f : Reading -> Z) c,
            Forall (fun r => f r = c) data ->
            Np.sum (column f data) = c * size data) as Hconst.
  { intros f c Hall.
    pose proof (sum_between (column f data) c c) as Hsum.
    unfold column in *. rewrite length_map in Hsum. fold (size data) in Hsum.
    assert (Forall (fun x => c <= x <= c) (map f data)) as Hc.
    { apply Forall_map. eapply Forall_impl; [exact Hall|].
      intros r Hr. cbn beta in *. lia. }
    specialize (Hsum Hc). lia. }
  assert (forall r, valid_reading r = true ->
            i4 (heart_rate r) = true
            /\ i4 (blood_pressure_systolic r) = true
            /\ i4 (glucose_level r) = true) as Hcells.
  { intros r Hr. unfold valid_reading in Hr.
    do 3 (apply andb_prop in Hr as [Hr ?]). auto. }
  unfold calculate_statistics.
  destruct (size data =? 0) eqn:Hzero.
  { apply Z.eqb_eq in Hzero. unfold size in Hzero.
    destruct data; [congruence | discriminate]. }
  cbn [avg_heart_rate avg_systolic_bp avg_glucose].
  repeat split; intros q Hq; apply Hmean;
    try (intros r Hr; now apply Hcells);
    first [exact Hq | now apply Hconst].
Qed.

Lemma averages_exact_witness :
  avg_heart_rate (calculate_statistics (firstn 2 scenario_A)) = F64.of_Z 90.
Proof.
  refine (proj1 (averages_exact (firstn 2 scenario_A) _ _ _) 90 _);
    [discriminate | reflexivity | reflexivity | reflexivity].
Defined.

Section LoadedAverages.

Lemma between_finite (lo hi : Z) (x : spec_float) :
  SFleb (F64.of_Z lo) x = true -> SFleb x (F64.of_Z hi) = true ->
  Z.abs lo < 2 ^ 53 -> Z.abs hi < 2 ^ 53 ->
  is_finite x = true.
Proof.
  intros Hlo Hhi Hl Hh. destruct x as [s|s| |s m e]; try reflexivity.
  - exfalso. unfold F64.of_Z, F64.prec, F64.emax in *.
    destruct s.
    + destruct lo as [|p|p]; cbn [binary_normalize] in Hlo;
        [discriminate | |].
      * destruct (binary_round_small false p) as (m & k & Hr & _); [lia|].
        rewrite Hr in Hlo. discriminate.
      * destruct (binary_round_small true p) as (m & k & Hr & _);
          [cbn in Hl; lia|].
        rewrite Hr in Hlo. discriminate.
    + destruct hi as [|p|p]; cbn [binary_normalize] in Hhi;
        [discriminate | |].
      * destruct (binary_round_small false p) as (m & k & Hr & _); [lia|].
        rewrite Hr in Hhi. discriminate.
      * destruct (binary_round_small true p) as (m & k & Hr & _);
          [cbn in Hh; lia|].
        rewrite Hr in Hhi. discriminate.
  - exfalso. unfold SFleb in Hlo.
    destruct (F64.of_Z lo); discriminate.
Qed.

Lemma mean_i4 (f : Reading -> Z) (data : Dataset) :
  data <> [] -> size data < 2 ^ 22 ->
  (forall r, In r data -> i4 (f r) = true) ->
  SFleb (F64.of_Z (- 2 ^ 31)) (Np.mean (column f data)) = true
  /\ SFleb (Np.mean (column f data)) (F64.of_Z (2 ^ 31 - 1)) = true.
Proof.
  intros Hne Hsize Hall.
  assert (Z.of_nat (length (column f data)) = size data) as Hlen
    by (unfold size, column; now rewrite length_map).
  apply mean_between; rewrite ?Hlen.
  - destruct data; [congruence | discriminate].
  - now apply sum_bound.
  - exact Hsize.
  - reflexivity.
  - reflexivity.
  - unfold column. apply Forall_map, Forall_forall.
    intros r Hr%list_elem_of_In. specialize (Hall r Hr). unfold i4 in Hall.
    apply andb_prop in Hall as [H1%Z.leb_le H2%Z.ltb_lt]. cbn beta. lia.
Qed.

End LoadedAverages.

(** X15: the loader and the statistics together: whatever array the loader
    returns, with fewer than [2^22] rows, its three averages are finite
    numbers between [-2^31] and [2^31 - 1] -- never [nan], never infinite --
    also for the empty array and for cells that took the default [-1]. *)
Theorem loaded_averages_finite (t : gmap path node) (filename : path)
    (data : Dataset) :
  load_data t filename = Ok data ->
  size data < 2 ^ 22 ->
  Forall (fun x =>
            is_finite x = true
            /\ SFleb (F64.of_Z (- 2 ^ 31)) x = true
            /\ SFleb x (F64.of_Z (2 ^ 31 - 1)) = true)
         [ avg_heart_rate (calculate_statistics data);
           avg_systolic_bp (calculate_statistics data);
           avg_glucose (calculate_statistics data) ].
Proof.
  intros Hvalid%load_data_valid Hsize.
  destruct data as [|r0 data']; [repeat constructor|].
  set (data := r0 :: data') in *.
  rewrite forallb_forall in Hvalid.
  assert (forall f,
            (forall r, valid_reading r = true -> i4 (f r) = true) ->
            is_finite (Np.mean (column f data)) = true
            /\ SFleb (F64.of_Z (- 2 ^ 31)) (Np.mean (column f data)) = true
            /\ SFleb (Np.mean (column f data)) (F64.of_Z (2 ^ 31 - 1)) = true)
    as Hmean.
  { intros f Hf.
    destruct (mean_i4 f data) as [Hlo Hhi]; [discriminate | exact Hsize | |].
    { intros r Hr. apply Hf, Hvalid. exact Hr. }
    split; [|split; assumption].
    apply (between_finite (- 2 ^ 31) (2 ^ 31 - 1)); try assumption;
      reflexivity. }
  assert (forall r, valid_reading r = true ->
            i4 (heart_rate r) = true
            /\ i4 (blood_pressure_systolic r) = true
            /\ i4 (glucose_level r) = true) as Hcells.
  { intros r Hr. unfold valid_reading in Hr.
    do 3 (apply andb_prop in Hr as [Hr ?]). auto. }
  change (calculate_statistics data)
    with {| avg_heart_rate := Np.mean (column heart_rate data);
            avg_systolic_bp := Np.mean (column blood_pressure_systolic data);
            avg_glucose := Np.mean (column glucose_level data) |}.
  cbn [avg_heart_rate avg_systolic_bp avg_glucose].
  repeat constructor; apply Hmean; intros r Hr; now apply Hcells.
Qed.

Lemma loaded_averages_finite_witness :
  is_finite (avg_heart_rate (calculate_statistics [numerals_reading])) = true.
Proof.
  refine (proj1 (Forall_inv
            (loaded_averages_finite {[ data_file := File numerals_file ]}
               data_file _ _ _)));
    [vm_compute; reflexivity | reflexivity].
Defined.

(** ** What the report shows *)

Section Rendering.

Lemma of_int_inj (n m : Z) : Str.of_int n = Str.of_int m -> n = m.
Proof.
  unfold Str.of_int. intros Heq.
  assert (forall z, NilZero.int_of_string (NilZero.string_of_int (Z.to_int z))
                    = Some (Z.to_int z)) as Hisi.
  { intros z. apply NilZero.isi; destruct z as [|p|p]; cbn; try discriminate;
      intros [= Hp]; now apply DecimalPos.Unsigned.to_uint_nonnil in Hp. }
  apply (f_equal NilZero.int_of_string) in Heq.
  rewrite !Hisi in Heq. injection Heq as Heq.
  rewrite <- (DecimalZ.of_to n), <- (DecimalZ.of_to m). now rewrite Heq.
Qed.

Lemma append_length (a b : string) :
  String.length (a +:+ b) = (String.length a + String.length b)%nat.
Proof.
  induction a as [|c a IH]; [reflexivity|].
  simpl. now rewrite IH.
Qed.

Lemma append_inj_r (a b c : string) : a +:+ c = b +:+ c -> a = b.
Proof.
  revert b. induction a as [|x a IH]; intros [|y b] Heq.
  - reflexivity.
  - apply (f_equal String.length) in Heq.
    rewrite !append_length in Heq. simpl in Heq. lia.
  - apply (f_equal String.length) in Heq.
    rewrite !append_length in Heq. simpl in Heq. lia.
  - simpl in Heq. injection Heq as -> Heq. f_equal. now apply IH.
Qed.

Lemma div_half_even_nearest (a b : Z) :
  0 <= a -> 0 < b ->
  2 * Z.abs (Fmt.div_half_even a b * b - a) <= b
  /\ (2 * Z.abs (Fmt.div_half_even a b * b - a) = b ->
      Z.even (Fmt.div_half_even a b) = true)
  /\ 0 <= Fmt.div_half_even a b.
Proof.
  intros Ha Hb. unfold Fmt.div_half_even.
  pose proof (Z.div_mod a b ltac:(lia)) as Hdiv.
  pose proof (Z.mod_pos_bound a b Hb) as Hmod.
  pose proof (Z.div_pos a b Ha Hb) as Hq.
  set (q := a / b) in *. set (r := a mod b) in *.
  destruct (2 * r ?= b) eqn:Hc.
  - apply Z.compare_eq in Hc.
    destruct (Z.even q) eqn:Hev.
    + split; [|split]; [nia | auto | lia].
    + split; [|split]; [nia | | lia].
      intros _. rewrite Z.even_add, Hev. reflexivity.
  - rewrite Z.compare_lt_iff in Hc.
    split; [|split]; [nia | intros Heq; exfalso; nia | lia].
  - rewrite Z.compare_gt_iff in Hc.
    split; [|split]; [nia | intros Heq; exfalso; nia | lia].
Qed.

Lemma of_int_digit (d : Z) :
  0 <= d <= 9 -> String.length (Str.of_int d) = 1%nat.
Proof.
  intros Hd.
  assert (d = 0 \/ d = 1 \/ d = 2 \/ d = 3 \/ d = 4 \/ d = 5 \/ d = 6
          \/ d = 7 \/ d = 8 \/ d = 9) as Hcases by lia.
  repeat (destruct Hcases as [-> | Hcases]; [reflexivity|]).
  now subst.
Qed.

End Rendering.

(** X16: the report loses neither the total nor a count: two reports that
    are equal as strings were rendered from the same total and the same
    three counts, and from averages that display alike. *)
Theorem generate_report_injective
    (stats1 stats2 : Statistics) (abnormal1 abnormal2 : AbnormalCounts)
    (total1 total2 : Z) :
  generate_report stats1 abnormal1 total1
  = generate_report stats2 abnormal2 total2 ->
  total1 = total2
  /\ abnormal1 = abnormal2
  /\ Fmt.fixed1 (avg_heart_rate stats1) = Fmt.fixed1 (avg_heart_rate stats2)
  /\ Fmt.fixed1 (avg_systolic_bp stats1) = Fmt.fixed1 (avg_systolic_bp stats2)
  /\ Fmt.fixed1 (avg_glucose stats1) = Fmt.fixed1 (avg_glucose stats2).
Proof.
  intros Heq. apply (f_equal (Str.split Str.LF)) in Heq.
  rewrite !generate_report_split in Heq. unfold report_lines in Heq.
  injection Heq as Htotal Hhr Hbp Hg Hchr Hcbp Hcg.
  change ("" +:+ ?x) with x in Htotal, Hhr, Hbp, Hg, Hchr, Hcbp, Hcg.
  apply of_int_inj in Htotal, Hchr, Hcbp, Hcg.
  apply append_inj_r in Hhr, Hbp, Hg.
  repeat split; try assumption.
  destruct abnormal1, abnormal2; cbn in *; congruence.
Qed.

Lemma generate_report_injective_witness :
  rounding_example <> rounded_example
  /\ Fmt.fixed1 (avg_heart_rate rounding_example)
     = Fmt.fixed1 (avg_heart_rate rounded_example)
  /\ Fmt.fixed1 (avg_systolic_bp rounding_example)
     = Fmt.fixed1 (avg_systolic_bp rounded_example)
  /\ Fmt.fixed1 (literal 7525 (-2)) = "75.2"
  /\ Fmt.fixed1 (literal 12004 (-2)) = "120.0".
Proof.
  assert (generate_report rounding_example zero_counts 3
          = generate_report rounded_example zero_counts 3) as Heq
    by (vm_compute; reflexivity).
  pose proof (generate_report_injective rounding_example rounded_example
                zero_counts zero_counts 3 3 Heq) as (_ & _ & Hhr & Hbp & _).
  split; [discriminate|]. split; [exact Hhr|]. split; [exact Hbp|].
  split; vm_compute; reflexivity.
Defined.

(** X17: [format(x, '.1f')] rounds to the nearest tenth: for a finite
    [x = m * 2^e] the text is the sign, the integer part, a point and one
    digit; the number of tenths displayed is within one half of
    [10 * |x|] -- the text is within 0.05 of the number -- and when it is
    exactly one half away, the number of tenths is even. *)
Theorem fixed1_nearest (s : bool) (m : positive) (e : Z) :
  Fmt.fixed1 (S754_finite s m e)
  = Fmt.sign_str s +:+ Str.of_int (Fmt.tenths m e / 10) +:+ "."
    +:+ Str.of_int (Fmt.tenths m e mod 10)
  /\ String.length (Str.of_int (Fmt.tenths m e mod 10)) = 1%nat
  /\ 0 <= Fmt.tenths m e
  /\ 2 * Z.abs (Fmt.tenths m e * 2 ^ Z.max (- e) 0
                - 10 * Zpos m * 2 ^ Z.max e 0)
     <= 2 ^ Z.max (- e) 0
  /\ (2 * Z.abs (Fmt.tenths m e * 2 ^ Z.max (- e) 0
                 - 10 * Zpos m * 2 ^ Z.max e 0)
      = 2 ^ Z.max (- e) 0 ->
      Z.even (Fmt.tenths m e) = true).
Proof.
  split; [reflexivity|]. split.
  { apply of_int_digit.
    pose proof (Z.mod_pos_bound (Fmt.tenths m e) 10 ltac:(lia)). lia. }
  unfold Fmt.tenths. destruct e as [|k|k].
  - change (Z.max (- 0) 0) with 0. change (Z.max 0 0) with 0.
    rewrite !Z.pow_0_r.
    split; [lia|]. split; [lia|]. intros Heq. exfalso. lia.
  - rewrite (Z.max_r (- Zpos k) 0), (Z.max_l (Zpos k) 0) by lia.
    rewrite !Z.pow_0_r.
    assert (0 < 2 ^ Zpos k) by (apply Z.pow_pos_nonneg; lia).
    split; [nia|]. split; [lia|]. intros Heq. exfalso. lia.
  - change (- Zneg k) with (Zpos k).
    rewrite (Z.max_l (Zpos k) 0), (Z.max_r (Zneg k) 0) by lia.
    rewrite !Z.pow_0_r.
    assert (0 < 2 ^ Zpos k) as HP by (apply Z.pow_pos_nonneg; lia).
    destruct (div_half_even_nearest (Zpos m * 10) (2 ^ Zpos k))
      as (Hnear & Htie & Hpos); [lia | exact HP|].
    split; [exact Hpos|].
    replace (10 * Zpos m * 1) with (Zpos m * 10) by ring.
    split; [exact Hnear | exact Htie].
Qed.
